(** * ghome-mcp-server: tool dispatch, argument checks and the device adapters

    A shallow embedding of the three server variants the repository holds:

    - [Legacy]: the single-file server (second unit of [src/types/index.ts]),
      whose call-tool handler is one [switch] over the tool name;
    - [SDM]: the tool module ([tools], [handlers]) and [SDMService] over the
      Smart Device Management client;
    - [HomeGraph]: the current [src/index.ts] with the HomeGraph-backed
      [handlers] and [HomeGraphService].

    JavaScript values are untyped at run time, so argument bags, vendor
    replies, tool results and thrown values are all [JsVal]s.  An [async]
    body is a computation in [Eff]: it leaves a trace of the vendor calls and
    metric updates it made and either resolves or rejects with a thrown
    value.  The vendor clients are oracles: records of functions giving the
    reply to each request.  Logger lines carry no state and are left out,
    save for what evaluating their arguments can throw ([error_text]);
    metric updates are kept as events. *)

From Stdlib Require Import String Ascii List ZArith Bool Lia.
From Stdlib Require Import DecimalString.
Import ListNotations.

Local Open Scope list_scope.
Local Open Scope string_scope.

(* ------------------------------------------------------------------ *)
(** ** JavaScript values and the coercions the handlers apply          *)
(* ------------------------------------------------------------------ *)

Module JS.

#[local] Set Warnings "-register-all".

(** Run-time values.  Numbers are the integer-valued doubles: [VNum n] is the
    double nearest to the integer [n] (the integer itself up to [2^53]); an
    object is its own enumerable properties in insertion order; [VError] is
    an instance of [Error] (or of the subclass named [name]). *)
Inductive JsVal : Type :=
| VUndefined
| VNull
| VBool (b : bool)
| VNum (n : Z)
| VStr (s : string)
| VArr (elems : list JsVal)
| VObj (props : list (string * JsVal))
| VError (name message : string).

(** Own-property lookup in a property list. *)
Fixpoint assoc (k : string) (ps : list (string * JsVal)) : option JsVal :=
  match ps with
  | [] => None
  | (k', v) :: rest => if String.eqb k k' then Some v else assoc k rest
  end.

Definition has_key (k : string) (ps : list (string * JsVal)) : bool :=
  match assoc k ps with Some _ => true | None => false end.

(** The property names every ordinary object inherits from
    [Object.prototype]. *)
Definition Object_prototype_names : list string :=
  [ "constructor"; "__defineGetter__"; "__defineSetter__"; "hasOwnProperty";
    "__lookupGetter__"; "__lookupSetter__"; "isPrototypeOf";
    "propertyIsEnumerable"; "toString"; "valueOf"; "__proto__";
    "toLocaleString" ].

Definition mem_string (k : string) (l : list string) : bool :=
  existsb (String.eqb k) l.

(** [ToBoolean]: [undefined], [null], [false], [0] and the empty string are
    falsy, everything else (every object, array and error) is truthy. *)
Definition ToBoolean (v : JsVal) : bool :=
  match v with
  | VUndefined | VNull => false
  | VBool b => b
  | VNum n => negb (Z.eqb n 0)
  | VStr s => negb (String.eqb s "")
  | VArr _ | VObj _ | VError _ _ => true
  end.

Definition string_of_Z (n : Z) : string :=
  NilZero.string_of_int (Z.to_int n).

(** The double nearest to the integer [a >= 0], ties going to the even
    significand; [None] beyond the largest finite double, where the number
    is [Infinity]. *)
Definition nearest_double (a : Z) : option Z :=
  if (a <? 2 ^ 53)%Z then Some a
  else
    let q := (Z.log2 a - 52)%Z in
    let m := Z.shiftr a q in
    let r := (a - Z.shiftl m q)%Z in
    let half := Z.shiftl 1 (q - 1) in
    let m' := if (r <? half)%Z then m
              else if (half <? r)%Z then (m + 1)%Z
              else if Z.even m then m else (m + 1)%Z in
    let x := Z.shiftl m' q in
    if (x <? Z.shiftl 1 1024)%Z then Some x else None.

(** The decimal integer [c] denotes the double [x]. *)
Definition reads_as (x c : Z) : bool :=
  match nearest_double c with Some y => Z.eqb y x | None => false end.

(** The digits [Number::toString] chooses for the double [x]: the decimal
    with the fewest significant digits that still denotes [x], the closest
    to [x] among those (on a tie the even one).  [p] runs down the powers of
    ten from that of the leading digit. *)
Fixpoint shortest (fuel : nat) (x p : Z) : Z :=
  match fuel with
  | O => x
  | S fuel' =>
      let lo := (x / p * p)%Z in
      let hi := (lo + p)%Z in
      match reads_as x lo, reads_as x hi with
      | true, true =>
          if (x - lo <? hi - x)%Z then lo
          else if (hi - x <? x - lo)%Z then hi
          else if Z.even (lo / p) then lo else hi
      | true, false => lo
      | false, true => hi
      | false, false => shortest fuel' x (p / 10)
      end
  end.

(** [c] without its trailing zeros. *)
Fixpoint significand (fuel : nat) (c : Z) : Z :=
  match fuel with
  | O => c
  | S fuel' =>
      if (c mod 10 =? 0)%Z && negb (c =? 0)%Z then significand fuel' (c / 10)%Z
      else c
  end.

(** [Number::toString] of a positive integer-valued double: plain digits up
    to 21 of them, exponent notation beyond. *)
Definition Number_toString_finite (x : Z) : string :=
  let d := String.length (string_of_Z x) in
  let c := shortest d x (10 ^ Z.of_nat (d - 1)) in
  let digits := string_of_Z c in
  let n := String.length digits in
  if (n <=? 21)%nat then digits
  else
    match string_of_Z (significand n c) with
    | EmptyString => digits
    | String lead rest =>
        String lead (if String.eqb rest "" then "" else "." ++ rest)
          ++ "e+" ++ string_of_Z (Z.of_nat (n - 1))
    end.

Definition Number_toString (n : Z) : string :=
  if (n =? 0)%Z then "0"
  else
    match nearest_double (Z.abs n) with
    | Some x => (if (n <? 0)%Z then "-" else "") ++ Number_toString_finite x
    | None => if (n <? 0)%Z then "-Infinity" else "Infinity"
    end.

(** [String(v)].  [None] stands for the [TypeError] that [ToPrimitive] raises
    on an object whose own [toString] property hides the inherited method
    (a decoded JSON value is never callable). *)
Fixpoint ToString (v : JsVal) : option string :=
  match v with
  | VUndefined => Some "undefined"
  | VNull => Some "null"
  | VBool true => Some "true"
  | VBool false => Some "false"
  | VNum n => Some (Number_toString n)
  | VStr s => Some s
  | VArr l =>
      (fix join (l : list JsVal) : option string :=
         match l with
         | [] => Some ""
         | x :: rest =>
             let elem :=
               match x with
               | VUndefined | VNull => Some ""
               | _ => ToString x
               end in
             match elem, rest with
             | None, _ => None
             | Some e, [] => Some e
             | Some e, _ :: _ =>
                 match join rest with
                 | Some r => Some (e ++ "," ++ r)
                 | None => None
                 end
             end
         end) l
  | VObj ps => if has_key "toString" ps then None else Some "[object Object]"
  | VError name message =>
      Some (if String.eqb message "" then name
            else if String.eqb name "" then message
            else name ++ ": " ++ message)
  end.

(** [typeof v]. *)
Definition typeof (v : JsVal) : string :=
  match v with
  | VUndefined => "undefined"
  | VBool _ => "boolean"
  | VNum _ => "number"
  | VStr _ => "string"
  | VNull | VArr _ | VObj _ | VError _ _ => "object"
  end.

(** [k in v] for an object [v]: own or inherited from [Object.prototype].
    The handlers test only [deviceId], [state] and [agentUserId], which no
    array or error carries. *)
Definition js_in (k : string) (v : JsVal) : bool :=
  match v with
  | VObj ps => has_key k ps || mem_string k Object_prototype_names
  | _ => mem_string k Object_prototype_names
  end.

(** The value of [v.k] when [v] is neither [null] nor [undefined].  The
    program reads data properties only: an absent one is [undefined], and an
    array answers [length]. *)
Definition prop (v : JsVal) (k : string) : JsVal :=
  match v with
  | VObj ps => match assoc k ps with Some x => x | None => VUndefined end
  | VArr l => if String.eqb k "length" then VNum (Z.of_nat (length l))
              else VUndefined
  | _ => VUndefined
  end.

Definition is_nullish (v : JsVal) : bool :=
  match v with VUndefined | VNull => true | _ => false end.

(** [v?.k]. *)
Definition opt_prop (v : JsVal) (k : string) : JsVal :=
  if is_nullish v then VUndefined else prop v k.

(** [a || b]. *)
Definition js_or (a b : JsVal) : JsVal := if ToBoolean a then a else b.

(** [v === s] against a string literal. *)
Definition strict_eq_str (v : JsVal) (s : string) : bool :=
  match v with VStr s' => String.eqb s' s | _ => false end.

Definition is_bool (v : JsVal) : bool :=
  match v with VBool _ => true | _ => false end.

(** The [TypeError] of reading a property of [null] or [undefined]. *)
Definition TypeError_read (receiver : JsVal) (k : string) : JsVal :=
  VError "TypeError"
    ("Cannot read properties of "
       ++ match receiver with VNull => "null" | _ => "undefined" end
       ++ " (reading '" ++ k ++ "')").

Definition TypeError_not_function (what : string) : JsVal :=
  VError "TypeError" (what ++ " is not a function").

Definition TypeError_to_primitive : JsVal :=
  VError "TypeError" "Cannot convert object to primitive value".

Definition TypeError_to_object : JsVal :=
  VError "TypeError" "Cannot convert undefined or null to object".

End JS.
Import JS.

(* ------------------------------------------------------------------ *)
(** ** Error codes and structured error objects                        *)
(* ------------------------------------------------------------------ *)

(** Modelled from the spec: the [ErrorCode] enumeration is imported from the
    protocol SDK, which is not part of the repository; its members are the
    five the specification's taxonomy names, numbered as JSON-RPC 2.0 does. *)
Inductive ErrorCode : Type :=
| ParseError | InvalidRequest | MethodNotFound | InvalidParams | InternalError.

Definition code_num (c : ErrorCode) : Z :=
  match c with
  | ParseError => -32700
  | InvalidRequest => -32600
  | MethodNotFound => -32601
  | InvalidParams => -32602
  | InternalError => -32603
  end%Z.

(** [{ code, message }] and [{ code, message, data }] as thrown by the code. *)
Definition mkError (c : ErrorCode) (message : string) : JsVal :=
  VObj [("code", VNum (code_num c)); ("message", VStr message)].

Definition mkErrorData (c : ErrorCode) (message : string) (data : JsVal) : JsVal :=
  VObj [("code", VNum (code_num c)); ("message", VStr message); ("data", data)].

(** The code a thrown value carries, when it is a structured error object. *)
Definition error_code (e : JsVal) : option ErrorCode :=
  match e with
  | VObj ps =>
      match assoc "code" ps with
      | Some (VNum n) =>
          if Z.eqb n (code_num ParseError) then Some ParseError
          else if Z.eqb n (code_num InvalidRequest) then Some InvalidRequest
          else if Z.eqb n (code_num MethodNotFound) then Some MethodNotFound
          else if Z.eqb n (code_num InvalidParams) then Some InvalidParams
          else if Z.eqb n (code_num InternalError) then Some InternalError
          else None
      | _ => None
      end
  | _ => None
  end.

Definition is_structured (e : JsVal) : bool :=
  match error_code e with Some _ => true | None => false end.

(* ------------------------------------------------------------------ *)
(** ** Effects: traces, resolution and rejection                       *)
(* ------------------------------------------------------------------ *)

(** What a computation does that is visible outside it. *)
Inductive Event : Type :=
| SdmList (parent : string)                  (* enterprises.devices.list *)
| SdmExecuteCommand (name : string) (on : bool)
| SdmGet (name : string)                     (* enterprises.devices.get *)
| HgQuery (agentUserId : string)             (* devices.query *)
| HgReportState (agentUserId : string) (states : JsVal)
| Increment (metric : string)
| Gauge (metric : string) (value : Z)
| Duration (metric : string).                (* gauge of an elapsed time *)

Definition is_backend_call (ev : Event) : bool :=
  match ev with
  | SdmList _ | SdmExecuteCommand _ _ | SdmGet _ | HgQuery _
  | HgReportState _ _ => true
  | Increment _ | Gauge _ _ | Duration _ => false
  end.

Definition backend_calls (t : list Event) : list Event :=
  filter is_backend_call t.

Inductive Outcome (A : Type) : Type :=
| Resolved (a : A)
| Rejected (e : JsVal).
Arguments Resolved {A} a.
Arguments Rejected {A} e.

Definition Eff (A : Type) : Type := (list Event * Outcome A)%type.

Definition ret {A} (a : A) : Eff A := ([], Resolved a).
Definition throw {A} (e : JsVal) : Eff A := ([], Rejected e).
Definition emit (ev : Event) : Eff unit := ([ev], Resolved tt).

Definition bind {A B} (m : Eff A) (k : A -> Eff B) : Eff B :=
  match m with
  | (t, Resolved a) => let (t', r) := k a in ((t ++ t')%list, r)
  | (t, Rejected e) => (t, Rejected e)
  end.

(** [try { m } catch (error) { h error }]. *)
Definition try_catch {A} (m : Eff A) (h : JsVal -> Eff A) : Eff A :=
  match m with
  | (t, Rejected e) => let (t', r) := h e in ((t ++ t')%list, r)
  | (t, Resolved a) => (t, Resolved a)
  end.

(** An awaited promise of a vendor client, after the call was recorded. *)
Definition await {A} (call : Event) (reply : Outcome A) : Eff A :=
  ([call], reply).

Definition trace {A} (m : Eff A) : list Event := fst m.
Definition outcome {A} (m : Eff A) : Outcome A := snd m.

Declare Scope eff_scope.
Delimit Scope eff_scope with eff.
Notation "x <- m ;; k" := (bind m (fun x => k))
  (at level 100, m at next level, right associativity) : eff_scope.
Notation "m ;; k" := (bind m (fun _ => k))
  (at level 100, right associativity) : eff_scope.
Local Open Scope eff_scope.

(** [v.k], which throws on [null] and [undefined]. *)
Definition get (v : JsVal) (k : string) : Eff JsVal :=
  if is_nullish v then throw (TypeError_read v k) else ret (prop v k).

(** [String(v)] as a computation. *)
Definition String_ (v : JsVal) : Eff string :=
  match ToString v with
  | Some s => ret s
  | None => throw TypeError_to_primitive
  end.

(** [error instanceof Error ? error.message : String(error)], the text a
    wrapping [catch] block computes for its log line before it counts the
    failure and throws the wrapper: converting a caught value that is not
    an [Error] can itself throw. *)
Definition error_text (error : JsVal) : Eff string :=
  match error with
  | VError _ message => ret message
  | _ => String_ error
  end.

(** The caught values that conversion goes through for. *)
Definition printable (error : JsVal) : bool :=
  match error with
  | VError _ _ => true
  | _ => match ToString error with Some _ => true | None => false end
  end.

(** Run [f] over the elements in order, stopping at the first rejection
    (an exception inside an array callback leaves the array method). *)
Fixpoint mapM {A B} (f : A -> Eff B) (l : list A) : Eff (list B) :=
  match l with
  | [] => ret []
  | x :: rest => y <- f x ;; ys <- mapM f rest ;; ret (y :: ys)
  end.

(* ------------------------------------------------------------------ *)
(** ** logger: [PerformanceMonitor.measureOperation]                   *)
(* ------------------------------------------------------------------ *)

Definition measureOperation {A} (name : string) (operation : Eff A) : Eff A :=
  try_catch
    (result <- operation ;;
     emit (Duration (name ++ "_duration_ms")) ;;
     emit (Increment (name ++ "_total")) ;;
     ret result)
    (fun error =>
       emit (Increment (name ++ "_errors")) ;;
       throw error).

(** [filter] with a callback that may throw. *)
Fixpoint filterM {A} (f : A -> Eff bool) (l : list A) : Eff (list A) :=
  match l with
  | [] => ret []
  | x :: rest =>
      keep <- f x ;;
      ys <- filterM f rest ;;
      ret (if keep then x :: ys else ys)
  end.

(** The receiver of [.filter(...)] / [.find(...)]: only an array has the
    method. *)
Definition as_array (callee : string) (v : JsVal) : Eff (list JsVal) :=
  match v with
  | VArr l => ret l
  | VUndefined | VNull => throw (TypeError_read v callee)
  | _ => throw (TypeError_not_function callee)
  end.

Definition OUTLET : string := "sdm.devices.types.OUTLET".
Definition trait_Info : string := "sdm.devices.traits.Info".
Definition trait_OnOff : string := "sdm.devices.traits.OnOff".
Definition trait_Connectivity : string := "sdm.devices.traits.Connectivity".

(* ------------------------------------------------------------------ *)
(** ** What the variants share                                         *)
(* ------------------------------------------------------------------ *)

(** The Smart Device Management client ([google.smartdevicemanagement]): for
    each request the promise it returns, as the [data] of the response or the
    rejection. *)
Record SdmClient : Type := {
  devices_list : string -> Outcome JsVal;
  devices_executeCommand : string -> bool -> Outcome JsVal;
  devices_get : string -> Outcome JsVal
}.

(** The HomeGraph client ([google.homegraph]), likewise.  The [requestId] of
    a state report is the clock reading and is not recorded. *)
Record HgClient : Type := {
  devices_query : string -> Outcome JsVal;
  devices_reportStateAndNotification : string -> JsVal -> Outcome JsVal
}.

Record Config : Type := {
  clientId : string;
  clientSecret : string;
  refreshToken : option string
}.

(** An [OAuth2Client] after [setCredentials]. *)
Record OAuth2Client : Type := {
  oauth_clientId : string;
  oauth_clientSecret : string;
  refresh_token : string
}.

(** An entry of the [tools] manifest: name, description, and the input
    schema as its properties (name, declared type, description) and the list
    of required names. *)
Record ToolDescriptor : Type := {
  tool_name : string;
  tool_description : string;
  tool_properties : list (string * (string * string));
  tool_required : list string
}.

(** The type a manifest declares for property [p] of tool [t]. *)
Definition declared_type (tools : list ToolDescriptor) (t p : string)
  : option string :=
  match find (fun d => String.eqb (tool_name d) t) tools with
  | Some d =>
      match find (fun q => String.eqb (fst q) p) (tool_properties d) with
      | Some q => Some (fst (snd q))
      | None => None
      end
  | None => None
  end.

(** The guard every checked handler opens with,
    [!args || typeof args !== 'object' || !('k1' in args) || ...],
    for the keys it names, in order. *)
Definition lacks_required (args : JsVal) (required : list string) : bool :=
  negb (ToBoolean args)
  || negb (String.eqb (typeof args) "object")
  || existsb (fun k => negb (js_in k args)) required.

(** The reply of a successful [control_smart_plug] over the SDM client. *)
Definition controlled (deviceId : string) (state : bool) : JsVal :=
  VObj [ ("content", VObj
    [ ("success", VBool true);
      ("device", VObj
         [ ("id", VStr deviceId);
           ("state", VObj [ ("on", VBool state); ("online", VBool true) ]) ]) ]) ].

Definition not_initialized {A : Type} : Eff A :=
  emit (Increment "sdm_not_initialized_errors") ;;
  throw (mkError InternalError "Smart Device Management API not initialized").

(** The client answers some request with a rejection that cannot be
    converted to a string. *)
Definition rejects_unprintably (c : SdmClient) : Prop :=
  exists v, printable v = false
    /\ ((exists parent, devices_list c parent = Rejected v)
        \/ (exists name on, devices_executeCommand c name on = Rejected v)
        \/ (exists name, devices_get c name = Rejected v)).

(* ------------------------------------------------------------------ *)
(** ** [SDMService] and the tool handlers over it                      *)
(* ------------------------------------------------------------------ *)

Module SDM.

(** [tools] of the SDM-backed tool module; the single-file server lists the
    same three descriptors inline. *)
Definition tools : list ToolDescriptor :=
  [ {| tool_name := "list_smart_plugs";
       tool_description := "List all available smart plugs and their current states";
       tool_properties := [];
       tool_required := [] |};
    {| tool_name := "control_smart_plug";
       tool_description := "Turn a smart plug on or off";
       tool_properties :=
         [ ("deviceId", ("string", "The ID of the smart plug to control"));
           ("state", ("boolean", "True to turn on, false to turn off")) ];
       tool_required := ["deviceId"; "state"] |};
    {| tool_name := "get_smart_plug_state";
       tool_description := "Get the current state of a specific smart plug";
       tool_properties :=
         [ ("deviceId", ("string", "The ID of the smart plug to query")) ];
       tool_required := ["deviceId"] |} ].

(** The object literal both [listDevices] and [getDeviceState] build from a
    vendor record. *)
Definition toSmartPlug (device : JsVal) : Eff JsVal :=
  id <- get device "name" ;;
  traits <- get device "traits" ;;
  name <- get device "name" ;;
  type <- get device "type" ;;
  ret (VObj
    [ ("id", id);
      ("name", js_or (opt_prop (opt_prop traits trait_Info) "customName") name);
      ("type", type);
      ("traits", js_or traits (VObj []));
      ("state", VObj
         [ ("on", VBool (ToBoolean (opt_prop (opt_prop traits trait_OnOff) "on")));
           ("online",
            VBool (strict_eq_str
                     (opt_prop (opt_prop traits trait_Connectivity) "status")
                     "ONLINE")) ]) ]).

Definition isOutlet (device : JsVal) : Eff bool :=
  type <- get device "type" ;;
  ret (strict_eq_str type OUTLET).

(** [SDMService.listDevices]. *)
Definition listDevices (sdm : option SdmClient) : Eff JsVal :=
  match sdm with
  | None => not_initialized
  | Some c =>
      try_catch
        (data <- await (SdmList "enterprises/-") (devices_list c "enterprises/-") ;;
         listed <- get data "devices" ;;
         devices <- as_array "filter" (js_or listed (VArr [])) ;;
         outlets <- filterM isOutlet devices ;;
         smartPlugs <- mapM toSmartPlug outlets ;;
         emit (Gauge "smart_plugs_count" (Z.of_nat (length smartPlugs))) ;;
         ret (VArr smartPlugs))
        (fun error =>
           error_text error ;;
           emit (Increment "get_devices_errors") ;;
           throw (mkErrorData InternalError "Failed to get devices" error))
  end.

(** [SDMService.controlDevice]. *)
Definition controlDevice (sdm : option SdmClient) (deviceId : string) (state : bool)
  : Eff unit :=
  match sdm with
  | None => not_initialized
  | Some c =>
      try_catch
        (await (SdmExecuteCommand deviceId state)
               (devices_executeCommand c deviceId state) ;;
         emit (Increment "device_control_success") ;;
         ret tt)
        (fun error =>
           error_text error ;;
           emit (Increment "device_control_errors") ;;
           throw (mkErrorData InternalError
                    ("Failed to control device " ++ deviceId) error))
  end.

(** [SDMService.getDeviceState]. *)
Definition getDeviceState (sdm : option SdmClient) (deviceId : string) : Eff JsVal :=
  match sdm with
  | None => not_initialized
  | Some c =>
      try_catch
        (device <- await (SdmGet deviceId) (devices_get c deviceId) ;;
         if negb (ToBoolean device) then
           emit (Increment "device_not_found_errors") ;;
           throw (mkError InvalidParams ("Device not found: " ++ deviceId))
         else
           emit (Increment "get_device_state_success") ;;
           toSmartPlug device)
        (fun error =>
           error_text error ;;
           emit (Increment "get_device_state_errors") ;;
           throw (mkErrorData InternalError
                    ("Failed to get device state: " ++ deviceId) error))
  end.

(** [handlers.list_smart_plugs]: the argument bag is not looked at. *)
Definition list_smart_plugs (sdm : option SdmClient) (args : JsVal) : Eff JsVal :=
  content <- listDevices sdm ;;
  ret (VObj [ ("content", content) ]).

(** [handlers.control_smart_plug]. *)
Definition control_smart_plug (sdm : option SdmClient) (args : JsVal) : Eff JsVal :=
  if lacks_required args ["deviceId"; "state"] then
    emit (Increment "invalid_control_params_errors") ;;
    throw (mkError InvalidParams "Missing required parameters: deviceId and state")
  else
    rawId <- get args "deviceId" ;;
    deviceId <- String_ rawId ;;
    rawState <- get args "state" ;;
    let state := ToBoolean rawState in
    controlDevice sdm deviceId state ;;
    ret (controlled deviceId state).

(** [handlers.get_smart_plug_state]. *)
Definition get_smart_plug_state (sdm : option SdmClient) (args : JsVal) : Eff JsVal :=
  if lacks_required args ["deviceId"] then
    emit (Increment "invalid_get_state_params_errors") ;;
    throw (mkError InvalidParams "Missing required parameter: deviceId")
  else
    rawId <- get args "deviceId" ;;
    deviceId <- String_ rawId ;;
    device <- getDeviceState sdm deviceId ;;
    ret (VObj [ ("content", device) ]).

End SDM.

(* ------------------------------------------------------------------ *)
(** ** The single-file server                                          *)
(* ------------------------------------------------------------------ *)

Module Legacy.

Record Server : Type := {
  sdm : option SdmClient;
  auth : option OAuth2Client;
  config : Config
}.

Definition keepsPlug (device : JsVal) : Eff bool :=
  type <- get device "type" ;;
  if strict_eq_str type OUTLET then
    name <- get device "name" ;;
    ret (ToBoolean name)
  else ret false.

Definition toSmartPlug (device : JsVal) : Eff JsVal :=
  id <- get device "name" ;;
  traits <- get device "traits" ;;
  name <- get device "name" ;;
  type <- get device "type" ;;
  ret (VObj
    [ ("id", id);
      ("name", js_or (opt_prop (opt_prop traits trait_Info) "customName") name);
      ("type", js_or type (VStr OUTLET));
      ("traits", js_or traits (VObj []));
      ("state", VObj
         [ ("on", VBool (ToBoolean (opt_prop (opt_prop traits trait_OnOff) "on")));
           ("online",
            VBool (strict_eq_str
                     (opt_prop (opt_prop traits trait_Connectivity) "status")
                     "ONLINE")) ]) ]).

(** [GoogleHomeServer.getSmartPlugs]. *)
Definition getSmartPlugs (s : Server) : Eff JsVal :=
  measureOperation "get_smart_plugs"
    match sdm s with
    | None => not_initialized
    | Some c =>
        try_catch
          (data <- await (SdmList "enterprises/me") (devices_list c "enterprises/me") ;;
           listed <- get data "devices" ;;
           devices <- as_array "filter" (js_or listed (VArr [])) ;;
           plugs <- filterM keepsPlug devices ;;
           smartPlugs <- mapM toSmartPlug plugs ;;
           emit (Gauge "smart_plugs_count" (Z.of_nat (length smartPlugs))) ;;
           ret (VArr smartPlugs))
          (fun error =>
             error_text error ;;
             emit (Increment "get_devices_errors") ;;
             throw (mkErrorData InternalError "Failed to get devices" error))
    end.

(** The [case "control_smart_plug"] block. *)
Definition case_control_smart_plug (s : Server) (args : JsVal) : Eff JsVal :=
  if lacks_required args ["deviceId"; "state"] then
    emit (Increment "invalid_control_params_errors") ;;
    throw (mkError InvalidParams "Missing required parameters: deviceId and state")
  else
    rawId <- get args "deviceId" ;;
    deviceId <- String_ rawId ;;
    rawState <- get args "state" ;;
    let state := ToBoolean rawState in
    match sdm s with
    | None => not_initialized
    | Some c =>
        try_catch
          (await (SdmExecuteCommand deviceId state)
                 (devices_executeCommand c deviceId state) ;;
           emit (Increment "device_control_success") ;;
           ret (controlled deviceId state))
          (fun error =>
             error_text error ;;
             emit (Increment "device_control_errors") ;;
             throw (mkErrorData InternalError
                      ("Failed to control device " ++ deviceId) error))
    end.

(** The [case "get_smart_plug_state"] block. *)
Definition case_get_smart_plug_state (s : Server) (args : JsVal) : Eff JsVal :=
  if lacks_required args ["deviceId"] then
    emit (Increment "invalid_get_state_params_errors") ;;
    throw (mkError InvalidParams "Missing required parameter: deviceId")
  else
    rawId <- get args "deviceId" ;;
    deviceId <- String_ rawId ;;
    match sdm s with
    | None => not_initialized
    | Some c =>
        try_catch
          (device <- await (SdmGet deviceId) (devices_get c deviceId) ;;
           if negb (ToBoolean device) then
             emit (Increment "device_not_found_errors") ;;
             throw (mkError InvalidParams ("Device not found: " ++ deviceId))
           else
             emit (Increment "get_device_state_success") ;;
             id <- get device "name" ;;
             traits <- get device "traits" ;;
             name <- get device "name" ;;
             type <- get device "type" ;;
             ret (VObj [ ("content", VObj
               [ ("id", id);
                 ("name",
                  js_or (opt_prop (opt_prop traits trait_Info) "customName") name);
                 ("type", type);
                 ("state", VObj
                    [ ("on", js_or (opt_prop (opt_prop traits trait_OnOff) "on")
                                   (VBool false));
                      ("online",
                       VBool (strict_eq_str
                                (opt_prop (opt_prop traits trait_Connectivity) "status")
                                "ONLINE")) ]) ]) ]))
          (fun error =>
             error_text error ;;
             emit (Increment "get_device_state_errors") ;;
             throw (mkErrorData InternalError
                      ("Failed to get device state: " ++ deviceId) error))
    end.

(** The list-tools request handler. *)
Definition listTools : Eff (list ToolDescriptor) :=
  emit (Increment "list_tools_requests") ;;
  ret SDM.tools.

(** The [CallToolRequestSchema] handler: [switch (name)]. *)
Definition callTool (s : Server) (name : string) (args : JsVal) : Eff JsVal :=
  measureOperation ("execute_tool_" ++ name)
    (emit (Increment ("tool_execution_" ++ name)) ;;
     if String.eqb name "list_smart_plugs" then
       content <- getSmartPlugs s ;;
       ret (VObj [ ("content", content) ])
     else if String.eqb name "control_smart_plug" then
       case_control_smart_plug s args
     else if String.eqb name "get_smart_plug_state" then
       case_get_smart_plug_state s args
     else
       emit (Increment "unknown_tool_errors") ;;
       throw (mkError MethodNotFound ("Unknown tool: " ++ name))).

(** [GoogleHomeServer.cleanup]. *)
Definition cleanup (s : Server) : Eff Server :=
  measureOperation "server_cleanup"
    (ret {| sdm := None; auth := None; config := config s |}).

End Legacy.

(* ------------------------------------------------------------------ *)
(** ** The current server: HomeGraph service, handlers and dispatch    *)
(* ------------------------------------------------------------------ *)

(** [find] with a callback that may throw: the first element it accepts, or
    [undefined]. *)
Fixpoint findM (f : JsVal -> Eff bool) (l : list JsVal) : Eff JsVal :=
  match l with
  | [] => ret VUndefined
  | x :: rest => hit <- f x ;; if hit then ret x else findM f rest
  end.

Module HomeGraph.

(** [HomeGraphService]: its private [homegraph] client is nullable. *)
Record HomeGraphService : Type := {
  svc_auth : OAuth2Client;
  svc_homegraph : option HgClient
}.

Record Server : Type := {
  auth : option OAuth2Client;
  homegraph : option HomeGraphService;
  config : Config
}.

(** [HomeGraphService.queryDevices]. *)
Definition queryDevices (svc : HomeGraphService) (agentUserId : string) : Eff JsVal :=
  measureOperation "query_devices"
    (try_catch
       (data <- match svc_homegraph svc with
                | None => ret VUndefined
                | Some c => await (HgQuery agentUserId) (devices_query c agentUserId)
                end ;;
        emit (Increment "query_devices_success") ;;
        ret data)
       (fun error =>
          emit (Increment "query_devices_failures") ;;
          throw error)).

(** [HomeGraphService.reportState]. *)
Definition reportState (svc : HomeGraphService) (agentUserId : string)
    (deviceStates : JsVal) : Eff JsVal :=
  measureOperation "report_state"
    (try_catch
       (data <- match svc_homegraph svc with
                | None => ret VUndefined
                | Some c =>
                    await (HgReportState agentUserId deviceStates)
                          (devices_reportStateAndNotification c agentUserId deviceStates)
                end ;;
        emit (Increment "report_state_success") ;;
        ret data)
       (fun error =>
          emit (Increment "report_state_failures") ;;
          throw error)).

(** A method call on the service reference the server passes, which is
    [null] before set-up and after clean-up. *)
Definition on_service {A} (hg : option HomeGraphService) (method : string)
    (k : HomeGraphService -> Eff A) : Eff A :=
  match hg with
  | None => throw (TypeError_read VNull method)
  | Some svc => k svc
  end.

Section Handlers.

(** [JSON.stringify(value, null, space)] of the runtime ([space = 0] for the
    one-argument call); it yields a string or [undefined]. *)
Variable JSON_stringify : JsVal -> nat -> JsVal.

Definition text_content (text : JsVal) : JsVal :=
  VObj [ ("content", VArr
    [ VObj [ ("type", VStr "text"); ("text", text);
             ("mimeType", VStr "application/json") ] ]) ].

(** [handlers.list_smart_plugs]. *)
Definition list_smart_plugs (hg : option HomeGraphService) (args : JsVal) : Eff JsVal :=
  rawUser <- get args "agentUserId" ;;
  agentUserId <- String_ rawUser ;;
  response <- on_service hg "queryDevices" (fun svc => queryDevices svc agentUserId) ;;
  ret (text_content (JSON_stringify response 2)).

(** [handlers.control_smart_plug]. *)
Definition control_smart_plug (hg : option HomeGraphService) (args : JsVal) : Eff JsVal :=
  if lacks_required args ["deviceId"; "state"; "agentUserId"] then
    emit (Increment "invalid_control_params_errors") ;;
    throw (mkError InvalidParams
             "Missing required parameters: agentUserId, deviceId and state")
  else
    rawUser <- get args "agentUserId" ;;
    agentUserId <- String_ rawUser ;;
    rawId <- get args "deviceId" ;;
    deviceId <- String_ rawId ;;
    rawState <- get args "state" ;;
    let state := ToBoolean rawState in
    on_service hg "reportState" (fun svc =>
      reportState svc agentUserId
        (VObj [ (deviceId, VObj [ ("online", VBool true);
                                  ("status", VStr "SUCCESS");
                                  ("on", VBool state) ]) ])) ;;
    ret (text_content
           (JSON_stringify
              (VObj [ ("success", VBool true); ("deviceId", VStr deviceId);
                      ("state", VBool state) ]) 0)).

(** [handlers.get_smart_plug_state]. *)
Definition get_smart_plug_state (hg : option HomeGraphService) (args : JsVal) : Eff JsVal :=
  if lacks_required args ["deviceId"; "agentUserId"] then
    emit (Increment "invalid_get_state_params_errors") ;;
    throw (mkError InvalidParams "Missing required parameters: agentUserId and deviceId")
  else
    rawUser <- get args "agentUserId" ;;
    agentUserId <- String_ rawUser ;;
    rawId <- get args "deviceId" ;;
    deviceId <- String_ rawId ;;
    response <- on_service hg "queryDevices" (fun svc => queryDevices svc agentUserId) ;;
    payload <- get response "payload" ;;
    let devices :=
      match opt_prop payload "devices" with
      | VArr l => l
      | _ => []
      end in
    device <- findM (fun d => id <- get d "id" ;; ret (strict_eq_str id deviceId))
                    devices ;;
    ret (text_content (JSON_stringify device 2)).

(** What [handlers[name]] evaluates to: an own handler, a member inherited
    from [Object.prototype] (every one of them truthy), or [undefined]. *)
Inductive Slot : Type :=
| Own (handler : option HomeGraphService -> JsVal -> Eff JsVal)
| Inherited
| Missing.

Definition handlers (name : string) : Slot :=
  if String.eqb name "list_smart_plugs" then Own list_smart_plugs
  else if String.eqb name "control_smart_plug" then Own control_smart_plug
  else if String.eqb name "get_smart_plug_state" then Own get_smart_plug_state
  else if mem_string name Object_prototype_names then Inherited
  else Missing.

(** [tools], the manifest the list-tools request returns. *)
Definition tools : list ToolDescriptor :=
  [ {| tool_name := "list_smart_plugs";
       tool_description := "List all available smart plugs and their current states";
       tool_properties :=
         [ ("agentUserId", ("string", "The agent user ID to query devices for")) ];
       tool_required := ["agentUserId"] |};
    {| tool_name := "control_smart_plug";
       tool_description := "Turn a smart plug on or off";
       tool_properties :=
         [ ("agentUserId", ("string", "The agent user ID"));
           ("deviceId", ("string", "The ID of the smart plug to control"));
           ("state", ("boolean", "True to turn on, false to turn off")) ];
       tool_required := ["agentUserId"; "deviceId"; "state"] |};
    {| tool_name := "get_smart_plug_state";
       tool_description := "Get the current state of a specific smart plug";
       tool_properties :=
         [ ("agentUserId", ("string", "The agent user ID"));
           ("deviceId", ("string", "The ID of the smart plug to query")) ];
       tool_required := ["agentUserId"; "deviceId"] |} ].

(** The list-tools request handler. *)
Definition listTools : Eff (list ToolDescriptor) :=
  emit (Increment "list_tools_requests") ;;
  ret tools.

(** Calling an inherited member as [handler(this.homegraph, toolArgs || {})],
    that is with [this] undefined: [Object(x)] gives an object (here one
    without [content]), [toString] gives the tag of [undefined],
    [isPrototypeOf] answers [false] for a non-object argument, the accessor
    [__proto__] reads as [Object.prototype], which is not callable, and the
    others fail to convert [this] to an object. *)
Definition call_inherited (name : string) (hg : option HomeGraphService) : Eff JsVal :=
  if String.eqb name "constructor" then ret (VObj [])
  else if String.eqb name "toString" then ret (VStr "[object Undefined]")
  else if String.eqb name "__proto__" then throw (TypeError_not_function "handler")
  else if String.eqb name "isPrototypeOf" then
    match hg with
    | None => ret (VBool false)
    | Some _ => throw TypeError_to_object
    end
  else throw TypeError_to_object.

(** The [CallToolRequestSchema] handler of [setupTools]. *)
Definition callTool (s : Server) (name : string) (toolArgs : JsVal) : Eff JsVal :=
  measureOperation ("execute_tool_" ++ name)
    (emit (Increment ("tool_execution_" ++ name)) ;;
     match handlers name with
     | Missing =>
         emit (Increment "unknown_tool_errors") ;;
         throw (mkError MethodNotFound ("Unknown tool: " ++ name))
     | slot =>
         response <-
           match slot with
           | Own handler => handler (homegraph s) (js_or toolArgs (VObj []))
           | _ => call_inherited name (homegraph s)
           end ;;
         content <- get response "content" ;;
         get content "length" ;;
         ret (VObj [ ("content", content) ])
     end).

End Handlers.

(** [GoogleHomeServer.cleanup]. *)
Definition cleanup (s : Server) : Eff Server :=
  measureOperation "server_cleanup"
    (ret {| auth := None; homegraph := None; config := config s |}).

End HomeGraph.

(* ------------------------------------------------------------------ *)
(** ** Reading results                                                 *)
(* ------------------------------------------------------------------ *)

(** [r.k1.k2...] on a value whose path exists ([undefined] otherwise). *)
Definition field (path : list string) (r : JsVal) : JsVal :=
  fold_left prop path r.

(** A [control_smart_plug] result that reports device [deviceId] as set to
    [on] and reachable: [{success:true, device:{id, state:{on, online:true}}}]. *)
Definition reports_state (r : JsVal) (deviceId : string) (on : bool) : Prop :=
  field ["content"; "success"] r = VBool true
  /\ field ["content"; "device"; "id"] r = VStr deviceId
  /\ field ["content"; "device"; "state"; "on"] r = VBool on
  /\ field ["content"; "device"; "state"; "online"] r = VBool true.

(** What one [control_smart_plug] run [run] over the client reference
    [client] does with the raw argument values [vId] and [vState]: every
    vendor call it makes is the on/off command carrying [Boolean(vState)],
    a result echoes that same flag, when the id converts to the string
    [d] and a client is there, the command for [d] is the one vendor call,
    and when the vendor acknowledges that command the run resolves with the
    reply that reports [d] as set to [Boolean(vState)]. *)
Definition sends_coerced_state (run : Eff JsVal) (client : option SdmClient)
    (vId vState : JsVal) : Prop :=
  (forall ev, In ev (backend_calls (trace run)) ->
     exists d, ev = SdmExecuteCommand d (ToBoolean vState))
  /\ (forall r, outcome run = Resolved r ->
       field ["content"; "device"; "state"; "on"] r = VBool (ToBoolean vState))
  /\ (forall c d, client = Some c -> ToString vId = Some d ->
       backend_calls (trace run) = [SdmExecuteCommand d (ToBoolean vState)])
  /\ (forall c d ack, client = Some c -> ToString vId = Some d ->
       devices_executeCommand c d (ToBoolean vState) = Resolved ack ->
       exists r, outcome run = Resolved r
                 /\ reports_state r d (ToBoolean vState)).

(* ------------------------------------------------------------------ *)
(** ** Vendor device records and device snapshots                      *)
(* ------------------------------------------------------------------ *)

(** [interface DeviceState] of [types/index.ts]: the vendor record, with its
    three optional traits ([customName] is optional inside [Info]). *)
Record DeviceState : Type := {
  ds_name : string;
  ds_type : string;
  ds_Info : option (option string);
  ds_OnOff : option bool;
  ds_Connectivity : option string
}.

(** The record as the JavaScript object the client hands over. *)
Definition encode (d : DeviceState) : JsVal :=
  VObj
    [ ("name", VStr (ds_name d));
      ("type", VStr (ds_type d));
      ("traits", VObj
         (match ds_Info d with
          | Some (Some n) => [ (trait_Info, VObj [ ("customName", VStr n) ]) ]
          | Some None => [ (trait_Info, VObj []) ]
          | None => []
          end
          ++ match ds_OnOff d with
             | Some b => [ (trait_OnOff, VObj [ ("on", VBool b) ]) ]
             | None => []
             end
          ++ match ds_Connectivity d with
             | Some st => [ (trait_Connectivity, VObj [ ("status", VStr st) ]) ]
             | None => []
             end)%list) ].

(** The Device Snapshot of the specification. *)
Record Snapshot : Type := {
  snap_id : string;
  snap_name : string;
  snap_on : bool;
  snap_online : bool
}.

(** Reading a snapshot off a list element [{id, name, state:{on, online}}];
    [None] when a field is missing or of another type. *)
Definition read_snapshot (v : JsVal) : option Snapshot :=
  match field ["id"] v, field ["name"] v,
        field ["state"; "on"] v, field ["state"; "online"] v with
  | VStr id, VStr name, VBool on, VBool online =>
      Some {| snap_id := id; snap_name := name;
              snap_on := on; snap_online := online |}
  | _, _, _, _ => None
  end.

(** An element with boolean [on] and [online] fields under [state]. *)
Definition snapshot_shaped (v : JsVal) : bool :=
  is_bool (field ["state"; "on"] v) && is_bool (field ["state"; "online"] v).

Definition is_outlet (d : DeviceState) : bool := String.eqb (ds_type d) OUTLET.

(** The mapping as the specification words it: the custom name when present,
    otherwise the device id; the on/off trait, false when absent; online
    exactly when the connectivity status is ["ONLINE"]. *)
Definition spec_snapshot (d : DeviceState) : Snapshot :=
  {| snap_id := ds_name d;
     snap_name := match ds_Info d with
                  | Some (Some n) => n
                  | _ => ds_name d
                  end;
     snap_on := match ds_OnOff d with Some b => b | None => false end;
     snap_online := match ds_Connectivity d with
                    | Some st => String.eqb st "ONLINE"
                    | None => false
                    end |}.

(** The same with the custom name used only when it is not empty. *)
Definition snapshot_of (d : DeviceState) : Snapshot :=
  {| snap_id := ds_name d;
     snap_name := match ds_Info d with
                  | Some (Some n) => if String.eqb n "" then ds_name d else n
                  | _ => ds_name d
                  end;
     snap_on := match ds_OnOff d with Some b => b | None => false end;
     snap_online := match ds_Connectivity d with
                    | Some st => String.eqb st "ONLINE"
                    | None => false
                    end |}.

(** A vendor reply listing the records [ds]. *)
Definition listing (ds : list DeviceState) : JsVal :=
  VObj [ ("devices", VArr (map encode ds)) ].

(* ------------------------------------------------------------------ *)
(** ** Fixtures: vendor clients and servers used as concrete inputs    *)
(* ------------------------------------------------------------------ *)

Module Fixtures.

(** A vendor account with no device at all: listing gives an empty reply,
    every command is acknowledged, and looking a device up yields no record. *)
Definition emptyAccount : SdmClient :=
  {| devices_list := fun _ => Resolved (VObj []);
     devices_executeCommand := fun _ _ => Resolved (VObj []);
     devices_get := fun _ => Resolved VNull |}.

Definition someConfig : Config :=
  {| clientId := "client"; clientSecret := "secret"; refreshToken := Some "token" |}.

Definition someAuth : OAuth2Client :=
  {| oauth_clientId := "client"; oauth_clientSecret := "secret";
     refresh_token := "token" |}.

Definition legacyServer (c : SdmClient) : Legacy.Server :=
  {| Legacy.sdm := Some c; Legacy.auth := Some someAuth;
     Legacy.config := someConfig |}.

(** An account holding the records [ds]. *)
Definition accountWith (ds : list DeviceState) : SdmClient :=
  {| devices_list := fun _ => Resolved (listing ds);
     devices_executeCommand := fun _ _ => Resolved (VObj []);
     devices_get := fun _ => Resolved VNull |}.

(** An outlet the user never named: the vendor sends an empty custom name. *)
Definition unnamedPlug : DeviceState :=
  {| ds_name := "enterprises/p/devices/d1"; ds_type := OUTLET;
     ds_Info := Some (Some ""); ds_OnOff := Some true;
     ds_Connectivity := Some "ONLINE" |}.

Definition namedPlug : DeviceState :=
  {| ds_name := "enterprises/p/devices/d2"; ds_type := OUTLET;
     ds_Info := Some (Some "Desk lamp"); ds_OnOff := None;
     ds_Connectivity := Some "OFFLINE" |}.

Definition camera : DeviceState :=
  {| ds_name := "enterprises/p/devices/d3";
     ds_type := "sdm.devices.types.CAMERA";
     ds_Info := None; ds_OnOff := None; ds_Connectivity := Some "ONLINE" |}.

(** A HomeGraph account that answers every query with an empty reply. *)
Definition hgAccount : HgClient :=
  {| devices_query := fun _ => Resolved (VObj []);
     devices_reportStateAndNotification := fun _ _ => Resolved (VObj []) |}.

(** A HomeGraph endpoint that cannot be reached: the client rejects with a
    plain [Error]. *)
Definition hgUnreachable : HgClient :=
  {| devices_query := fun _ => Rejected (VError "Error" "socket hang up");
     devices_reportStateAndNotification :=
       fun _ _ => Rejected (VError "Error" "socket hang up") |}.

Definition hgService (c : HgClient) : HomeGraph.HomeGraphService :=
  {| HomeGraph.svc_auth := someAuth; HomeGraph.svc_homegraph := Some c |}.

Definition hgServer (c : HgClient) : HomeGraph.Server :=
  {| HomeGraph.auth := Some someAuth;
     HomeGraph.homegraph := Some (hgService c);
     HomeGraph.config := someConfig |}.

(** [JSON.stringify] on the one value the fixtures above let it see: the
    empty object prints as ["{}"]. *)
Definition stringify_empty (value : JsVal) (space : nat) : JsVal := VStr "{}".

End Fixtures.

(* ------------------------------------------------------------------ *)
(** ** logger: [MetricsCollector] and [HealthCheck]                    *)
(* ------------------------------------------------------------------ *)

(** A JavaScript [Map] keyed by strings: its entries in insertion order,
    every key at most once.  [Map.set] on a key that is there replaces the
    value in place. *)
Module JsMap.

Fixpoint get {A} (k : string) (m : list (string * A)) : option A :=
  match m with
  | [] => None
  | (k', v) :: rest => if String.eqb k k' then Some v else get k rest
  end.

Fixpoint set {A} (k : string) (v : A) (m : list (string * A)) : list (string * A) :=
  match m with
  | [] => [(k, v)]
  | (k', v') :: rest =>
      if String.eqb k k' then (k, v) :: rest else (k', v') :: set k v rest
  end.

Definition keys {A} (m : list (string * A)) : list string := map fst m.

End JsMap.

Module Metrics.

(** The numbers a metric can hold: an integer a double holds exactly, an
    infinity, or [NaN]. *)
Inductive Num : Type :=
| Finite (n : Z)
| Infinite (negative : bool)
| NaN.

(** [a + b]: the exact sum rounded to the nearest double (ties to even),
    an infinity beyond the largest one. *)
Definition plus (a b : Num) : Num :=
  match a, b with
  | NaN, _ | _, NaN => NaN
  | Infinite s, Infinite s' => if Bool.eqb s s' then Infinite s else NaN
  | Infinite s, Finite _ | Finite _, Infinite s => Infinite s
  | Finite x, Finite y =>
      let z := (x + y)%Z in
      match nearest_double (Z.abs z) with
      | Some r => Finite (if (z <? 0)%Z then (- r)%Z else r)
      | None => Infinite (z <? 0)%Z
      end
  end.

(** [Boolean(a)]: zero and [NaN] are falsy. *)
Definition truthy (a : Num) : bool :=
  match a with
  | Finite n => negb (n =? 0)%Z
  | Infinite _ => true
  | NaN => false
  end.

Record MetricValue : Type := {
  value : Num;
  timestamp : Z
}.

(** The private [metrics] map of a collector. *)
Definition Collector : Type := list (string * MetricValue).

Definition empty : Collector := [].

(** [get(metric)?.value || 0]. *)
Definition standing (metric : string) (m : Collector) : Num :=
  match JsMap.get metric m with
  | Some v => if truthy (value v) then value v else Finite 0
  | None => Finite 0
  end.

(** [increment(metric, value = 1)], with [now] the reading of [Date.now()]. *)
Definition increment (now : Z) (metric : string) (amount : option Num)
    (m : Collector) : Collector :=
  let amount := match amount with Some a => a | None => Finite 1 end in
  let current := standing metric m in
  JsMap.set metric {| value := plus current amount; timestamp := now |} m.

(** [gauge(metric, value)]. *)
Definition gauge (now : Z) (metric : string) (v : Num) (m : Collector) : Collector :=
  JsMap.set metric {| value := v; timestamp := now |} m.

(** The value a metric stands at, if it was ever written. *)
Definition reading (metric : string) (m : Collector) : option Num :=
  match JsMap.get metric m with
  | Some v => Some (value v)
  | None => None
  end.

End Metrics.

Module Health.

(** The private [checks] map: each check is a promise-returning closure over
    the state [S] it inspects when it is run. *)
Definition Registry (S : Type) : Type := list (string * (S -> Eff bool)).

(** [registerCheck(name, check)]. *)
Definition registerCheck {S} (name : string) (check : S -> Eff bool)
    (checks : Registry S) : Registry S :=
  JsMap.set name check checks.

(** [results[name] = b] on the plain object [results]: an own property is
    written, except that assigning a boolean to [__proto__] does nothing. *)
Definition assign (name : string) (b : bool) (results : list (string * bool))
  : list (string * bool) :=
  if String.eqb name "__proto__" then results else JsMap.set name b results.

(** The [for ... of] loop of [performChecks]: a check that throws counts as
    failed. *)
Fixpoint runChecks {S} (checks : Registry S) (s : S)
    (results : list (string * bool)) : Eff (list (string * bool)) :=
  match checks with
  | [] => ret results
  | (name, check) :: rest =>
      b <- try_catch (check s) (fun _ => ret false) ;;
      runChecks rest s (assign name b results)
  end.

(** [performChecks()], run while the inspected state is [s]. *)
Definition performChecks {S} (checks : Registry S) (s : S)
  : Eff (list (string * bool)) :=
  runChecks checks s [].

End Health.

(* ------------------------------------------------------------------ *)
(** ** Start-up: state that survives a rejection                       *)
(* ------------------------------------------------------------------ *)

(** A method that assigns fields of [this] on its way: the state it leaves
    (also when it rejects) next to what it did. *)
Module St.

Definition StEff (S A : Type) : Type := S -> S * Eff A.

Definition st_ret {S A} (a : A) : StEff S A := fun s => (s, ret a).
Definition st_throw {S A} (e : JsVal) : StEff S A := fun s => (s, throw e).
Definition st_lift {S A} (m : Eff A) : StEff S A := fun s => (s, m).
Definition st_get {S} : StEff S S := fun s => (s, ret s).
Definition st_put {S} (s' : S) : StEff S unit := fun _ => (s', ret tt).

Definition st_bind {S A B} (m : StEff S A) (k : A -> StEff S B) : StEff S B :=
  fun s =>
    match m s with
    | (s1, (t, Resolved a)) =>
        match k a s1 with
        | (s2, (t', r)) => (s2, ((t ++ t')%list, r))
        end
    | (s1, (t, Rejected e)) => (s1, (t, Rejected e))
    end.

(** [try { m } catch (error) { h error }]. *)
Definition st_try {S A} (m : StEff S A) (h : JsVal -> StEff S A) : StEff S A :=
  fun s =>
    match m s with
    | (s1, (t, Rejected e)) =>
        match h e s1 with
        | (s2, (t', r)) => (s2, ((t ++ t')%list, r))
        end
    | (s1, (t, Resolved a)) => (s1, (t, Resolved a))
    end.

(** [measureOperation] around a method body. *)
Definition st_measure {S A} (name : string) (operation : StEff S A) : StEff S A :=
  st_try
    (st_bind operation (fun result =>
     st_bind (st_lift (emit (Duration (name ++ "_duration_ms")))) (fun _ =>
     st_bind (st_lift (emit (Increment (name ++ "_total")))) (fun _ =>
     st_ret result))))
    (fun error =>
       st_bind (st_lift (emit (Increment (name ++ "_errors")))) (fun _ =>
       st_throw error)).

Definition final_state {S A} (r : S * Eff A) : S := fst r.
Definition result {S A} (r : S * Eff A) : Eff A := snd r.

End St.
Import St.

Declare Scope st_scope.
Delimit Scope st_scope with st.
Notation "x <- m ;; k" := (st_bind m (fun x => k))
  (at level 100, m at next level, right associativity) : st_scope.
Notation "m ;; k" := (st_bind m (fun _ => k))
  (at level 100, right associativity) : st_scope.

Definition is_empty (s : string) : bool := String.eqb s "".

(** Start-up of the current server ([src/index.ts]). *)
Module HomeGraphStartup.

(** [new HomeGraphService(auth)]: the constructor runs [initialize], which
    builds the client with [google.homegraph] ([factory] is what that call
    gives) and rethrows when it fails. *)
Definition newHomeGraphService (factory : Outcome HgClient) (auth : OAuth2Client)
  : Eff HomeGraph.HomeGraphService :=
  try_catch
    (client <- ([], factory) ;;
     ret {| HomeGraph.svc_auth := auth; HomeGraph.svc_homegraph := Some client |})
    (fun error =>
       emit (Increment "homegraph_init_failures") ;;
       throw error).

Local Open Scope st_scope.

(** [GoogleHomeServer.setupAuth]; [getAccessToken] is the answer of the token
    endpoint to the client just configured. *)
Definition setupAuth (getAccessToken : OAuth2Client -> Outcome JsVal)
  : StEff HomeGraph.Server unit :=
  st_measure "setup_auth"
    (st_try
       (s <- st_get ;;
        let cfg := HomeGraph.config s in
        match refreshToken cfg with
        | Some token =>
            if is_empty token then
              st_lift (emit (Increment "auth_setup_failures")) ;;
              st_throw (VError "Error"
                "Refresh token not found in config.json. Please run get-refresh-token.ts first.")
            else if is_empty (clientId cfg) || is_empty (clientSecret cfg) then
              st_lift (emit (Increment "auth_setup_failures")) ;;
              st_throw (VError "Error"
                "Missing clientId or clientSecret in config.json")
            else
              st_try
                (let client :=
                   {| oauth_clientId := clientId cfg;
                      oauth_clientSecret := clientSecret cfg;
                      refresh_token := token |} in
                 st_put {| HomeGraph.auth := Some client;
                           HomeGraph.homegraph := HomeGraph.homegraph s;
                           HomeGraph.config := cfg |} ;;
                 st_lift ([], getAccessToken client) ;;
                 st_ret tt)
                (fun authError =>
                   st_lift (emit (Increment "oauth_setup_failures")) ;;
                   st_throw (mkErrorData InternalError "OAuth2 setup failed"
                               authError))
        | None =>
            st_lift (emit (Increment "auth_setup_failures")) ;;
            st_throw (VError "Error"
              "Refresh token not found in config.json. Please run get-refresh-token.ts first.")
        end)
       (fun error =>
          st_lift (emit (Increment "auth_setup_failures")) ;;
          st_throw error)).

End HomeGraphStartup.

(** Start-up of the single-file server. *)
Module LegacyStartup.

Local Open Scope st_scope.

(** The request kinds [setupTools] installs a handler for. *)
Inductive RequestKind : Type := ListToolsRequest | CallToolRequest.

(** The server object together with what start-up registers elsewhere: the
    request handlers of the protocol layer and the checks of the global
    [health] registry. *)
Record World : Type := {
  server : Legacy.Server;
  requestHandlers : list RequestKind;
  health : Health.Registry Legacy.Server
}.

Definition with_server (w : World) (s : Legacy.Server) : World :=
  {| server := s; requestHandlers := requestHandlers w; health := health w |}.

(** [GoogleHomeServer.setupAuth]; [factory] is what
    [google.smartdevicemanagement] gives for the client just configured. *)
Definition setupAuth (factory : OAuth2Client -> Outcome SdmClient)
  : StEff Legacy.Server unit :=
  st_measure "setup_auth"
    (st_try
       (s <- st_get ;;
        let cfg := Legacy.config s in
        match refreshToken cfg with
        | Some token =>
            if is_empty token then
              st_throw (VError "Error"
                "Refresh token not found in config.json. Please run get-refresh-token.ts first.")
            else
              let client :=
                {| oauth_clientId := clientId cfg;
                   oauth_clientSecret := clientSecret cfg;
                   refresh_token := token |} in
              st_put {| Legacy.sdm := Legacy.sdm s; Legacy.auth := Some client;
                        Legacy.config := cfg |} ;;
              sdm <- st_lift ([], factory client) ;;
              st_put {| Legacy.sdm := Some sdm; Legacy.auth := Some client;
                        Legacy.config := cfg |}
        | None =>
            st_throw (VError "Error"
              "Refresh token not found in config.json. Please run get-refresh-token.ts first.")
        end)
       (fun error =>
          st_lift (error_text error) ;;
          st_lift (emit (Increment "auth_setup_failures")) ;;
          st_throw (mkErrorData InternalError "Authentication setup failed" error))).

(** A method of the server run inside the world. *)
Definition on_server {A} (m : StEff Legacy.Server A) : StEff World A :=
  fun w => match m (server w) with (s', r) => (with_server w s', r) end.

Definition same_kind (a b : RequestKind) : bool :=
  match a, b with
  | ListToolsRequest, ListToolsRequest => true
  | CallToolRequest, CallToolRequest => true
  | _, _ => false
  end.

(** [setRequestHandler]: the protocol layer keeps one handler per kind. *)
Definition install (k : RequestKind) (installed : list RequestKind)
  : list RequestKind :=
  if existsb (same_kind k) installed then installed
  else (installed ++ [k])%list.

(** [setupTools]: both request handlers are installed. *)
Definition setupTools : StEff World unit :=
  fun w =>
    ({| server := server w;
        requestHandlers :=
          install CallToolRequest (install ListToolsRequest (requestHandlers w));
        health := health w |}, ret tt).

Definition registerCheck (name : string) (check : Legacy.Server -> Eff bool)
  : StEff World unit :=
  fun w =>
    ({| server := server w; requestHandlers := requestHandlers w;
        health := Health.registerCheck name check (health w) |}, ret tt).

Definition is_set {A} (o : option A) : bool :=
  match o with Some _ => true | None => false end.

(** [GoogleHomeServer.initialize]. *)
Definition initialize (factory : OAuth2Client -> Outcome SdmClient)
  : StEff World unit :=
  st_measure "server_initialize"
    (on_server (setupAuth factory) ;;
     setupTools ;;
     registerCheck "auth" (fun s => ret (is_set (Legacy.auth s))) ;;
     registerCheck "sdm" (fun s => ret (is_set (Legacy.sdm s)))).

(** [cleanup] of the server, inside the world. *)
Definition cleanup : StEff World unit :=
  fun w =>
    match Legacy.cleanup (server w) with
    | (t, Resolved s') => (with_server w s', (t, Resolved tt))
    | (t, Rejected e) => (w, (t, Rejected e))
    end.

End LegacyStartup.

(* ------------------------------------------------------------------ *)
(** ** Further accounts and servers used as concrete inputs            *)
(* ------------------------------------------------------------------ *)

Module Scenarios.

(** An account the vendor refuses every request of. *)
Definition refusedAccount : SdmClient :=
  {| devices_list := fun _ => Rejected (VError "GaxiosError" "Forbidden");
     devices_executeCommand := fun _ _ => Rejected (VError "GaxiosError" "Forbidden");
     devices_get := fun _ => Rejected (VError "GaxiosError" "Forbidden") |}.

(** An account whose requests all reject with an object that hides the
    inherited [toString] behind a property of its own, so that [String]
    cannot convert it. *)
Definition opaqueAccount : SdmClient :=
  {| devices_list := fun _ => Rejected (VObj [("toString", VNull)]);
     devices_executeCommand := fun _ _ => Rejected (VObj [("toString", VNull)]);
     devices_get := fun _ => Rejected (VObj [("toString", VNull)]) |}.

(** An account whose look-up answers with the record [d], whatever the id. *)
Definition accountHolding (d : DeviceState) : SdmClient :=
  {| devices_list := fun _ => Resolved (listing [d]);
     devices_executeCommand := fun _ _ => Resolved (VObj []);
     devices_get := fun _ => Resolved (encode d) |}.

(** A HomeGraph account that answers every query with [reply]. *)
Definition hgReplying (reply : JsVal) : HgClient :=
  {| devices_query := fun _ => Resolved reply;
     devices_reportStateAndNotification := fun _ _ => Resolved (VObj []) |}.

(** A query reply listing two devices. *)
Definition twoDevices : JsVal :=
  VObj [ ("payload", VObj [ ("devices", VArr
    [ VObj [ ("id", VStr "lamp"); ("type", VStr "action.devices.types.OUTLET") ];
      VObj [ ("id", VStr "fan"); ("type", VStr "action.devices.types.OUTLET") ] ]) ]) ].

(** [JSON.stringify] standing in as the identity on values, so that what was
    handed to it can be read back. *)
Definition stringify_id (value : JsVal) (space : nat) : JsVal := value.

Definition stoppedLegacy : Legacy.Server :=
  {| Legacy.sdm := None; Legacy.auth := None; Legacy.config := Fixtures.someConfig |}.

Definition stoppedServer : HomeGraph.Server :=
  {| HomeGraph.auth := None; HomeGraph.homegraph := None;
     HomeGraph.config := Fixtures.someConfig |}.

Definition configWithoutToken : Config :=
  {| clientId := "client"; clientSecret := "secret"; refreshToken := None |}.

Definition configWithoutSecret : Config :=
  {| clientId := "client"; clientSecret := ""; refreshToken := Some "token" |}.

Definition freshServer (cfg : Config) : HomeGraph.Server :=
  {| HomeGraph.auth := None; HomeGraph.homegraph := None; HomeGraph.config := cfg |}.

Definition freshLegacy (cfg : Config) : Legacy.Server :=
  {| Legacy.sdm := None; Legacy.auth := None; Legacy.config := cfg |}.

(** The world at process start: the [memory] check is registered when the
    logger module loads; [memoryCheck] is its answer. *)
Definition freshWorld (cfg : Config) (memoryCheck : Eff bool) : LegacyStartup.World :=
  {| LegacyStartup.server := freshLegacy cfg;
     LegacyStartup.requestHandlers := [];
     LegacyStartup.health := [ ("memory", fun _ => memoryCheck) ] |}.

End Scenarios.

(* ------------------------------------------------------------------ *)
(** ** Laws of the effect operations                                   *)
(* ------------------------------------------------------------------ *)

Lemma bind_ret_l {A B} (a : A) (k : A -> Eff B) : bind (ret a) k = k a.
Proof. unfold bind, ret. destruct (k a); reflexivity. Qed.

Lemma bind_throw {A B} (e : JsVal) (k : A -> Eff B) : bind (throw e) k = throw e.
Proof. reflexivity. Qed.

Lemma bind_rejected {A B} (t : list Event) (e : JsVal) (k : A -> Eff B) :
  bind (t, Rejected e) k = (t, Rejected e).
Proof. reflexivity. Qed.

Lemma bind_resolved {A B} (t : list Event) (a : A) (k : A -> Eff B) :
  bind (t, Resolved a) k = ((t ++ trace (k a))%list, outcome (k a)).
Proof. unfold bind, trace, outcome. destruct (k a); reflexivity. Qed.

Lemma bind_assoc {A B C} (m : Eff A) (k : A -> Eff B) (h : B -> Eff C) :
  bind (bind m k) h = bind m (fun a => bind (k a) h).
Proof.
  destruct m as [t [a | e]]; [| reflexivity].
  unfold bind. destruct (k a) as [t1 [b | e1]]; [| reflexivity].
  destruct (h b) as [t2 r]. now rewrite app_assoc.
Qed.

Lemma backend_calls_app (t u : list Event) :
  backend_calls (t ++ u) = (backend_calls t ++ backend_calls u)%list.
Proof. apply filter_app. Qed.

(** [measureOperation] adds metric updates only and hands on the result or
    the very value that was thrown. *)
Lemma measureOperation_outcome {A} (name : string) (op : Eff A) :
  outcome (measureOperation name op) = outcome op.
Proof. destruct op as [t [a | e]]; reflexivity. Qed.

Lemma measureOperation_backend_calls {A} (name : string) (op : Eff A) :
  backend_calls (trace (measureOperation name op)) = backend_calls (trace op).
Proof.
  destruct op as [t [a | e]]; unfold measureOperation; cbn;
    rewrite backend_calls_app; cbn; apply app_nil_r.
Qed.

(** A wrapping [catch] block goes on to count and wrap exactly when the
    caught value is printable; otherwise the conversion's [TypeError] is
    what leaves the block. *)
Lemma error_text_then {A} (e : JsVal) (k : Eff A) :
  (error_text e ;; k) = if printable e then k else throw TypeError_to_primitive.
Proof.
  unfold error_text, printable, String_.
  destruct e; try (destruct (ToString _); [apply bind_ret_l | reflexivity]).
  apply bind_ret_l.
Qed.

Lemma error_text_cases (e : JsVal) :
  (exists text, error_text e = ret text /\ printable e = true)
  \/ (error_text e = throw TypeError_to_primitive /\ printable e = false).
Proof.
  unfold error_text, printable, String_.
  destruct e; try (destruct (ToString _) as [text |];
                   [left; now exists text | right; now split]).
  left. now exists message.
Qed.

(* ------------------------------------------------------------------ *)
(** ** The argument guard                                              *)
(* ------------------------------------------------------------------ *)

Lemma js_in_present (k : string) (ps : list (string * JsVal)) (v : JsVal) :
  assoc k ps = Some v -> js_in k (VObj ps) = true.
Proof. intros H. unfold js_in, has_key. now rewrite H. Qed.

Lemma js_in_absent (k : string) (ps : list (string * JsVal)) :
  assoc k ps = None -> mem_string k Object_prototype_names = false ->
  js_in k (VObj ps) = false.
Proof. intros H Hp. unfold js_in, has_key. now rewrite H, Hp. Qed.

Lemma prop_present (k : string) (ps : list (string * JsVal)) (v : JsVal) :
  assoc k ps = Some v -> prop (VObj ps) k = v.
Proof. intros H. cbn. now rewrite H. Qed.

Lemma get_obj (ps : list (string * JsVal)) (k : string) :
  get (VObj ps) k = ret (prop (VObj ps) k).
Proof. reflexivity. Qed.

(** With both keys present the SDM-backed handler goes on to coerce and call
    the service, whatever the run-time types of the two values. *)
Lemma SDM_control_present (sdm : option SdmClient) (ps : list (string * JsVal))
    (vId vState : JsVal) :
  assoc "deviceId" ps = Some vId ->
  assoc "state" ps = Some vState ->
  SDM.control_smart_plug sdm (VObj ps) =
    match ToString vId with
    | Some d =>
        (SDM.controlDevice sdm d (ToBoolean vState) ;;
         ret (controlled d (ToBoolean vState)))
    | None => throw TypeError_to_primitive
    end.
Proof.
  intros Hid Hst. unfold SDM.control_smart_plug, lacks_required.
  cbn [ToBoolean typeof negb existsb orb].
  rewrite (js_in_present _ _ _ Hid), (js_in_present _ _ _ Hst).
  cbn [negb orb String.eqb Ascii.eqb Bool.eqb andb].
  rewrite !get_obj, bind_ret_l, (prop_present _ _ _ Hid).
  unfold String_. destruct (ToString vId) as [d |]; [| reflexivity].
  rewrite bind_ret_l, bind_ret_l, (prop_present _ _ _ Hst). reflexivity.
Qed.

Lemma Legacy_control_present (s : Legacy.Server) (ps : list (string * JsVal))
    (vId vState : JsVal) :
  assoc "deviceId" ps = Some vId ->
  assoc "state" ps = Some vState ->
  Legacy.case_control_smart_plug s (VObj ps) =
    match ToString vId with
    | Some d =>
        match Legacy.sdm s with
        | None => not_initialized
        | Some c =>
            try_catch
              (await (SdmExecuteCommand d (ToBoolean vState))
                     (devices_executeCommand c d (ToBoolean vState)) ;;
               emit (Increment "device_control_success") ;;
               ret (controlled d (ToBoolean vState)))
              (fun error =>
                 error_text error ;;
                 emit (Increment "device_control_errors") ;;
                 throw (mkErrorData InternalError
                          ("Failed to control device " ++ d) error))
        end
    | None => throw TypeError_to_primitive
    end.
Proof.
  intros Hid Hst. unfold Legacy.case_control_smart_plug, lacks_required.
  cbn [ToBoolean typeof negb existsb orb].
  rewrite (js_in_present _ _ _ Hid), (js_in_present _ _ _ Hst).
  cbn [negb orb String.eqb Ascii.eqb Bool.eqb andb].
  rewrite !get_obj, bind_ret_l, (prop_present _ _ _ Hid).
  unfold String_. destruct (ToString vId) as [d |]; [| reflexivity].
  rewrite bind_ret_l, bind_ret_l, (prop_present _ _ _ Hst). reflexivity.
Qed.

(** The dispatch of the single-file server reaches the [control_smart_plug]
    case under that name. *)
Lemma Legacy_callTool_control (s : Legacy.Server) (args : JsVal) :
  Legacy.callTool s "control_smart_plug" args =
    measureOperation "execute_tool_control_smart_plug"
      (emit (Increment "tool_execution_control_smart_plug") ;;
       Legacy.case_control_smart_plug s args).
Proof. reflexivity. Qed.

(** Every way the body of the control case can end, in either variant. *)
Lemma SDM_controlDevice_cases (sdm : option SdmClient) (d : string) (on : bool) :
  SDM.controlDevice sdm d on =
    match sdm with
    | None => not_initialized
    | Some c =>
        match devices_executeCommand c d on with
        | Resolved _ =>
            ([SdmExecuteCommand d on; Increment "device_control_success"],
             Resolved tt)
        | Rejected e =>
            if printable e then
              ([SdmExecuteCommand d on; Increment "device_control_errors"],
               Rejected (mkErrorData InternalError
                           ("Failed to control device " ++ d) e))
            else ([SdmExecuteCommand d on], Rejected TypeError_to_primitive)
        end
    end.
Proof.
  destruct sdm as [c |]; [| reflexivity]. unfold SDM.controlDevice, await.
  destruct (devices_executeCommand c d on) as [a | e]; [reflexivity |].
  rewrite bind_rejected. unfold try_catch. rewrite error_text_then.
  destruct (printable e); reflexivity.
Qed.

Lemma SDM_control_cases (sdm : option SdmClient) (ps : list (string * JsVal))
    (vId vState : JsVal) :
  assoc "deviceId" ps = Some vId ->
  assoc "state" ps = Some vState ->
  SDM.control_smart_plug sdm (VObj ps) =
    match ToString vId with
    | None => ([], Rejected TypeError_to_primitive)
    | Some d =>
        match sdm with
        | None =>
            ([Increment "sdm_not_initialized_errors"],
             Rejected (mkError InternalError
                         "Smart Device Management API not initialized"))
        | Some c =>
            match devices_executeCommand c d (ToBoolean vState) with
            | Resolved _ =>
                ([SdmExecuteCommand d (ToBoolean vState);
                  Increment "device_control_success"],
                 Resolved (controlled d (ToBoolean vState)))
            | Rejected e =>
                if printable e then
                  ([SdmExecuteCommand d (ToBoolean vState);
                    Increment "device_control_errors"],
                   Rejected (mkErrorData InternalError
                               ("Failed to control device " ++ d) e))
                else
                  ([SdmExecuteCommand d (ToBoolean vState)],
                   Rejected TypeError_to_primitive)
            end
        end
    end.
Proof.
  intros Hid Hst. rewrite (SDM_control_present _ _ _ _ Hid Hst).
  destruct (ToString vId) as [d |]; [| reflexivity].
  rewrite SDM_controlDevice_cases.
  destruct sdm as [c |]; [| reflexivity].
  destruct (devices_executeCommand c d (ToBoolean vState)) as [a | e];
    [reflexivity |].
  destruct (printable e); reflexivity.
Qed.

Lemma Legacy_control_cases (s : Legacy.Server) (ps : list (string * JsVal))
    (vId vState : JsVal) :
  assoc "deviceId" ps = Some vId ->
  assoc "state" ps = Some vState ->
  Legacy.callTool s "control_smart_plug" (VObj ps) =
    match ToString vId with
    | None =>
        ([Increment "tool_execution_control_smart_plug";
          Increment "execute_tool_control_smart_plug_errors"],
         Rejected TypeError_to_primitive)
    | Some d =>
        match Legacy.sdm s with
        | None =>
            ([Increment "tool_execution_control_smart_plug";
              Increment "sdm_not_initialized_errors";
              Increment "execute_tool_control_smart_plug_errors"],
             Rejected (mkError InternalError
                         "Smart Device Management API not initialized"))
        | Some c =>
            match devices_executeCommand c d (ToBoolean vState) with
            | Resolved _ =>
                ([Increment "tool_execution_control_smart_plug";
                  SdmExecuteCommand d (ToBoolean vState);
                  Increment "device_control_success";
                  Duration "execute_tool_control_smart_plug_duration_ms";
                  Increment "execute_tool_control_smart_plug_total"],
                 Resolved (controlled d (ToBoolean vState)))
            | Rejected e =>
                if printable e then
                  ([Increment "tool_execution_control_smart_plug";
                    SdmExecuteCommand d (ToBoolean vState);
                    Increment "device_control_errors";
                    Increment "execute_tool_control_smart_plug_errors"],
                   Rejected (mkErrorData InternalError
                               ("Failed to control device " ++ d) e))
                else
                  ([Increment "tool_execution_control_smart_plug";
                    SdmExecuteCommand d (ToBoolean vState);
                    Increment "execute_tool_control_smart_plug_errors"],
                   Rejected TypeError_to_primitive)
            end
        end
    end.
Proof.
  intros Hid Hst.
  rewrite Legacy_callTool_control, (Legacy_control_present _ _ _ _ Hid Hst).
  destruct (ToString vId) as [d |]; [| reflexivity].
  destruct (Legacy.sdm s) as [c |]; [| reflexivity].
  unfold await.
  destruct (devices_executeCommand c d (ToBoolean vState)) as [a | e];
    [reflexivity |].
  rewrite bind_rejected. unfold try_catch. rewrite error_text_then.
  destruct (printable e); reflexivity.
Qed.

(** C1 (control_smart_plug, optimistic report).  For every device id and
    requested boolean state, when the vendor acknowledges the on/off command
    the handler resolves with [success:true], [device.state.on] equal to the
    requested state and [device.state.online] true; the command is the only
    vendor call of the run (no device is fetched), so nothing the vendor
    would say about the device before the call enters the reply.  Holds for
    the SDM-backed handler and for the single-file server. *)
Theorem C1_control_reports_requested_state
    (c : SdmClient) (s : Legacy.Server) (ps : list (string * JsVal))
    (deviceId : string) (state : bool) (ack : JsVal) :
  assoc "deviceId" ps = Some (VStr deviceId) ->
  assoc "state" ps = Some (VBool state) ->
  devices_executeCommand c deviceId state = Resolved ack ->
  Legacy.sdm s = Some c ->
  (exists r,
      outcome (SDM.control_smart_plug (Some c) (VObj ps)) = Resolved r
      /\ reports_state r deviceId state)
  /\ backend_calls (trace (SDM.control_smart_plug (Some c) (VObj ps)))
     = [SdmExecuteCommand deviceId state]
  /\ (exists r,
      outcome (Legacy.callTool s "control_smart_plug" (VObj ps)) = Resolved r
      /\ reports_state r deviceId state)
  /\ backend_calls (trace (Legacy.callTool s "control_smart_plug" (VObj ps)))
     = [SdmExecuteCommand deviceId state].
Proof.
  intros Hid Hst Hack Hsdm.
  rewrite (SDM_control_cases _ _ _ _ Hid Hst),
          (Legacy_control_cases _ _ _ _ Hid Hst), Hsdm.
  cbn [ToString ToBoolean]. rewrite Hack.
  repeat split; try (eexists; split; [reflexivity | repeat split]).
Qed.

Lemma C1_witness :
  (exists r,
      outcome (SDM.control_smart_plug (Some Fixtures.emptyAccount)
                 (VObj [("deviceId", VStr "X"); ("state", VBool true)]))
      = Resolved r
      /\ reports_state r "X" true)
  /\ backend_calls
       (trace (SDM.control_smart_plug (Some Fixtures.emptyAccount)
                 (VObj [("deviceId", VStr "X"); ("state", VBool true)])))
     = [SdmExecuteCommand "X" true]
  /\ (exists r,
      outcome (Legacy.callTool (Fixtures.legacyServer Fixtures.emptyAccount)
                 "control_smart_plug"
                 (VObj [("deviceId", VStr "X"); ("state", VBool true)]))
      = Resolved r
      /\ reports_state r "X" true)
  /\ backend_calls
       (trace (Legacy.callTool (Fixtures.legacyServer Fixtures.emptyAccount)
                 "control_smart_plug"
                 (VObj [("deviceId", VStr "X"); ("state", VBool true)])))
     = [SdmExecuteCommand "X" true].
Proof.
  apply (C1_control_reports_requested_state Fixtures.emptyAccount
           (Fixtures.legacyServer Fixtures.emptyAccount)
           [("deviceId", VStr "X"); ("state", VBool true)] "X" true (VObj []));
    reflexivity.
Defined.

Lemma lacks_required_control (ps : list (string * JsVal)) :
  assoc "deviceId" ps = None \/ assoc "state" ps = None ->
  lacks_required (VObj ps) ["deviceId"; "state"] = true.
Proof.
  intros H. unfold lacks_required. cbn [ToBoolean typeof negb existsb orb].
  destruct H as [H | H].
  - now rewrite (js_in_absent "deviceId" ps H eq_refl).
  - rewrite (js_in_absent "state" ps H eq_refl).
    destruct (js_in "deviceId" (VObj ps)); reflexivity.
Qed.

(** C5 (control_smart_plug, missing required field).  For every argument bag
    that lacks [deviceId] or [state], the call rejects with the error object
    whose code is [InvalidParams], and the run makes no vendor call at all:
    the guard is the first thing the handler does.  Holds for the SDM-backed
    handler, whatever client reference it is given, and for the single-file
    server in whatever state. *)
Theorem C5_missing_required_field_is_InvalidParams
    (sdm : option SdmClient) (s : Legacy.Server) (ps : list (string * JsVal)) :
  assoc "deviceId" ps = None \/ assoc "state" ps = None ->
  (outcome (SDM.control_smart_plug sdm (VObj ps))
   = Rejected (mkError InvalidParams
                 "Missing required parameters: deviceId and state")
   /\ backend_calls (trace (SDM.control_smart_plug sdm (VObj ps))) = [])
  /\ (outcome (Legacy.callTool s "control_smart_plug" (VObj ps))
      = Rejected (mkError InvalidParams
                    "Missing required parameters: deviceId and state")
      /\ backend_calls (trace (Legacy.callTool s "control_smart_plug" (VObj ps)))
         = []).
Proof.
  intros H. pose proof (lacks_required_control ps H) as Hg.
  rewrite Legacy_callTool_control.
  unfold SDM.control_smart_plug, Legacy.case_control_smart_plug.
  rewrite Hg. repeat split.
Qed.

Lemma C5_witness :
  (outcome (SDM.control_smart_plug (Some Fixtures.emptyAccount)
              (VObj [("deviceId", VStr "missing")]))
   = Rejected (mkError InvalidParams
                 "Missing required parameters: deviceId and state")
   /\ backend_calls
        (trace (SDM.control_smart_plug (Some Fixtures.emptyAccount)
                  (VObj [("deviceId", VStr "missing")]))) = [])
  /\ (outcome (Legacy.callTool (Fixtures.legacyServer Fixtures.emptyAccount)
                 "control_smart_plug" (VObj [("deviceId", VStr "missing")]))
      = Rejected (mkError InvalidParams
                    "Missing required parameters: deviceId and state")
      /\ backend_calls
           (trace (Legacy.callTool (Fixtures.legacyServer Fixtures.emptyAccount)
                     "control_smart_plug" (VObj [("deviceId", VStr "missing")])))
         = []).
Proof.
  apply (C5_missing_required_field_is_InvalidParams
           (Some Fixtures.emptyAccount)
           (Fixtures.legacyServer Fixtures.emptyAccount)
           [("deviceId", VStr "missing")]).
  right. reflexivity.
Defined.

(** A run of the control case with both keys present coerces the state. *)
Lemma SDM_control_sends_coerced (sdm : option SdmClient)
    (ps : list (string * JsVal)) (vId vState : JsVal) :
  assoc "deviceId" ps = Some vId ->
  assoc "state" ps = Some vState ->
  sends_coerced_state (SDM.control_smart_plug sdm (VObj ps)) sdm vId vState.
Proof.
  intros Hid Hst. rewrite (SDM_control_cases _ _ _ _ Hid Hst).
  unfold sends_coerced_state.
  destruct (ToString vId) as [d |]; [destruct sdm as [c |] |].
  - destruct (devices_executeCommand c d (ToBoolean vState)) as [a | e] eqn:E;
      [| destruct (printable e)]; (split; [| split; [| split]]).
    + intros ev [<- | []]. now exists d.
    + intros r [= <-]. reflexivity.
    + intros c' d' [= <-] [= <-]. reflexivity.
    + intros c' d' ack [= <-] [= <-] _.
      eexists; split; [reflexivity | repeat split].
    + intros ev [<- | []]. now exists d.
    + intros r [=].
    + intros c' d' [= <-] [= <-]. reflexivity.
    + intros c' d' ack [= <-] [= <-] H. rewrite E in H. discriminate.
    + intros ev [<- | []]. now exists d.
    + intros r [=].
    + intros c' d' [= <-] [= <-]. reflexivity.
    + intros c' d' ack [= <-] [= <-] H. rewrite E in H. discriminate.
  - split; [| split; [| split]];
      [intros ev [] | intros r [=] | intros c d' [=] | intros c d' ack [=]].
  - split; [| split; [| split]];
      [intros ev [] | intros r [=] | intros c d' _ [=]
      | intros c d' ack _ [=]].
Qed.

Lemma Legacy_control_sends_coerced (s : Legacy.Server)
    (ps : list (string * JsVal)) (vId vState : JsVal) :
  assoc "deviceId" ps = Some vId ->
  assoc "state" ps = Some vState ->
  sends_coerced_state (Legacy.callTool s "control_smart_plug" (VObj ps))
    (Legacy.sdm s) vId vState.
Proof.
  intros Hid Hst. rewrite (Legacy_control_cases _ _ _ _ Hid Hst).
  unfold sends_coerced_state.
  destruct (ToString vId) as [d |]; [destruct (Legacy.sdm s) as [c |] |].
  - destruct (devices_executeCommand c d (ToBoolean vState)) as [a | e] eqn:E;
      [| destruct (printable e)]; (split; [| split; [| split]]).
    + intros ev [<- | []]. now exists d.
    + intros r [= <-]. reflexivity.
    + intros c' d' [= <-] [= <-]. reflexivity.
    + intros c' d' ack [= <-] [= <-] _.
      eexists; split; [reflexivity | repeat split].
    + intros ev [<- | []]. now exists d.
    + intros r [=].
    + intros c' d' [= <-] [= <-]. reflexivity.
    + intros c' d' ack [= <-] [= <-] H. rewrite E in H. discriminate.
    + intros ev [<- | []]. now exists d.
    + intros r [=].
    + intros c' d' [= <-] [= <-]. reflexivity.
    + intros c' d' ack [= <-] [= <-] H. rewrite E in H. discriminate.
  - split; [| split; [| split]];
      [intros ev [] | intros r [=] | intros c d' [=] | intros c d' ack [=]].
  - split; [| split; [| split]];
      [intros ev [] | intros r [=] | intros c d' _ [=]
      | intros c d' ack _ [=]].
Qed.

(** C10 (control_smart_plug, coercion of [state]).  For every argument bag
    holding both [deviceId] and [state], whatever the run-time type of the
    state value, the flag sent to the vendor and echoed in the result is
    [Boolean(state)]: every vendor call of the run is the on/off command with
    that flag, every result carries it as [device.state.on], the command
    is issued as soon as the id converts to a string and a client is there,
    and when the vendor acknowledges it the call resolves with the reply
    that reports the device as set to [Boolean(state)].
    So the string ["false"] switches the plug on, while [0] and the empty
    string switch it off.  Holds for the SDM-backed handler and for the
    single-file server. *)
Theorem C10_state_is_coerced_by_truthiness
    (sdm : option SdmClient) (s : Legacy.Server) (ps : list (string * JsVal))
    (vId vState : JsVal) :
  assoc "deviceId" ps = Some vId ->
  assoc "state" ps = Some vState ->
  sends_coerced_state (SDM.control_smart_plug sdm (VObj ps)) sdm vId vState
  /\ sends_coerced_state (Legacy.callTool s "control_smart_plug" (VObj ps))
       (Legacy.sdm s) vId vState
  /\ ToBoolean (VStr "false") = true
  /\ ToBoolean (VNum 0) = false
  /\ ToBoolean (VStr "") = false.
Proof.
  intros Hid Hst. split; [| split; [| repeat split]].
  - now apply SDM_control_sends_coerced.
  - now apply Legacy_control_sends_coerced.
Qed.

Lemma C10_witness :
  sends_coerced_state
    (SDM.control_smart_plug (Some Fixtures.emptyAccount)
       (VObj [("deviceId", VStr "plug-1"); ("state", VStr "false")]))
    (Some Fixtures.emptyAccount) (VStr "plug-1") (VStr "false")
  /\ sends_coerced_state
       (Legacy.callTool (Fixtures.legacyServer Fixtures.emptyAccount)
          "control_smart_plug"
          (VObj [("deviceId", VStr "plug-1"); ("state", VStr "false")]))
       (Legacy.sdm (Fixtures.legacyServer Fixtures.emptyAccount))
       (VStr "plug-1") (VStr "false")
  /\ ToBoolean (VStr "false") = true
  /\ ToBoolean (VNum 0) = false
  /\ ToBoolean (VStr "") = false.
Proof.
  apply (C10_state_is_coerced_by_truthiness (Some Fixtures.emptyAccount)
           (Fixtures.legacyServer Fixtures.emptyAccount)
           [("deviceId", VStr "plug-1"); ("state", VStr "false")]
           (VStr "plug-1") (VStr "false")); reflexivity.
Defined.

(** The concrete runs behind the examples of C10. *)
Example control_with_string_false_switches_on :
  SDM.control_smart_plug (Some Fixtures.emptyAccount)
    (VObj [("deviceId", VStr "plug-1"); ("state", VStr "false")])
  = ([SdmExecuteCommand "plug-1" true; Increment "device_control_success"],
     Resolved (controlled "plug-1" true)).
Proof. reflexivity. Qed.

Example control_with_zero_switches_off :
  SDM.control_smart_plug (Some Fixtures.emptyAccount)
    (VObj [("deviceId", VStr "plug-1"); ("state", VNum 0)])
  = ([SdmExecuteCommand "plug-1" false; Increment "device_control_success"],
     Resolved (controlled "plug-1" false)).
Proof. reflexivity. Qed.

Example control_with_empty_string_switches_off :
  SDM.control_smart_plug (Some Fixtures.emptyAccount)
    (VObj [("deviceId", VStr "plug-1"); ("state", VStr "")])
  = ([SdmExecuteCommand "plug-1" false; Increment "device_control_success"],
     Resolved (controlled "plug-1" false)).
Proof. reflexivity. Qed.

Lemma error_code_mkError (c : ErrorCode) (message : string) :
  error_code (mkError c message) = Some c.
Proof. destruct c; reflexivity. Qed.

Lemma error_code_mkErrorData (c : ErrorCode) (message : string) (data : JsVal) :
  error_code (mkErrorData c message data) = Some c.
Proof. destruct c; reflexivity. Qed.

(** C4, as stated, fails: [control_smart_plug] called with [state] given as
    the string ["false"] (declared type: boolean) is not rejected; the
    command goes to the vendor with [on = true] and the call resolves. *)
Lemma C4_counterexample :
  declared_type SDM.tools "control_smart_plug" "state" = Some "boolean"
  /\ typeof (VStr "false") = "string"
  /\ SDM.control_smart_plug (Some Fixtures.emptyAccount)
       (VObj [("deviceId", VStr "plug-1"); ("state", VStr "false")])
     = ([SdmExecuteCommand "plug-1" true; Increment "device_control_success"],
        Resolved (controlled "plug-1" true))
  /\ Legacy.callTool (Fixtures.legacyServer Fixtures.emptyAccount)
       "control_smart_plug"
       (VObj [("deviceId", VStr "plug-1"); ("state", VStr "false")])
     = ([Increment "tool_execution_control_smart_plug";
         SdmExecuteCommand "plug-1" true;
         Increment "device_control_success";
         Duration "execute_tool_control_smart_plug_duration_ms";
         Increment "execute_tool_control_smart_plug_total"],
        Resolved (controlled "plug-1" true)).
Proof. repeat split. Qed.

(** C4, amended.  For every argument bag in which both required fields of
    [control_smart_plug] are present, whatever their run-time types, the
    argument check passes: the call never rejects with [InvalidParams]; the
    id is coerced with [String] and the state with [Boolean], and when the id
    converts and a client is there the vendor command is issued with the
    coerced values.  Holds for the SDM-backed handler and for the single-file
    server. *)
Theorem C4_present_fields_are_coerced_not_checked
    (sdm : option SdmClient) (s : Legacy.Server) (ps : list (string * JsVal))
    (vId vState : JsVal) :
  assoc "deviceId" ps = Some vId ->
  assoc "state" ps = Some vState ->
  (forall e, outcome (SDM.control_smart_plug sdm (VObj ps)) = Rejected e ->
     error_code e <> Some InvalidParams)
  /\ (forall c d, sdm = Some c -> ToString vId = Some d ->
        backend_calls (trace (SDM.control_smart_plug sdm (VObj ps)))
        = [SdmExecuteCommand d (ToBoolean vState)])
  /\ (forall e,
        outcome (Legacy.callTool s "control_smart_plug" (VObj ps)) = Rejected e ->
        error_code e <> Some InvalidParams)
  /\ (forall c d, Legacy.sdm s = Some c -> ToString vId = Some d ->
        backend_calls (trace (Legacy.callTool s "control_smart_plug" (VObj ps)))
        = [SdmExecuteCommand d (ToBoolean vState)]).
Proof.
  intros Hid Hst.
  rewrite (SDM_control_cases _ _ _ _ Hid Hst),
          (Legacy_control_cases _ _ _ _ Hid Hst).
  repeat split.
  - destruct (ToString vId) as [d |]; [destruct sdm as [c |] |].
    + destruct (devices_executeCommand c d (ToBoolean vState)) as [a | e0];
        [intros e' [=] | destruct (printable e0); intros e' [= <-]].
      * now rewrite error_code_mkErrorData.
      * discriminate.
    + intros e [= <-]. discriminate.
    + intros e [= <-]. discriminate.
  - intros c d -> ->.
    destruct (devices_executeCommand c d (ToBoolean vState)) as [a | e0];
      [| destruct (printable e0)]; reflexivity.
  - destruct (ToString vId) as [d |]; [destruct (Legacy.sdm s) as [c |] |].
    + destruct (devices_executeCommand c d (ToBoolean vState)) as [a | e0];
        [intros e' [=] | destruct (printable e0); intros e' [= <-]].
      * now rewrite error_code_mkErrorData.
      * discriminate.
    + intros e [= <-]. discriminate.
    + intros e [= <-]. discriminate.
  - intros c d -> ->.
    destruct (devices_executeCommand c d (ToBoolean vState)) as [a | e0];
      [| destruct (printable e0)]; reflexivity.
Qed.

Lemma C4_witness :
  (forall e,
      outcome (SDM.control_smart_plug (Some Fixtures.emptyAccount)
                 (VObj [("deviceId", VNum 7); ("state", VStr "off")]))
      = Rejected e -> error_code e <> Some InvalidParams)
  /\ (forall c d, Some Fixtures.emptyAccount = Some c ->
        ToString (VNum 7) = Some d ->
        backend_calls
          (trace (SDM.control_smart_plug (Some Fixtures.emptyAccount)
                    (VObj [("deviceId", VNum 7); ("state", VStr "off")])))
        = [SdmExecuteCommand d (ToBoolean (VStr "off"))])
  /\ (forall e,
        outcome (Legacy.callTool (Fixtures.legacyServer Fixtures.emptyAccount)
                   "control_smart_plug"
                   (VObj [("deviceId", VNum 7); ("state", VStr "off")]))
        = Rejected e -> error_code e <> Some InvalidParams)
  /\ (forall c d,
        Legacy.sdm (Fixtures.legacyServer Fixtures.emptyAccount) = Some c ->
        ToString (VNum 7) = Some d ->
        backend_calls
          (trace (Legacy.callTool (Fixtures.legacyServer Fixtures.emptyAccount)
                    "control_smart_plug"
                    (VObj [("deviceId", VNum 7); ("state", VStr "off")])))
        = [SdmExecuteCommand d (ToBoolean (VStr "off"))]).
Proof.
  apply (C4_present_fields_are_coerced_not_checked
           (Some Fixtures.emptyAccount)
           (Fixtures.legacyServer Fixtures.emptyAccount)
           [("deviceId", VNum 7); ("state", VStr "off")]
           (VNum 7) (VStr "off")); reflexivity.
Defined.

Example control_with_number_id_and_string_state :
  SDM.control_smart_plug (Some Fixtures.emptyAccount)
    (VObj [("deviceId", VNum 7); ("state", VStr "off")])
  = ([SdmExecuteCommand "7" true; Increment "device_control_success"],
     Resolved (controlled "7" true)).
Proof. reflexivity. Qed.

(** [String] prints a number the way the runtime prints a double: the
    shortest digits that read back as the same double, in exponent notation
    from [1e21] on. *)
Example String_of_large_numbers :
  ToString (VNum (2 ^ 64)) = Some "18446744073709552000"
  /\ ToString (VNum (10 ^ 21)) = Some "1e+21"
  /\ ToString (VNum 9007199254740993) = Some "9007199254740992"
  /\ ToString (VNum (2 ^ 70)) = Some "1.1805916207174113e+21"
  /\ ToString (VNum (-42)) = Some "-42".
Proof. vm_compute. repeat split. Qed.

(** Whatever the vendor answers, a rejection of [getDeviceState] carries
    [InternalError]: the [catch] of the method wraps every value thrown in
    its [try], the not-found error included.  The one rejection that gets
    past the wrapper is the [TypeError] of printing, for the log line, a
    vendor rejection that cannot be converted to a string. *)
Lemma SDM_getDeviceState_rejections
    (sdm : option SdmClient) (deviceId : string) (e : JsVal) :
  outcome (SDM.getDeviceState sdm deviceId) = Rejected e ->
  error_code e = Some InternalError
  \/ (e = TypeError_to_primitive
      /\ exists c e0, sdm = Some c /\ devices_get c deviceId = Rejected e0
                      /\ printable e0 = false).
Proof.
  destruct sdm as [c |]; [| intros [= <-]; left; reflexivity].
  unfold SDM.getDeviceState, await.
  destruct (devices_get c deviceId) as [device | e0] eqn:E.
  - cbn. destruct (ToBoolean device); cbn.
    + unfold SDM.toSmartPlug, get.
      destruct (is_nullish device); cbn; intros [= <-]. left. reflexivity.
    + intros [= <-]. left. reflexivity.
  - rewrite bind_rejected. unfold try_catch. rewrite error_text_then.
    destruct (printable e0) eqn:P; intros [= <-].
    + left. reflexivity.
    + right. split; [reflexivity |]. now exists c, e0.
Qed.

Lemma SDM_getDeviceState_not_found
    (c : SdmClient) (deviceId : string) (device : JsVal) :
  devices_get c deviceId = Resolved device ->
  ToBoolean device = false ->
  SDM.getDeviceState (Some c) deviceId
  = ([SdmGet deviceId; Increment "device_not_found_errors";
      Increment "get_device_state_errors"],
     Rejected (mkErrorData InternalError
                 ("Failed to get device state: " ++ deviceId)
                 (mkError InvalidParams ("Device not found: " ++ deviceId)))).
Proof.
  intros Hget Hfalsy. unfold SDM.getDeviceState, await.
  rewrite Hget. cbn. rewrite Hfalsy. reflexivity.
Qed.

(** C2, evaluated where the vendor has no record for the id.  Asked for the
    state of ["unknown-id"] on an account whose look-up yields no device,
    both the SDM-backed handler and the single-file server reject with an
    error whose code is [InternalError]; the [InvalidParams] error the code
    throws for the missing device is caught by the enclosing [catch] and ends
    up as the [data] of that [InternalError]. *)
Theorem C2_not_found_surfaces_as_InternalError :
  SDM.get_smart_plug_state (Some Fixtures.emptyAccount)
    (VObj [("deviceId", VStr "unknown-id")])
  = ([SdmGet "unknown-id"; Increment "device_not_found_errors";
      Increment "get_device_state_errors"],
     Rejected (mkErrorData InternalError
                 "Failed to get device state: unknown-id"
                 (mkError InvalidParams "Device not found: unknown-id")))
  /\ Legacy.callTool (Fixtures.legacyServer Fixtures.emptyAccount)
       "get_smart_plug_state" (VObj [("deviceId", VStr "unknown-id")])
     = ([Increment "tool_execution_get_smart_plug_state";
         SdmGet "unknown-id"; Increment "device_not_found_errors";
         Increment "get_device_state_errors";
         Increment "execute_tool_get_smart_plug_state_errors"],
        Rejected (mkErrorData InternalError
                    "Failed to get device state: unknown-id"
                    (mkError InvalidParams "Device not found: unknown-id")))
  /\ error_code (mkErrorData InternalError
                   "Failed to get device state: unknown-id"
                   (mkError InvalidParams "Device not found: unknown-id"))
     = Some InternalError.
Proof. repeat split. Qed.

(** The same happens when the vendor rejects the look-up (a 404 reply). *)
Example get_state_of_rejected_lookup :
  SDM.get_smart_plug_state
    (Some {| devices_list := fun _ => Resolved (VObj []);
             devices_executeCommand := fun _ _ => Resolved (VObj []);
             devices_get := fun _ => Rejected (VError "GaxiosError" "Not Found") |})
    (VObj [("deviceId", VStr "unknown-id")])
  = ([SdmGet "unknown-id"; Increment "get_device_state_errors"],
     Rejected (mkErrorData InternalError
                 "Failed to get device state: unknown-id"
                 (VError "GaxiosError" "Not Found"))).
Proof. reflexivity. Qed.

(* ------------------------------------------------------------------ *)
(** ** Listing: filter and map over vendor records                     *)
(* ------------------------------------------------------------------ *)

Lemma outcome_bind {A B} (m : Eff A) (k : A -> Eff B) :
  outcome (bind m k) =
    match outcome m with
    | Resolved a => outcome (k a)
    | Rejected e => Rejected e
    end.
Proof.
  destruct m as [t [a | e]]; [| reflexivity].
  unfold bind, outcome. cbn [snd]. destruct (k a); reflexivity.
Qed.

Lemma outcome_try_catch {A} (m : Eff A) (h : JsVal -> Eff A) :
  outcome (try_catch m h) =
    match outcome m with
    | Resolved a => Resolved a
    | Rejected e => outcome (h e)
    end.
Proof.
  destruct m as [t [a | e]]; [reflexivity |].
  unfold try_catch, outcome. cbn [snd]. destruct (h e); reflexivity.
Qed.

(** A wrapping [catch] block: what was resolved passes, what was thrown
    comes out wrapped, or as the conversion's [TypeError] when it cannot be
    printed for the log line; the failure is counted only in the first
    case. *)
Lemma outcome_catch_wrap {A} (m : Eff A) (metric : string) (W : JsVal -> JsVal) :
  outcome (try_catch m (fun error =>
             error_text error ;; emit (Increment metric) ;; throw (W error)))
  = match outcome m with
    | Resolved a => Resolved a
    | Rejected e => Rejected (if printable e then W e else TypeError_to_primitive)
    end.
Proof.
  rewrite outcome_try_catch. destruct (outcome m) as [a | e]; [reflexivity |].
  rewrite error_text_then. destruct (printable e); reflexivity.
Qed.

Lemma SDM_isOutlet_encode (d : DeviceState) :
  SDM.isOutlet (encode d) = ret (is_outlet d).
Proof. reflexivity. Qed.

Lemma Legacy_keepsPlug_encode (d : DeviceState) :
  Legacy.keepsPlug (encode d)
  = ret (is_outlet d && negb (String.eqb (ds_name d) "")).
Proof.
  unfold Legacy.keepsPlug, is_outlet. cbn.
  destruct (String.eqb (ds_type d) OUTLET); reflexivity.
Qed.


Lemma filterM_encode (f : JsVal -> Eff bool) (g : DeviceState -> bool)
    (ds : list DeviceState) :
  (forall d, f (encode d) = ret (g d)) ->
  filterM f (map encode ds) = ret (map encode (filter g ds)).
Proof.
  intros H. induction ds as [| d rest IH]; [reflexivity |].
  cbn [map filterM filter]. rewrite H, bind_ret_l, IH, bind_ret_l.
  destruct (g d); reflexivity.
Qed.

(** On a vendor record, the object the SDM-backed service builds reads back
    as the snapshot of that record. *)
Lemma SDM_toSmartPlug_encode (d : DeviceState) :
  exists v, SDM.toSmartPlug (encode d) = ret v
            /\ read_snapshot v = Some (snapshot_of d).
Proof.
  destruct d as [name type [[n |] |] [b |] [st |]];
    try (destruct (String.eqb n "") eqn:En);
    eexists; (split; [reflexivity |]);
    unfold read_snapshot, snapshot_of, js_or; cbn; rewrite ?En; reflexivity.
Qed.

Lemma Legacy_toSmartPlug_encode (d : DeviceState) :
  exists v, Legacy.toSmartPlug (encode d) = ret v
            /\ read_snapshot v = Some (snapshot_of d).
Proof.
  destruct d as [name type [[n |] |] [b |] [st |]];
    try (destruct (String.eqb n "") eqn:En);
    eexists; (split; [reflexivity |]);
    unfold read_snapshot, snapshot_of, js_or; cbn; rewrite ?En; reflexivity.
Qed.

Lemma mapM_encode (f : JsVal -> Eff JsVal) (ds : list DeviceState) :
  (forall d, exists v, f (encode d) = ret v
                       /\ read_snapshot v = Some (snapshot_of d)) ->
  exists l, mapM f (map encode ds) = ret l
            /\ map read_snapshot l = map (fun d => Some (snapshot_of d)) ds.
Proof.
  intros H. induction ds as [| d rest [l [Hl Hr]]].
  - exists []. split; reflexivity.
  - destruct (H d) as [v [Hv Hs]]. exists (v :: l). split.
    + cbn [map mapM]. rewrite Hv, bind_ret_l, Hl, bind_ret_l. reflexivity.
    + cbn [map]. now rewrite Hs, Hr.
Qed.

Lemma get_listing (ds : list DeviceState) :
  get (listing ds) "devices" = ret (VArr (map encode ds)).
Proof. reflexivity. Qed.

(** Listing an account of well-formed records: the outlets, in order, each
    as its snapshot. *)
Lemma SDM_listDevices_listing (c : SdmClient) (ds : list DeviceState) :
  devices_list c "enterprises/-" = Resolved (listing ds) ->
  exists l,
    SDM.listDevices (Some c)
    = ([SdmList "enterprises/-";
        Gauge "smart_plugs_count" (Z.of_nat (length l))],
       Resolved (VArr l))
    /\ map read_snapshot l
       = map (fun d => Some (snapshot_of d)) (filter is_outlet ds).
Proof.
  intros Hlist.
  destruct (mapM_encode SDM.toSmartPlug (filter is_outlet ds)
              SDM_toSmartPlug_encode) as [l [Hl Hr]].
  exists l. split; [| exact Hr].
  unfold SDM.listDevices, await. rewrite Hlist.
  unfold bind at 1. rewrite get_listing, bind_ret_l.
  change (as_array "filter" (js_or (VArr (map encode ds)) (VArr [])))
    with (@ret (list JsVal) (map encode ds)).
  rewrite bind_ret_l, (filterM_encode _ _ _ SDM_isOutlet_encode), bind_ret_l.
  rewrite Hl, bind_ret_l. reflexivity.
Qed.

Lemma Legacy_getSmartPlugs_listing (s : Legacy.Server) (c : SdmClient)
    (ds : list DeviceState) :
  Legacy.sdm s = Some c ->
  devices_list c "enterprises/me" = Resolved (listing ds) ->
  exists l,
    outcome (Legacy.getSmartPlugs s) = Resolved (VArr l)
    /\ map read_snapshot l
       = map (fun d => Some (snapshot_of d))
             (filter (fun d => is_outlet d && negb (String.eqb (ds_name d) ""))
                     ds).
Proof.
  intros Hsdm Hlist.
  destruct (mapM_encode Legacy.toSmartPlug
              (filter (fun d => is_outlet d && negb (String.eqb (ds_name d) "")) ds)
              Legacy_toSmartPlug_encode) as [l [Hl Hr]].
  exists l. split; [| exact Hr].
  unfold Legacy.getSmartPlugs. rewrite measureOperation_outcome, Hsdm.
  unfold await. rewrite Hlist.
  unfold bind at 1. rewrite get_listing, bind_ret_l.
  change (as_array "filter" (js_or (VArr (map encode ds)) (VArr [])))
    with (@ret (list JsVal) (map encode ds)).
  rewrite bind_ret_l, (filterM_encode _ _ _ Legacy_keepsPlug_encode), bind_ret_l.
  rewrite Hl, bind_ret_l. reflexivity.
Qed.

(** C8, as stated, fails on a record whose custom name is present but
    empty: the listed name is the device id, not the (empty) custom name. *)
Lemma C8_counterexample :
  exists l,
    outcome (SDM.listDevices
               (Some (Fixtures.accountWith [Fixtures.unnamedPlug])))
    = Resolved (VArr l)
    /\ map read_snapshot l
       = [ Some {| snap_id := "enterprises/p/devices/d1";
                   snap_name := "enterprises/p/devices/d1";
                   snap_on := true; snap_online := true |} ]
    /\ map read_snapshot l
       <> map (fun d => Some (spec_snapshot d)) [Fixtures.unnamedPlug].
Proof.
  eexists. split; [reflexivity |]. split; [reflexivity |]. discriminate.
Qed.

(** C8, amended.  For every list of vendor records the list call returns,
    the adapter keeps only the records of the outlet category (the
    single-file server keeps, of these, the ones with a non-empty name) and
    maps each surviving record, in order, to a snapshot whose id is the
    record's name, whose name is the vendor custom name when that is present
    and not empty and the device id otherwise, whose [on] is the on/off
    trait value, false when the trait is absent, and whose [online] is true
    exactly when the connectivity status equals ["ONLINE"].  This snapshot is
    the one the specification words except on an empty custom name. *)
Theorem C8_list_keeps_outlets_and_maps_snapshots
    (c : SdmClient) (s : Legacy.Server) (ds : list DeviceState) :
  devices_list c "enterprises/-" = Resolved (listing ds) ->
  devices_list c "enterprises/me" = Resolved (listing ds) ->
  Legacy.sdm s = Some c ->
  (exists l,
      outcome (SDM.listDevices (Some c)) = Resolved (VArr l)
      /\ map read_snapshot l
         = map (fun d => Some (snapshot_of d)) (filter is_outlet ds))
  /\ (exists l,
      outcome (Legacy.getSmartPlugs s) = Resolved (VArr l)
      /\ map read_snapshot l
         = map (fun d => Some (snapshot_of d))
             (filter (fun d => is_outlet d && negb (String.eqb (ds_name d) ""))
                     ds))
  /\ (forall d, ds_Info d <> Some (Some "") -> snapshot_of d = spec_snapshot d).
Proof.
  intros Hlist Hlist' Hsdm. split; [| split].
  - destruct (SDM_listDevices_listing c ds Hlist) as [l [Hl Hr]].
    exists l. now rewrite Hl.
  - exact (Legacy_getSmartPlugs_listing s c ds Hsdm Hlist').
  - intros [name type [[n |] |] on st] Hn; try reflexivity.
    unfold snapshot_of, spec_snapshot. cbn in *.
    destruct (String.eqb_spec n ""); [subst; contradiction | reflexivity].
Qed.

Lemma C8_witness :
  (exists l,
      outcome (SDM.listDevices
                 (Some (Fixtures.accountWith
                          [Fixtures.unnamedPlug; Fixtures.camera;
                           Fixtures.namedPlug])))
      = Resolved (VArr l)
      /\ map read_snapshot l
         = map (fun d => Some (snapshot_of d))
             (filter is_outlet
                [Fixtures.unnamedPlug; Fixtures.camera; Fixtures.namedPlug]))
  /\ (exists l,
      outcome (Legacy.getSmartPlugs
                 (Fixtures.legacyServer
                    (Fixtures.accountWith
                       [Fixtures.unnamedPlug; Fixtures.camera;
                        Fixtures.namedPlug])))
      = Resolved (VArr l)
      /\ map read_snapshot l
         = map (fun d => Some (snapshot_of d))
             (filter (fun d => is_outlet d && negb (String.eqb (ds_name d) ""))
                [Fixtures.unnamedPlug; Fixtures.camera; Fixtures.namedPlug]))
  /\ (forall d, ds_Info d <> Some (Some "") -> snapshot_of d = spec_snapshot d).
Proof.
  apply (C8_list_keeps_outlets_and_maps_snapshots
           (Fixtures.accountWith
              [Fixtures.unnamedPlug; Fixtures.camera; Fixtures.namedPlug])
           (Fixtures.legacyServer
              (Fixtures.accountWith
                 [Fixtures.unnamedPlug; Fixtures.camera; Fixtures.namedPlug]))
           [Fixtures.unnamedPlug; Fixtures.camera; Fixtures.namedPlug]);
    reflexivity.
Defined.

Example listing_of_three_devices :
  match outcome (SDM.listDevices
                   (Some (Fixtures.accountWith
                            [Fixtures.unnamedPlug; Fixtures.camera;
                             Fixtures.namedPlug]))) with
  | Resolved (VArr l) => map read_snapshot l
  | _ => []
  end
  = [ Some {| snap_id := "enterprises/p/devices/d1";
              snap_name := "enterprises/p/devices/d1";
              snap_on := true; snap_online := true |};
      Some {| snap_id := "enterprises/p/devices/d2";
              snap_name := "Desk lamp";
              snap_on := false; snap_online := false |} ].
Proof. reflexivity. Qed.

(* ------------------------------------------------------------------ *)
(** ** list_smart_plugs                                                *)
(* ------------------------------------------------------------------ *)

Lemma SDM_toSmartPlug_shaped (x v : JsVal) :
  outcome (SDM.toSmartPlug x) = Resolved v -> snapshot_shaped v = true.
Proof.
  unfold SDM.toSmartPlug, get. destruct (is_nullish x); cbn; intros [= <-];
    reflexivity.
Qed.

Lemma Legacy_toSmartPlug_shaped (x v : JsVal) :
  outcome (Legacy.toSmartPlug x) = Resolved v -> snapshot_shaped v = true.
Proof.
  unfold Legacy.toSmartPlug, get. destruct (is_nullish x); cbn; intros [= <-];
    reflexivity.
Qed.

(** What [mapM] resolves with is made of what the callback resolved with. *)
Lemma mapM_forallb {A B} (f : A -> Eff B) (p : B -> bool) (xs : list A) :
  (forall x y, outcome (f x) = Resolved y -> p y = true) ->
  forall ys, outcome (mapM f xs) = Resolved ys -> forallb p ys = true.
Proof.
  intros Hf. induction xs as [| x rest IH]; intros ys.
  - intros [= <-]. reflexivity.
  - cbn [mapM]. rewrite outcome_bind.
    destruct (outcome (f x)) as [y |] eqn:Ey; [| discriminate].
    rewrite outcome_bind.
    destruct (outcome (mapM f rest)) as [ys' |]; [| discriminate].
    intros [= <-]. cbn [forallb]. now rewrite (Hf x y Ey), (IH ys' eq_refl).
Qed.

(** The pipeline both list operations run on the vendor reply [data]. *)
Lemma list_pipeline_shaped (keep : JsVal -> Eff bool) (build : JsVal -> Eff JsVal)
    (data r : JsVal) :
  (forall x v, outcome (build x) = Resolved v -> snapshot_shaped v = true) ->
  outcome (listed <- get data "devices" ;;
           devices <- as_array "filter" (js_or listed (VArr [])) ;;
           plugs <- filterM keep devices ;;
           smartPlugs <- mapM build plugs ;;
           emit (Gauge "smart_plugs_count" (Z.of_nat (length smartPlugs))) ;;
           ret (VArr smartPlugs))
  = Resolved r ->
  exists l, r = VArr l /\ forallb snapshot_shaped l = true.
Proof.
  intros Hbuild. rewrite outcome_bind.
  destruct (outcome (get data "devices")) as [listed |]; [| discriminate].
  rewrite outcome_bind.
  destruct (outcome (as_array "filter" (js_or listed (VArr []))))
    as [devices |]; [| discriminate].
  rewrite outcome_bind.
  destruct (outcome (filterM keep devices)) as [plugs |]; [| discriminate].
  rewrite outcome_bind.
  destruct (outcome (mapM build plugs)) as [smartPlugs |] eqn:Em;
    [| discriminate].
  cbn. intros [= <-]. exists smartPlugs. split; [reflexivity |].
  exact (mapM_forallb build snapshot_shaped plugs Hbuild smartPlugs Em).
Qed.

(** Every result of the SDM-backed list operation is an array of elements
    with boolean [on] and [online]. *)
Lemma SDM_listDevices_shaped (sdm : option SdmClient) (r : JsVal) :
  outcome (SDM.listDevices sdm) = Resolved r ->
  exists l, r = VArr l /\ forallb snapshot_shaped l = true.
Proof.
  destruct sdm as [c |]; [| discriminate].
  unfold SDM.listDevices. rewrite outcome_catch_wrap, outcome_bind.
  unfold await. cbn [outcome snd].
  destruct (devices_list c "enterprises/-") as [data | e]; [| discriminate].
  match goal with
  | |- match ?o with _ => _ end = _ -> _ => destruct o as [a | e] eqn:E
  end; [| discriminate].
  intros [= <-].
  exact (list_pipeline_shaped _ _ data a SDM_toSmartPlug_shaped E).
Qed.

Lemma Legacy_getSmartPlugs_shaped (s : Legacy.Server) (r : JsVal) :
  outcome (Legacy.getSmartPlugs s) = Resolved r ->
  exists l, r = VArr l /\ forallb snapshot_shaped l = true.
Proof.
  unfold Legacy.getSmartPlugs. rewrite measureOperation_outcome.
  destruct (Legacy.sdm s) as [c |]; [| discriminate].
  rewrite outcome_catch_wrap, outcome_bind.
  unfold await. cbn [outcome snd].
  destruct (devices_list c "enterprises/me") as [data | e]; [| discriminate].
  match goal with
  | |- match ?o with _ => _ end = _ -> _ => destruct o as [a | e] eqn:E
  end; [| discriminate].
  intros [= <-].
  exact (list_pipeline_shaped _ _ data a Legacy_toSmartPlug_shaped E).
Qed.

(** What the [try] block of the list operation can throw besides the
    vendor's own rejection is a [TypeError], which is printable. *)
Lemma list_pipeline_throws (keep : JsVal -> Eff bool) (build : JsVal -> Eff JsVal)
    (reply : Outcome JsVal) (parent : string) (e : JsVal) :
  (forall x e', outcome (keep x) = Rejected e' -> printable e' = true) ->
  (forall x e', outcome (build x) = Rejected e' -> printable e' = true) ->
  outcome (data <- await (SdmList parent) reply ;;
           listed <- get data "devices" ;;
           devices <- as_array "filter" (js_or listed (VArr [])) ;;
           plugs <- filterM keep devices ;;
           smartPlugs <- mapM build plugs ;;
           emit (Gauge "smart_plugs_count" (Z.of_nat (length smartPlugs))) ;;
           ret (VArr smartPlugs))
  = Rejected e ->
  reply = Rejected e \/ printable e = true.
Proof.
  intros Hkeep Hbuild. rewrite outcome_bind. unfold await. cbn [outcome snd].
  destruct reply as [data | e0]; [| intros [= <-]; now left].
  intros H. right. revert H. rewrite outcome_bind. unfold get.
  destruct (is_nullish data); [intros [= <-]; reflexivity |].
  cbn [outcome ret snd]. rewrite outcome_bind.
  destruct (js_or (prop data "devices") (VArr [])) as [| | b | n | str | l | ps | nm msg];
    try (intros [= <-]; reflexivity).
  cbn [as_array outcome ret snd]. rewrite outcome_bind.
  assert (Hf : forall xs e', outcome (filterM keep xs) = Rejected e' ->
                             printable e' = true).
  { induction xs as [| x rest IH]; intros e'; [discriminate |].
    cbn [filterM]. rewrite outcome_bind.
    destruct (outcome (keep x)) as [b |] eqn:Ek;
      [| intros [= <-]; exact (Hkeep x _ Ek)].
    rewrite outcome_bind.
    destruct (outcome (filterM keep rest)) as [ys |] eqn:Er;
      [discriminate | intros [= <-]; exact (IH _ eq_refl)]. }
  assert (Hm : forall xs e', outcome (mapM build xs) = Rejected e' ->
                             printable e' = true).
  { induction xs as [| x rest IH]; intros e'; [discriminate |].
    cbn [mapM]. rewrite outcome_bind.
    destruct (outcome (build x)) as [b |] eqn:Ek;
      [| intros [= <-]; exact (Hbuild x _ Ek)].
    rewrite outcome_bind.
    destruct (outcome (mapM build rest)) as [ys |] eqn:Er;
      [discriminate | intros [= <-]; exact (IH _ eq_refl)]. }
  destruct (outcome (filterM keep l)) as [plugs |] eqn:Ef;
    [| intros [= <-]; exact (Hf l _ Ef)].
  rewrite outcome_bind.
  destruct (outcome (mapM build plugs)) as [smartPlugs |] eqn:Em;
    [discriminate | intros [= <-]; exact (Hm plugs _ Em)].
Qed.

Lemma SDM_toSmartPlug_throws (x e : JsVal) :
  outcome (SDM.toSmartPlug x) = Rejected e -> printable e = true.
Proof.
  unfold SDM.toSmartPlug, get. destruct (is_nullish x); cbn; intros [= <-].
  reflexivity.
Qed.

Lemma SDM_isOutlet_throws (x e : JsVal) :
  outcome (SDM.isOutlet x) = Rejected e -> printable e = true.
Proof.
  unfold SDM.isOutlet, get. destruct (is_nullish x); cbn; intros [= <-].
  reflexivity.
Qed.

Lemma Legacy_toSmartPlug_throws (x e : JsVal) :
  outcome (Legacy.toSmartPlug x) = Rejected e -> printable e = true.
Proof.
  unfold Legacy.toSmartPlug, get. destruct (is_nullish x); cbn; intros [= <-].
  reflexivity.
Qed.

Lemma Legacy_keepsPlug_throws (x e : JsVal) :
  outcome (Legacy.keepsPlug x) = Rejected e -> printable e = true.
Proof.
  unfold Legacy.keepsPlug, get. destruct (is_nullish x); cbn;
    [intros [= <-]; reflexivity |].
  destruct (strict_eq_str (prop x "type") OUTLET); cbn; discriminate.
Qed.

(** A rejection of the list operation carries [InternalError], unless it is
    the [TypeError] of printing a vendor rejection that cannot be converted
    to a string. *)
Lemma SDM_listDevices_rejections (sdm : option SdmClient) (e : JsVal) :
  outcome (SDM.listDevices sdm) = Rejected e ->
  error_code e = Some InternalError
  \/ (e = TypeError_to_primitive
      /\ exists c e0, sdm = Some c
                      /\ devices_list c "enterprises/-" = Rejected e0
                      /\ printable e0 = false).
Proof.
  destruct sdm as [c |]; [intros H | intros [= <-]; left; reflexivity].
  unfold SDM.listDevices in H. rewrite outcome_catch_wrap in H.
  match type of H with
  | match ?o with _ => _ end = _ => destruct o as [a | e0] eqn:E
  end; [discriminate |].
  injection H as <-. destruct (printable e0) eqn:P; [left; reflexivity |].
  right. split; [reflexivity |].
  destruct (list_pipeline_throws _ _ _ _ _ SDM_isOutlet_throws
              SDM_toSmartPlug_throws E) as [Hr | Hp];
    [now exists c, e0 | congruence].
Qed.

Lemma HomeGraph_list_smart_plugs_resolved
    (JSON_stringify : JsVal -> nat -> JsVal)
    (svc : HomeGraph.HomeGraphService) (hc : HgClient) (reply : JsVal)
    (ps : list (string * JsVal)) (agentUserId : string) :
  HomeGraph.svc_homegraph svc = Some hc ->
  assoc "agentUserId" ps = Some (VStr agentUserId) ->
  devices_query hc agentUserId = Resolved reply ->
  HomeGraph.list_smart_plugs JSON_stringify (Some svc) (VObj ps)
  = ([HgQuery agentUserId; Increment "query_devices_success";
      Duration "query_devices_duration_ms"; Increment "query_devices_total"],
     Resolved (HomeGraph.text_content (JSON_stringify reply 2))).
Proof.
  intros Hsvc Hu Hquery.
  unfold HomeGraph.list_smart_plugs.
  rewrite get_obj, bind_ret_l, (prop_present _ _ _ Hu).
  change (String_ (VStr agentUserId)) with (ret agentUserId).
  rewrite bind_ret_l. unfold HomeGraph.on_service, HomeGraph.queryDevices, await.
  rewrite Hsvc, Hquery. reflexivity.
Qed.

(** Whatever it is given, the HomeGraph-backed handler resolves with nothing
    but one text item. *)
Lemma HomeGraph_list_smart_plugs_text
    (JSON_stringify : JsVal -> nat -> JsVal)
    (hg : option HomeGraph.HomeGraphService) (args r : JsVal) :
  outcome (HomeGraph.list_smart_plugs JSON_stringify hg args) = Resolved r ->
  exists text, r = HomeGraph.text_content text.
Proof.
  unfold HomeGraph.list_smart_plugs. rewrite outcome_bind.
  destruct (outcome (get args "agentUserId")) as [rawUser |]; [| discriminate].
  rewrite outcome_bind.
  destruct (outcome (String_ rawUser)) as [agentUserId |]; [| discriminate].
  rewrite outcome_bind.
  destruct (outcome (HomeGraph.on_service hg "queryDevices" _)) as [response |];
    [| discriminate].
  intros [= <-]. now eexists.
Qed.

(** C3, as stated, fails on the handler the current server dispatches to:
    called with an empty argument bag on an account that answers, it
    succeeds with a one-element array whose element is a text item; that
    element has no [on] or [online] field, boolean or other. *)
Lemma C3_counterexample :
  exists item,
    outcome (HomeGraph.list_smart_plugs Fixtures.stringify_empty
               (Some (Fixtures.hgService Fixtures.hgAccount)) (VObj []))
    = Resolved (VObj [("content", VArr [item])])
    /\ snapshot_shaped item = false
    /\ field ["on"] item = VUndefined
    /\ field ["online"] item = VUndefined
    /\ field ["state"] item = VUndefined.
Proof. eexists. repeat split. Qed.

(** C3, amended.  Called with an empty argument bag, the SDM-backed handler
    and the single-file server succeed whenever the vendor list call
    resolves with well-formed records, with one element per outlet kept (so
    the empty array, not an error, when there is none), and every result
    they ever give is an array whose elements all have boolean [state.on]
    and [state.online].  The HomeGraph-backed handler, called with the agent
    user id its manifest requires, queries the vendor for that agent user
    and, when the query resolves, succeeds with a one-element array holding
    a text item (the JSON text of the vendor reply); whatever bag it is
    called with, a result of it is such a one-element array, whose element
    is a text item and not an element with [on]/[online] fields. *)
Theorem C3_list_smart_plugs_with_empty_bag
    (JSON_stringify : JsVal -> nat -> JsVal)
    (c : SdmClient) (s : Legacy.Server) (ds : list DeviceState)
    (svc : HomeGraph.HomeGraphService) (hc : HgClient) (reply : JsVal)
    (ps : list (string * JsVal)) (agentUserId : string) :
  devices_list c "enterprises/-" = Resolved (listing ds) ->
  devices_list c "enterprises/me" = Resolved (listing ds) ->
  Legacy.sdm s = Some c ->
  HomeGraph.svc_homegraph svc = Some hc ->
  assoc "agentUserId" ps = Some (VStr agentUserId) ->
  devices_query hc agentUserId = Resolved reply ->
  (exists l,
      outcome (SDM.list_smart_plugs (Some c) (VObj []))
      = Resolved (VObj [("content", VArr l)])
      /\ forallb snapshot_shaped l = true
      /\ length l = length (filter is_outlet ds))
  /\ (exists l,
      outcome (Legacy.callTool s "list_smart_plugs" (VObj []))
      = Resolved (VObj [("content", VArr l)])
      /\ forallb snapshot_shaped l = true
      /\ length l
         = length (filter (fun d => is_outlet d
                                    && negb (String.eqb (ds_name d) "")) ds))
  /\ (forall sdm r,
        outcome (SDM.list_smart_plugs sdm (VObj [])) = Resolved r ->
        exists l, r = VObj [("content", VArr l)]
                  /\ forallb snapshot_shaped l = true)
  /\ (forall s' r,
        outcome (Legacy.callTool s' "list_smart_plugs" (VObj [])) = Resolved r ->
        exists l, r = VObj [("content", VArr l)]
                  /\ forallb snapshot_shaped l = true)
  /\ outcome (HomeGraph.list_smart_plugs JSON_stringify (Some svc) (VObj ps))
     = Resolved (HomeGraph.text_content (JSON_stringify reply 2))
  /\ backend_calls
       (trace (HomeGraph.list_smart_plugs JSON_stringify (Some svc) (VObj ps)))
     = [HgQuery agentUserId]
  /\ map tool_required
         (filter (fun d => String.eqb (tool_name d) "list_smart_plugs")
                 HomeGraph.tools)
     = [["agentUserId"]]
  /\ (forall hg args r,
        outcome (HomeGraph.list_smart_plugs JSON_stringify hg args) = Resolved r ->
        exists text, r = HomeGraph.text_content text)
  /\ (forall text, exists item,
        HomeGraph.text_content text = VObj [("content", VArr [item])]
        /\ snapshot_shaped item = false).
Proof.
  intros Hlist Hlist' Hsdm Hsvc Hu Hquery.
  assert (Hshape : forall sdm r,
             outcome (SDM.list_smart_plugs sdm (VObj [])) = Resolved r ->
             exists l, r = VObj [("content", VArr l)]
                       /\ forallb snapshot_shaped l = true).
  { intros sdm r. unfold SDM.list_smart_plugs. rewrite outcome_bind.
    destruct (outcome (SDM.listDevices sdm)) as [a |] eqn:E; [| discriminate].
    intros [= <-]. destruct (SDM_listDevices_shaped sdm a E) as [l [-> Hl]].
    now exists l. }
  assert (Hshape' : forall s' r,
             outcome (Legacy.callTool s' "list_smart_plugs" (VObj []))
             = Resolved r ->
             exists l, r = VObj [("content", VArr l)]
                       /\ forallb snapshot_shaped l = true).
  { intros s' r. unfold Legacy.callTool.
    rewrite measureOperation_outcome, outcome_bind. cbn [outcome emit snd].
    cbn [String.eqb Ascii.eqb Bool.eqb andb]. rewrite outcome_bind.
    destruct (outcome (Legacy.getSmartPlugs s')) as [a |] eqn:E;
      [| discriminate].
    intros [= <-]. destruct (Legacy_getSmartPlugs_shaped s' a E) as [l [-> Hl]].
    now exists l. }
  split; [| split; [| split; [exact Hshape | split; [exact Hshape' |]]]].
  - destruct (SDM_listDevices_listing c ds Hlist) as [l [Hl Hr]].
    assert (Ho : outcome (SDM.list_smart_plugs (Some c) (VObj []))
                 = Resolved (VObj [("content", VArr l)])).
    { unfold SDM.list_smart_plugs. now rewrite outcome_bind, Hl. }
    exists l. split; [exact Ho | split].
    + destruct (Hshape _ _ Ho) as [l' [[= <-] Hl']]. exact Hl'.
    + apply (f_equal (@length _)) in Hr. now rewrite !length_map in Hr.
  - destruct (Legacy_getSmartPlugs_listing s c ds Hsdm Hlist') as [l [Hl Hr]].
    assert (Ho : outcome (Legacy.callTool s "list_smart_plugs" (VObj []))
                 = Resolved (VObj [("content", VArr l)])).
    { unfold Legacy.callTool.
      rewrite measureOperation_outcome, outcome_bind. cbn [outcome emit snd].
      cbn [String.eqb Ascii.eqb Bool.eqb andb]. now rewrite outcome_bind, Hl. }
    exists l. split; [exact Ho | split].
    + destruct (Hshape' _ _ Ho) as [l' [[= <-] Hl']]. exact Hl'.
    + apply (f_equal (@length _)) in Hr. now rewrite !length_map in Hr.
  - rewrite (HomeGraph_list_smart_plugs_resolved _ _ _ _ _ _ Hsvc Hu Hquery).
    split; [reflexivity | split; [reflexivity | split; [reflexivity | split]]].
    + apply HomeGraph_list_smart_plugs_text.
    + intros text. eexists. split; reflexivity.
Qed.

Lemma C3_witness :
  (exists l,
      outcome (SDM.list_smart_plugs
                 (Some (Fixtures.accountWith [Fixtures.camera; Fixtures.namedPlug]))
                 (VObj []))
      = Resolved (VObj [("content", VArr l)])
      /\ forallb snapshot_shaped l = true
      /\ length l
         = length (filter is_outlet [Fixtures.camera; Fixtures.namedPlug]))
  /\ (exists l,
      outcome (Legacy.callTool
                 (Fixtures.legacyServer
                    (Fixtures.accountWith [Fixtures.camera; Fixtures.namedPlug]))
                 "list_smart_plugs" (VObj []))
      = Resolved (VObj [("content", VArr l)])
      /\ forallb snapshot_shaped l = true
      /\ length l
         = length (filter (fun d => is_outlet d
                                    && negb (String.eqb (ds_name d) ""))
                     [Fixtures.camera; Fixtures.namedPlug]))
  /\ (forall sdm r,
        outcome (SDM.list_smart_plugs sdm (VObj [])) = Resolved r ->
        exists l, r = VObj [("content", VArr l)]
                  /\ forallb snapshot_shaped l = true)
  /\ (forall s' r,
        outcome (Legacy.callTool s' "list_smart_plugs" (VObj [])) = Resolved r ->
        exists l, r = VObj [("content", VArr l)]
                  /\ forallb snapshot_shaped l = true)
  /\ outcome (HomeGraph.list_smart_plugs Fixtures.stringify_empty
                (Some (Fixtures.hgService Fixtures.hgAccount))
                (VObj [("agentUserId", VStr "user-1")]))
     = Resolved (HomeGraph.text_content
                   (Fixtures.stringify_empty (VObj []) 2))
  /\ backend_calls
       (trace (HomeGraph.list_smart_plugs Fixtures.stringify_empty
                 (Some (Fixtures.hgService Fixtures.hgAccount))
                 (VObj [("agentUserId", VStr "user-1")])))
     = [HgQuery "user-1"]
  /\ map tool_required
         (filter (fun d => String.eqb (tool_name d) "list_smart_plugs")
                 HomeGraph.tools)
     = [["agentUserId"]]
  /\ (forall hg args r,
        outcome (HomeGraph.list_smart_plugs Fixtures.stringify_empty hg args)
        = Resolved r ->
        exists text, r = HomeGraph.text_content text)
  /\ (forall text, exists item,
        HomeGraph.text_content text = VObj [("content", VArr [item])]
        /\ snapshot_shaped item = false).
Proof.
  apply (C3_list_smart_plugs_with_empty_bag Fixtures.stringify_empty
           (Fixtures.accountWith [Fixtures.camera; Fixtures.namedPlug])
           (Fixtures.legacyServer
              (Fixtures.accountWith [Fixtures.camera; Fixtures.namedPlug]))
           [Fixtures.camera; Fixtures.namedPlug]
           (Fixtures.hgService Fixtures.hgAccount) Fixtures.hgAccount (VObj [])
           [("agentUserId", VStr "user-1")] "user-1");
    reflexivity.
Defined.

(** No plug configured: the empty array, not an error. *)
Example list_of_empty_account :
  SDM.list_smart_plugs (Some Fixtures.emptyAccount) (VObj [])
  = ([SdmList "enterprises/-"; Gauge "smart_plugs_count" 0],
     Resolved (VObj [("content", VArr [])])).
Proof. reflexivity. Qed.

(* ------------------------------------------------------------------ *)
(** ** Dispatch                                                        *)
(* ------------------------------------------------------------------ *)

(** The [switch] of the single-file server rejects every other name with
    [MethodNotFound], before any vendor call. *)
Lemma Legacy_unknown_tool (s : Legacy.Server) (name : string) (args : JsVal) :
  name <> "list_smart_plugs" ->
  name <> "control_smart_plug" ->
  name <> "get_smart_plug_state" ->
  Legacy.callTool s name args
  = ([Increment ("tool_execution_" ++ name); Increment "unknown_tool_errors";
      Increment ("execute_tool_" ++ name ++ "_errors")],
     Rejected (mkError MethodNotFound ("Unknown tool: " ++ name))).
Proof.
  intros H1 H2 H3. unfold Legacy.callTool.
  apply String.eqb_neq in H1, H2, H3. rewrite H1, H2, H3.
  reflexivity.
Qed.

(** So does the table look-up of the current server, for a name that
    resolves to nothing at all. *)
Lemma HomeGraph_missing_tool (JSON_stringify : JsVal -> nat -> JsVal)
    (s : HomeGraph.Server) (name : string) (toolArgs : JsVal) :
  HomeGraph.handlers JSON_stringify name = HomeGraph.Missing ->
  HomeGraph.callTool JSON_stringify s name toolArgs
  = ([Increment ("tool_execution_" ++ name); Increment "unknown_tool_errors";
      Increment ("execute_tool_" ++ name ++ "_errors")],
     Rejected (mkError MethodNotFound ("Unknown tool: " ++ name))).
Proof.
  intros H. unfold HomeGraph.callTool. rewrite H. reflexivity.
Qed.

(** C6, evaluated at the tool name ["toString"].  The name is not among the
    registered tools, yet the look-up [handlers[name]] of the current server
    finds the method every object inherits, so the unknown-tool branch is
    skipped; the call ends in a [TypeError], which carries no error code, not
    in [MethodNotFound].  The single-file server, whose dispatch is a
    [switch], answers [MethodNotFound] for the same name. *)
Theorem C6_inherited_name_escapes_MethodNotFound
    (JSON_stringify : JsVal -> nat -> JsVal) (s : HomeGraph.Server)
    (l : Legacy.Server) (toolArgs : JsVal) :
  ~ In "toString" (map tool_name HomeGraph.tools)
  /\ HomeGraph.callTool JSON_stringify s "toString" toolArgs
     = ([Increment "tool_execution_toString";
         Increment "execute_tool_toString_errors"],
        Rejected (VError "TypeError"
                    "Cannot read properties of undefined (reading 'length')"))
  /\ error_code (VError "TypeError"
                   "Cannot read properties of undefined (reading 'length')")
     = None
  /\ outcome (Legacy.callTool l "toString" toolArgs)
     = Rejected (mkError MethodNotFound "Unknown tool: toString").
Proof.
  split; [| repeat split].
  intros [H | [H | [H | []]]]; discriminate.
Qed.

(** Every name inherited from [Object.prototype] takes the same way out. *)
Lemma HomeGraph_inherited_tool_is_not_MethodNotFound
    (JSON_stringify : JsVal -> nat -> JsVal) (s : HomeGraph.Server)
    (name : string) (toolArgs : JsVal) :
  In name Object_prototype_names ->
  exists message,
    outcome (HomeGraph.callTool JSON_stringify s name toolArgs)
    = Rejected (VError "TypeError" message).
Proof.
  intros H. unfold HomeGraph.callTool. rewrite measureOperation_outcome.
  cbn in H.
  repeat (destruct H as [<- | H]; [destruct (HomeGraph.homegraph s);
                                   eexists; reflexivity |]).
  destruct H.
Qed.

(** C7, as stated, fails: the vendor client rejects with a plain [Error], the
    handler lets it through, and the dispatch boundary surfaces that same
    [Error]: it has no error code and was not re-expressed as
    [InternalError]. *)
Lemma C7_counterexample :
  outcome (HomeGraph.list_smart_plugs Fixtures.stringify_empty
             (HomeGraph.homegraph (Fixtures.hgServer Fixtures.hgUnreachable))
             (VObj []))
  = Rejected (VError "Error" "socket hang up")
  /\ outcome (HomeGraph.callTool Fixtures.stringify_empty
                (Fixtures.hgServer Fixtures.hgUnreachable)
                "list_smart_plugs" (VObj []))
     = Rejected (VError "Error" "socket hang up")
  /\ is_structured (VError "Error" "socket hang up") = false
  /\ error_code (VError "Error" "socket hang up") <> Some InternalError.
Proof. repeat split. discriminate. Qed.

(** C7, amended.  Every exception a registered tool handler raises during
    dispatch is surfaced from the dispatch boundary as the very value the
    handler raised, structured error object or not: nothing is re-expressed
    there. *)
Theorem C7_handler_exceptions_pass_unchanged
    (JSON_stringify : JsVal -> nat -> JsVal) (s : HomeGraph.Server)
    (name : string) (toolArgs : JsVal)
    (handler : option HomeGraph.HomeGraphService -> JsVal -> Eff JsVal)
    (e : JsVal) :
  HomeGraph.handlers JSON_stringify name = HomeGraph.Own handler ->
  outcome (handler (HomeGraph.homegraph s) (js_or toolArgs (VObj [])))
  = Rejected e ->
  outcome (HomeGraph.callTool JSON_stringify s name toolArgs) = Rejected e.
Proof.
  intros Hown Hraise. unfold HomeGraph.callTool.
  rewrite measureOperation_outcome, outcome_bind. cbn [outcome emit snd].
  rewrite Hown, outcome_bind, Hraise. reflexivity.
Qed.

Lemma C7_witness :
  outcome (HomeGraph.callTool Fixtures.stringify_empty
             (Fixtures.hgServer Fixtures.hgAccount)
             "control_smart_plug" (VObj [("deviceId", VStr "plug-1")]))
  = Rejected (mkError InvalidParams
                "Missing required parameters: agentUserId, deviceId and state").
Proof.
  apply (C7_handler_exceptions_pass_unchanged Fixtures.stringify_empty
           (Fixtures.hgServer Fixtures.hgAccount) "control_smart_plug"
           (VObj [("deviceId", VStr "plug-1")])
           (HomeGraph.control_smart_plug Fixtures.stringify_empty));
    reflexivity.
Defined.

(* ------------------------------------------------------------------ *)
(** ** Clean-up                                                        *)
(* ------------------------------------------------------------------ *)

(** C9 (clean-up).  Cleaning up always succeeds and leaves the backend
    adapter and the authenticator references null; cleaning up twice leaves
    the server in the state one clean-up leaves it in; and on a server whose
    two references are already null it changes nothing.  Its only effects
    besides are two metric updates; no vendor call is made.  Holds for the
    current server and for the single-file one. *)
Theorem C9_cleanup_releases_and_is_idempotent
    (s : HomeGraph.Server) (l : Legacy.Server) (cfg : Config) :
  (exists s',
      outcome (HomeGraph.cleanup s) = Resolved s'
      /\ HomeGraph.homegraph s' = None
      /\ HomeGraph.auth s' = None
      /\ HomeGraph.config s' = HomeGraph.config s
      /\ outcome (s1 <- HomeGraph.cleanup s ;; HomeGraph.cleanup s1)
         = Resolved s')
  /\ outcome (HomeGraph.cleanup
                {| HomeGraph.auth := None; HomeGraph.homegraph := None;
                   HomeGraph.config := cfg |})
     = Resolved {| HomeGraph.auth := None; HomeGraph.homegraph := None;
                   HomeGraph.config := cfg |}
  /\ backend_calls (trace (HomeGraph.cleanup s)) = []
  /\ (exists l',
      outcome (Legacy.cleanup l) = Resolved l'
      /\ Legacy.sdm l' = None
      /\ Legacy.auth l' = None
      /\ Legacy.config l' = Legacy.config l
      /\ outcome (l1 <- Legacy.cleanup l ;; Legacy.cleanup l1) = Resolved l')
  /\ outcome (Legacy.cleanup
                {| Legacy.sdm := None; Legacy.auth := None;
                   Legacy.config := cfg |})
     = Resolved {| Legacy.sdm := None; Legacy.auth := None;
                   Legacy.config := cfg |}
  /\ backend_calls (trace (Legacy.cleanup l)) = [].
Proof.
  repeat split; eexists; repeat split.
Qed.

(* ------------------------------------------------------------------ *)
(** ** Traces: which vendor calls a run makes                          *)
(* ------------------------------------------------------------------ *)

Lemma trace_bind {A B} (m : Eff A) (k : A -> Eff B) :
  trace (bind m k) =
    (trace m ++ match outcome m with
                | Resolved a => trace (k a)
                | Rejected _ => []
                end)%list.
Proof.
  destruct m as [t [a | e]]; unfold bind, trace, outcome; cbn [fst snd].
  - destruct (k a); reflexivity.
  - now rewrite app_nil_r.
Qed.

Lemma trace_try_catch {A} (m : Eff A) (h : JsVal -> Eff A) :
  trace (try_catch m h) =
    (trace m ++ match outcome m with
                | Resolved _ => []
                | Rejected e => trace (h e)
                end)%list.
Proof.
  destruct m as [t [a | e]]; unfold try_catch, trace, outcome; cbn [fst snd].
  - now rewrite app_nil_r.
  - destruct (h e); reflexivity.
Qed.

Lemma trace_await {A} (call : Event) (reply : Outcome A) :
  trace (await call reply) = [call].
Proof. reflexivity. Qed.

Lemma outcome_await {A} (call : Event) (reply : Outcome A) :
  outcome (await call reply) = reply.
Proof. reflexivity. Qed.

(** A wrapping [catch] block adds at most the count of the failure. *)
Lemma trace_catch_wrap {A} (m : Eff A) (metric : string) (W : JsVal -> JsVal) :
  trace (try_catch m (fun error =>
           error_text error ;; emit (Increment metric) ;; throw (W error)))
  = (trace m ++ match outcome m with
                | Resolved _ => []
                | Rejected e => if printable e then [Increment metric] else []
                end)%list.
Proof.
  rewrite trace_try_catch. destruct (outcome m) as [a | e]; [reflexivity |].
  rewrite error_text_then. destruct (printable e); reflexivity.
Qed.

Lemma calls_catch_wrap {A} (m : Eff A) (metric : string) (W : JsVal -> JsVal) :
  backend_calls
    (trace (try_catch m (fun error =>
              error_text error ;; emit (Increment metric) ;; throw (W error))))
  = backend_calls (trace m).
Proof.
  rewrite trace_catch_wrap, backend_calls_app.
  destruct (outcome m) as [a | e]; [| destruct (printable e)];
    apply app_nil_r.
Qed.

Lemma trace_get (v : JsVal) (k : string) : trace (get v k) = [].
Proof. unfold get. destruct (is_nullish v); reflexivity. Qed.

Lemma trace_String_ (v : JsVal) : trace (String_ v) = [].
Proof. unfold String_. destruct (ToString v); reflexivity. Qed.

Lemma trace_as_array (callee : string) (v : JsVal) : trace (as_array callee v) = [].
Proof. destruct v; reflexivity. Qed.

Lemma trace_mapM_nil {A B} (f : A -> Eff B) (l : list A) :
  (forall x, trace (f x) = []) -> trace (mapM f l) = [].
Proof.
  intros H. induction l as [| x rest IH]; [reflexivity |].
  cbn [mapM]. rewrite trace_bind, H. cbn [app].
  destruct (outcome (f x)); [| reflexivity].
  rewrite trace_bind, IH. cbn [app].
  destruct (outcome (mapM f rest)); reflexivity.
Qed.

Lemma trace_filterM_nil {A} (f : A -> Eff bool) (l : list A) :
  (forall x, trace (f x) = []) -> trace (filterM f l) = [].
Proof.
  intros H. induction l as [| x rest IH]; [reflexivity |].
  cbn [filterM]. rewrite trace_bind, H. cbn [app].
  destruct (outcome (f x)); [| reflexivity].
  rewrite trace_bind, IH. cbn [app].
  destruct (outcome (filterM f rest)); reflexivity.
Qed.

Lemma trace_findM_nil (f : JsVal -> Eff bool) (l : list JsVal) :
  (forall x, trace (f x) = []) -> trace (findM f l) = [].
Proof.
  intros H. induction l as [| x rest IH]; [reflexivity |].
  cbn [findM]. rewrite trace_bind, H. cbn [app].
  destruct (outcome (f x)) as [[|] |]; [reflexivity | exact IH | reflexivity].
Qed.

Lemma trace_SDM_toSmartPlug (x : JsVal) : trace (SDM.toSmartPlug x) = [].
Proof. unfold SDM.toSmartPlug, get. destruct (is_nullish x); reflexivity. Qed.

Lemma trace_SDM_isOutlet (x : JsVal) : trace (SDM.isOutlet x) = [].
Proof. unfold SDM.isOutlet, get. destruct (is_nullish x); reflexivity. Qed.

Lemma trace_Legacy_toSmartPlug (x : JsVal) : trace (Legacy.toSmartPlug x) = [].
Proof. unfold Legacy.toSmartPlug, get. destruct (is_nullish x); reflexivity. Qed.

Lemma trace_Legacy_keepsPlug (x : JsVal) : trace (Legacy.keepsPlug x) = [].
Proof.
  unfold Legacy.keepsPlug, get. destruct (is_nullish x); [reflexivity |].
  cbn. destruct (strict_eq_str (prop x "type") OUTLET); reflexivity.
Qed.

(** The filter-and-map pipeline talks to no vendor. *)
Lemma list_pipeline_quiet (keep : JsVal -> Eff bool) (build : JsVal -> Eff JsVal)
    (data : JsVal) :
  (forall x, trace (keep x) = []) ->
  (forall x, trace (build x) = []) ->
  backend_calls
    (trace (listed <- get data "devices" ;;
            devices <- as_array "filter" (js_or listed (VArr [])) ;;
            plugs <- filterM keep devices ;;
            smartPlugs <- mapM build plugs ;;
            emit (Gauge "smart_plugs_count" (Z.of_nat (length smartPlugs))) ;;
            ret (VArr smartPlugs)))
  = [].
Proof.
  intros Hk Hb. rewrite trace_bind, trace_get. cbn [app].
  destruct (outcome (get data "devices")) as [listed |]; [| reflexivity].
  rewrite trace_bind, trace_as_array. cbn [app].
  destruct (outcome (as_array "filter" (js_or listed (VArr []))))
    as [devices |]; [| reflexivity].
  rewrite trace_bind, (trace_filterM_nil _ _ Hk). cbn [app].
  destruct (outcome (filterM keep devices)) as [plugs |]; [| reflexivity].
  rewrite trace_bind, (trace_mapM_nil _ _ Hb). cbn [app].
  destruct (outcome (mapM build plugs)); reflexivity.
Qed.

Lemma SDM_listDevices_calls (c : SdmClient) :
  backend_calls (trace (SDM.listDevices (Some c))) = [SdmList "enterprises/-"].
Proof.
  unfold SDM.listDevices.
  rewrite calls_catch_wrap, trace_bind, backend_calls_app, trace_await,
          outcome_await.
  destruct (devices_list c "enterprises/-") as [data | e]; [| reflexivity].
  now rewrite (list_pipeline_quiet _ _ data trace_SDM_isOutlet
                 trace_SDM_toSmartPlug).
Qed.

(* ------------------------------------------------------------------ *)
(** ** [SDMService]: failures, empty replies, look-up                  *)
(* ------------------------------------------------------------------ *)

(** What leaves a [catch] that wraps: the [InternalError] wrapper around the
    value that was thrown, or, when that value cannot be printed for the log
    line, the [TypeError] of the conversion. *)
Lemma wrapped_rejection {A} (m : Eff A) (metric message : string)
    (e : JsVal) :
  outcome (try_catch m (fun error =>
             error_text error ;;
             emit (Increment metric) ;;
             throw (mkErrorData InternalError message error)))
  = Rejected e ->
  exists v, outcome m = Rejected v
    /\ ((printable v = true /\ e = mkErrorData InternalError message v)
        \/ (printable v = false /\ e = TypeError_to_primitive)).
Proof.
  rewrite (outcome_catch_wrap m metric (mkErrorData InternalError message)).
  destruct (outcome m) as [a | v]; [discriminate |].
  intros [= <-]. exists v. split; [reflexivity |].
  destruct (printable v); [left | right]; now split.
Qed.

(** X1 ([SDMService.listDevices], failure).  With a client present the
    method makes the list request once and only once, whatever comes back.
    When it rejects, the error has code [InternalError] and the message
    ["Failed to get devices"], with one exception: a vendor rejection that
    cannot be converted to a string makes the [catch] block fail at its log
    line, and the [TypeError] of that conversion is what leaves the method.
    A vendor rejection that can be printed is kept as the [data] of the
    [InternalError], and the failure is counted. *)
Theorem X1_listDevices_fails_as_InternalError_after_one_request
    (c : SdmClient) :
  backend_calls (trace (SDM.listDevices (Some c))) = [SdmList "enterprises/-"]
  /\ (forall e, outcome (SDM.listDevices (Some c)) = Rejected e ->
        (error_code e = Some InternalError
         /\ field ["message"] e = VStr "Failed to get devices")
        \/ (e = TypeError_to_primitive
            /\ exists v, devices_list c "enterprises/-" = Rejected v
                         /\ printable v = false))
  /\ (forall v, devices_list c "enterprises/-" = Rejected v ->
        SDM.listDevices (Some c)
        = if printable v then
            ([SdmList "enterprises/-"; Increment "get_devices_errors"],
             Rejected (mkErrorData InternalError "Failed to get devices" v))
          else ([SdmList "enterprises/-"], Rejected TypeError_to_primitive)).
Proof.
  split; [apply SDM_listDevices_calls | split].
  - intros e H. unfold SDM.listDevices in H.
    destruct (wrapped_rejection _ _ _ _ H) as [v [Hv [[Hp ->] | [Hp ->]]]].
    + left. split; [apply error_code_mkErrorData | reflexivity].
    + right. split; [reflexivity |].
      destruct (list_pipeline_throws _ _ _ _ _ SDM_isOutlet_throws
                  SDM_toSmartPlug_throws Hv) as [Hr | Hq];
        [now exists v | congruence].
  - intros v Hv. unfold SDM.listDevices, await. rewrite Hv, bind_rejected.
    unfold try_catch. rewrite error_text_then.
    destruct (printable v); reflexivity.
Qed.

(** X2 (list operations, no [devices] in the reply).  When the vendor's
    reply carries no device list (the field is absent, null or otherwise
    falsy), both list operations resolve with the empty array and set the
    [smart_plugs_count] gauge to 0; it is not an error. *)
Theorem X2_list_without_devices_field_is_empty
    (c : SdmClient) (s : Legacy.Server) (data : JsVal) :
  devices_list c "enterprises/-" = Resolved data ->
  devices_list c "enterprises/me" = Resolved data ->
  Legacy.sdm s = Some c ->
  is_nullish data = false ->
  ToBoolean (prop data "devices") = false ->
  SDM.listDevices (Some c)
  = ([SdmList "enterprises/-"; Gauge "smart_plugs_count" 0],
     Resolved (VArr []))
  /\ Legacy.getSmartPlugs s
     = ([SdmList "enterprises/me"; Gauge "smart_plugs_count" 0;
         Duration "get_smart_plugs_duration_ms";
         Increment "get_smart_plugs_total"],
        Resolved (VArr [])).
Proof.
  intros Hl Hl' Hsdm Hn Hf.
  unfold SDM.listDevices, Legacy.getSmartPlugs, await, get, js_or.
  rewrite Hsdm, Hl, Hl'. cbn. rewrite Hn. cbn. rewrite Hf. split; reflexivity.
Qed.

Lemma X2_witness :
  SDM.listDevices (Some Fixtures.emptyAccount)
  = ([SdmList "enterprises/-"; Gauge "smart_plugs_count" 0],
     Resolved (VArr []))
  /\ Legacy.getSmartPlugs (Fixtures.legacyServer Fixtures.emptyAccount)
     = ([SdmList "enterprises/me"; Gauge "smart_plugs_count" 0;
         Duration "get_smart_plugs_duration_ms";
         Increment "get_smart_plugs_total"],
        Resolved (VArr [])).
Proof.
  apply (X2_list_without_devices_field_is_empty Fixtures.emptyAccount
           (Fixtures.legacyServer Fixtures.emptyAccount) (VObj []));
    reflexivity.
Defined.

(** X3 ([SDMService.controlDevice]).  The command is sent at most once (it is
    never retried), and not at all without a client.  A rejection has code
    [InternalError], except that a vendor rejection which cannot be
    converted to a string leaves the method as the [TypeError] of the log
    line's conversion.  When the vendor refuses the command with a value
    that can be printed, the failure is counted and that value is kept as
    the [data] of the [InternalError]; otherwise nothing is counted. *)
Theorem X3_controlDevice_sends_once_and_wraps_failure
    (sdm : option SdmClient) (deviceId : string) (state : bool) :
  backend_calls (trace (SDM.controlDevice sdm deviceId state))
  = match sdm with
    | Some _ => [SdmExecuteCommand deviceId state]
    | None => []
    end
  /\ (forall e, outcome (SDM.controlDevice sdm deviceId state) = Rejected e ->
        error_code e = Some InternalError
        \/ (e = TypeError_to_primitive
            /\ exists c v, sdm = Some c
                 /\ devices_executeCommand c deviceId state = Rejected v
                 /\ printable v = false))
  /\ (forall c v, sdm = Some c ->
        devices_executeCommand c deviceId state = Rejected v ->
        SDM.controlDevice sdm deviceId state
        = if printable v then
            ([SdmExecuteCommand deviceId state;
              Increment "device_control_errors"],
             Rejected (mkErrorData InternalError
                         ("Failed to control device " ++ deviceId) v))
          else ([SdmExecuteCommand deviceId state],
                Rejected TypeError_to_primitive)).
Proof.
  rewrite SDM_controlDevice_cases. destruct sdm as [c |].
  - destruct (devices_executeCommand c deviceId state) as [a | v] eqn:E.
    + split; [reflexivity | split].
      * intros e [=].
      * intros c' v' [= <-]. rewrite E. intros [=].
    + split; [now destruct (printable v) | split].
      * destruct (printable v) eqn:P; intros e [= <-].
        -- left. apply error_code_mkErrorData.
        -- right. split; [reflexivity |]. now exists c, v.
      * intros c' v' [= <-]. rewrite E. intros [= <-]. reflexivity.
  - split; [reflexivity | split].
    + intros e [= <-]. left. reflexivity.
    + intros c v [=].
Qed.

Lemma SDM_toSmartPlug_total (x : JsVal) :
  is_nullish x = false ->
  exists v, SDM.toSmartPlug x = ret v.
Proof.
  intros H. unfold SDM.toSmartPlug, get. rewrite H.
  rewrite !bind_ret_l. eexists. reflexivity.
Qed.

(** X4 ([SDMService.getDeviceState], record found).  For a record of any
    device category (outlet or not) the look-up resolves, after one request,
    with the snapshot of that record; the reported id is the record's own
    name, also when it differs from the id that was asked for. *)
Theorem X4_getDeviceState_returns_snapshot_of_any_record
    (c : SdmClient) (deviceId : string) (d : DeviceState) :
  devices_get c deviceId = Resolved (encode d) ->
  exists v,
    SDM.getDeviceState (Some c) deviceId
    = ([SdmGet deviceId; Increment "get_device_state_success"], Resolved v)
    /\ read_snapshot v = Some (snapshot_of d).
Proof.
  intros H. destruct (SDM_toSmartPlug_encode d) as [v [Hv Hs]].
  exists v. split; [| exact Hs].
  unfold SDM.getDeviceState, await. rewrite H.
  unfold bind at 1. cbn [ToBoolean encode negb]. rewrite Hv. reflexivity.
Qed.

Lemma X4_witness :
  exists v,
    SDM.getDeviceState (Some (Scenarios.accountHolding Fixtures.camera))
      "some-other-id"
    = ([SdmGet "some-other-id"; Increment "get_device_state_success"],
       Resolved v)
    /\ read_snapshot v = Some (snapshot_of Fixtures.camera).
Proof.
  apply (X4_getDeviceState_returns_snapshot_of_any_record
           (Scenarios.accountHolding Fixtures.camera) "some-other-id"
           Fixtures.camera).
  reflexivity.
Defined.

(* ------------------------------------------------------------------ *)
(** ** The argument guard, for any argument value                      *)
(* ------------------------------------------------------------------ *)

Lemma existsb_false_at {A} (f : A -> bool) (l : list A) (x : A) :
  existsb f l = false -> In x l -> f x = false.
Proof.
  intros H Hin. destruct (f x) eqn:E; [| reflexivity].
  assert (existsb f l = true) by (apply existsb_exists; now exists x).
  congruence.
Qed.

(** A value that passes the guard is an object holding every required key. *)
Lemma guard_passed (args : JsVal) (required : list string) (k : string) :
  lacks_required args required = false ->
  In k required ->
  mem_string k Object_prototype_names = false ->
  exists ps v, args = VObj ps /\ assoc k ps = Some v.
Proof.
  unfold lacks_required. intros H Hin Hp.
  apply orb_false_iff in H. destruct H as [H Hkeys].
  apply orb_false_iff in H. destruct H as [Htruthy Htype].
  pose proof (existsb_false_at _ _ k Hkeys Hin) as Hk. cbn beta in Hk.
  apply negb_false_iff in Hk.
  destruct args as [| | b | n | str | l | ps | nm msg];
    try discriminate; cbn [js_in] in Hk; try congruence.
  rewrite Hp, orb_false_r in Hk. unfold has_key in Hk.
  destruct (assoc k ps) as [v |] eqn:E; [| discriminate].
  now exists ps, v.
Qed.

(** Anything but an object fails the guard, when a key is required. *)
Lemma guard_rejects_non_object (args : JsVal) (k : string) (rest : list string) :
  (forall ps, args <> VObj ps) ->
  mem_string k Object_prototype_names = false ->
  lacks_required args (k :: rest) = true.
Proof.
  intros Hno Hp. unfold lacks_required.
  destruct args as [| | b | n | str | l | ps | nm msg];
    cbn [ToBoolean typeof existsb js_in]; rewrite ?Hp; try reflexivity.
  - now destruct b.
  - now destruct (Z.eqb n 0).
  - now destruct (String.eqb str "").
  - now destruct (Hno ps).
Qed.

Lemma assoc_app_present (k : string) (ps extra : list (string * JsVal))
    (v : JsVal) :
  assoc k ps = Some v -> assoc k (ps ++ extra) = Some v.
Proof.
  induction ps as [| [k' v'] rest IH]; [discriminate |].
  cbn [assoc app]. destruct (String.eqb k k'); [trivial | exact IH].
Qed.

Lemma SDM_get_present (sdm : option SdmClient) (ps : list (string * JsVal))
    (vId : JsVal) :
  assoc "deviceId" ps = Some vId ->
  SDM.get_smart_plug_state sdm (VObj ps) =
    match ToString vId with
    | Some d =>
        (device <- SDM.getDeviceState sdm d ;;
         ret (VObj [ ("content", device) ]))
    | None => throw TypeError_to_primitive
    end.
Proof.
  intros Hid. unfold SDM.get_smart_plug_state, lacks_required.
  cbn [ToBoolean typeof negb existsb orb].
  rewrite (js_in_present _ _ _ Hid).
  cbn [negb orb String.eqb Ascii.eqb Bool.eqb andb].
  rewrite get_obj, bind_ret_l, (prop_present _ _ _ Hid).
  unfold String_. destruct (ToString vId) as [d |]; [| reflexivity].
  now rewrite bind_ret_l.
Qed.

Lemma Legacy_callTool_get (s : Legacy.Server) (args : JsVal) :
  Legacy.callTool s "get_smart_plug_state" args =
    measureOperation "execute_tool_get_smart_plug_state"
      (emit (Increment "tool_execution_get_smart_plug_state") ;;
       Legacy.case_get_smart_plug_state s args).
Proof. reflexivity. Qed.

Lemma Legacy_callTool_list (s : Legacy.Server) (args : JsVal) :
  Legacy.callTool s "list_smart_plugs" args =
    measureOperation "execute_tool_list_smart_plugs"
      (emit (Increment "tool_execution_list_smart_plugs") ;;
       content <- Legacy.getSmartPlugs s ;;
       ret (VObj [ ("content", content) ])).
Proof. reflexivity. Qed.

(** X5 (control and get handlers, argument that is no object).  Called with
    anything but an object as the argument bag (no arguments at all, [null],
    a string, a number, a boolean, an array), [control_smart_plug] and
    [get_smart_plug_state] reject with [InvalidParams] and make no vendor
    call, in the SDM-backed handlers and in the single-file server. *)
Theorem X5_non_object_arguments_are_InvalidParams
    (sdm : option SdmClient) (s : Legacy.Server) (args : JsVal) :
  (forall ps, args <> VObj ps) ->
  SDM.control_smart_plug sdm args
  = ([Increment "invalid_control_params_errors"],
     Rejected (mkError InvalidParams
                 "Missing required parameters: deviceId and state"))
  /\ SDM.get_smart_plug_state sdm args
     = ([Increment "invalid_get_state_params_errors"],
        Rejected (mkError InvalidParams "Missing required parameter: deviceId"))
  /\ Legacy.callTool s "control_smart_plug" args
     = ([Increment "tool_execution_control_smart_plug";
         Increment "invalid_control_params_errors";
         Increment "execute_tool_control_smart_plug_errors"],
        Rejected (mkError InvalidParams
                    "Missing required parameters: deviceId and state"))
  /\ Legacy.callTool s "get_smart_plug_state" args
     = ([Increment "tool_execution_get_smart_plug_state";
         Increment "invalid_get_state_params_errors";
         Increment "execute_tool_get_smart_plug_state_errors"],
        Rejected (mkError InvalidParams "Missing required parameter: deviceId")).
Proof.
  intros Hno.
  rewrite Legacy_callTool_control, Legacy_callTool_get.
  unfold SDM.control_smart_plug, SDM.get_smart_plug_state,
    Legacy.case_control_smart_plug, Legacy.case_get_smart_plug_state.
  rewrite (guard_rejects_non_object args "deviceId" ["state"] Hno eq_refl),
          (guard_rejects_non_object args "deviceId" [] Hno eq_refl).
  repeat split.
Qed.

Lemma X5_witness :
  SDM.control_smart_plug (Some Fixtures.emptyAccount) VUndefined
  = ([Increment "invalid_control_params_errors"],
     Rejected (mkError InvalidParams
                 "Missing required parameters: deviceId and state"))
  /\ SDM.get_smart_plug_state (Some Fixtures.emptyAccount) VUndefined
     = ([Increment "invalid_get_state_params_errors"],
        Rejected (mkError InvalidParams "Missing required parameter: deviceId"))
  /\ Legacy.callTool (Fixtures.legacyServer Fixtures.emptyAccount)
       "control_smart_plug" VUndefined
     = ([Increment "tool_execution_control_smart_plug";
         Increment "invalid_control_params_errors";
         Increment "execute_tool_control_smart_plug_errors"],
        Rejected (mkError InvalidParams
                    "Missing required parameters: deviceId and state"))
  /\ Legacy.callTool (Fixtures.legacyServer Fixtures.emptyAccount)
       "get_smart_plug_state" VUndefined
     = ([Increment "tool_execution_get_smart_plug_state";
         Increment "invalid_get_state_params_errors";
         Increment "execute_tool_get_smart_plug_state_errors"],
        Rejected (mkError InvalidParams "Missing required parameter: deviceId")).
Proof.
  apply (X5_non_object_arguments_are_InvalidParams
           (Some Fixtures.emptyAccount)
           (Fixtures.legacyServer Fixtures.emptyAccount) VUndefined).
  intros ps. discriminate.
Defined.

Lemma Legacy_get_present (s : Legacy.Server) (ps qs : list (string * JsVal))
    (vId : JsVal) :
  assoc "deviceId" ps = Some vId ->
  assoc "deviceId" qs = Some vId ->
  Legacy.case_get_smart_plug_state s (VObj ps)
  = Legacy.case_get_smart_plug_state s (VObj qs).
Proof.
  intros Hp Hq. unfold Legacy.case_get_smart_plug_state, lacks_required.
  cbn [ToBoolean typeof negb existsb orb].
  rewrite (js_in_present _ _ _ Hp), (js_in_present _ _ _ Hq).
  cbn [negb orb String.eqb Ascii.eqb Bool.eqb andb].
  now rewrite !get_obj, !bind_ret_l, (prop_present _ _ _ Hp),
    (prop_present _ _ _ Hq).
Qed.

(** X6 (control and get handlers, fields that are not asked for).  Fields
    added to an argument bag that already holds the required ones change
    nothing: the run (vendor calls, metric updates and outcome) is the same
    with and without them.  For [get_smart_plug_state] the bag need hold
    [deviceId] only; for [control_smart_plug] it holds [state] as well. *)
Theorem X6_additional_fields_are_ignored
    (sdm : option SdmClient) (s : Legacy.Server)
    (ps extra : list (string * JsVal)) (vId : JsVal) :
  assoc "deviceId" ps = Some vId ->
  (SDM.get_smart_plug_state sdm (VObj (ps ++ extra))
   = SDM.get_smart_plug_state sdm (VObj ps)
   /\ Legacy.callTool s "get_smart_plug_state" (VObj (ps ++ extra))
      = Legacy.callTool s "get_smart_plug_state" (VObj ps))
  /\ (forall vState, assoc "state" ps = Some vState ->
        SDM.control_smart_plug sdm (VObj (ps ++ extra))
        = SDM.control_smart_plug sdm (VObj ps)
        /\ Legacy.callTool s "control_smart_plug" (VObj (ps ++ extra))
           = Legacy.callTool s "control_smart_plug" (VObj ps)).
Proof.
  intros Hid.
  pose proof (assoc_app_present _ _ extra _ Hid) as Hid'.
  split; [split |].
  - now rewrite (SDM_get_present _ _ _ Hid), (SDM_get_present _ _ _ Hid').
  - rewrite !Legacy_callTool_get.
    now rewrite (Legacy_get_present s _ _ _ Hid' Hid).
  - intros vState Hst.
    pose proof (assoc_app_present _ _ extra _ Hst) as Hst'.
    split.
    + now rewrite (SDM_control_cases _ _ _ _ Hid Hst),
        (SDM_control_cases _ _ _ _ Hid' Hst').
    + now rewrite (Legacy_control_cases _ _ _ _ Hid Hst),
        (Legacy_control_cases _ _ _ _ Hid' Hst').
Qed.

Lemma X6_witness :
  (SDM.get_smart_plug_state (Some Fixtures.emptyAccount)
     (VObj ([("deviceId", VStr "plug-1")]
            ++ [("brightness", VNum 40); ("room", VStr "kitchen")]))
   = SDM.get_smart_plug_state (Some Fixtures.emptyAccount)
       (VObj [("deviceId", VStr "plug-1")])
   /\ Legacy.callTool (Fixtures.legacyServer Fixtures.emptyAccount)
        "get_smart_plug_state"
        (VObj ([("deviceId", VStr "plug-1")]
               ++ [("brightness", VNum 40); ("room", VStr "kitchen")]))
      = Legacy.callTool (Fixtures.legacyServer Fixtures.emptyAccount)
          "get_smart_plug_state" (VObj [("deviceId", VStr "plug-1")]))
  /\ (SDM.control_smart_plug (Some Fixtures.emptyAccount)
        (VObj ([("deviceId", VStr "plug-1"); ("state", VBool true)]
               ++ [("brightness", VNum 40); ("room", VStr "kitchen")]))
      = SDM.control_smart_plug (Some Fixtures.emptyAccount)
          (VObj [("deviceId", VStr "plug-1"); ("state", VBool true)])
      /\ Legacy.callTool (Fixtures.legacyServer Fixtures.emptyAccount)
           "control_smart_plug"
           (VObj ([("deviceId", VStr "plug-1"); ("state", VBool true)]
                  ++ [("brightness", VNum 40); ("room", VStr "kitchen")]))
         = Legacy.callTool (Fixtures.legacyServer Fixtures.emptyAccount)
             "control_smart_plug"
             (VObj [("deviceId", VStr "plug-1"); ("state", VBool true)])).
Proof.
  split.
  - apply (X6_additional_fields_are_ignored (Some Fixtures.emptyAccount)
             (Fixtures.legacyServer Fixtures.emptyAccount)
             [("deviceId", VStr "plug-1")]
             [("brightness", VNum 40); ("room", VStr "kitchen")]
             (VStr "plug-1")).
    reflexivity.
  - apply (proj2 (X6_additional_fields_are_ignored (Some Fixtures.emptyAccount)
                    (Fixtures.legacyServer Fixtures.emptyAccount)
                    [("deviceId", VStr "plug-1"); ("state", VBool true)]
                    [("brightness", VNum 40); ("room", VStr "kitchen")]
                    (VStr "plug-1") eq_refl) (VBool true)).
    reflexivity.
Defined.

(* ------------------------------------------------------------------ *)
(** ** What a tool call can fail with, and how many vendor calls it makes *)
(* ------------------------------------------------------------------ *)

Lemma get_not_nullish (v : JsVal) (k : string) :
  is_nullish v = false -> get v k = ret (prop v k).
Proof. intros H. unfold get. now rewrite H. Qed.

Lemma truthy_not_nullish (v : JsVal) : ToBoolean v = true -> is_nullish v = false.
Proof. destruct v; (discriminate || reflexivity). Qed.

Lemma SDM_control_rejections (sdm : option SdmClient) (args e : JsVal) :
  outcome (SDM.control_smart_plug sdm args) = Rejected e ->
  error_code e = Some InvalidParams
  \/ error_code e = Some InternalError
  \/ (e = TypeError_to_primitive
      /\ (ToString (prop args "deviceId") = None
          \/ exists c, sdm = Some c /\ rejects_unprintably c)).
Proof.
  destruct (lacks_required args ["deviceId"; "state"]) eqn:G.
  - unfold SDM.control_smart_plug. rewrite G. intros [= <-]. now left.
  - destruct (guard_passed _ _ "deviceId" G (or_introl eq_refl) eq_refl)
      as [ps [vId [-> Hid]]].
    destruct (guard_passed _ _ "state" G (or_intror (or_introl eq_refl)) eq_refl)
      as [ps' [vState [[= <-] Hst]]].
    rewrite (SDM_control_cases _ _ _ _ Hid Hst), (prop_present _ _ _ Hid).
    destruct (ToString vId) as [d |]; [destruct sdm as [c |] |].
    + destruct (devices_executeCommand c d (ToBoolean vState)) as [a | v] eqn:E;
        [intros [=] |].
      destruct (printable v) eqn:P; intros [= <-].
      * right; left. apply error_code_mkErrorData.
      * right; right. split; [reflexivity |]. right. exists c.
        split; [reflexivity |]. exists v. split; [exact P |].
        right; left. now exists d, (ToBoolean vState).
    + intros [= <-]. now right; left.
    + intros [= <-]. right; right. split; [reflexivity | now left].
Qed.

Lemma SDM_get_rejections (sdm : option SdmClient) (args e : JsVal) :
  outcome (SDM.get_smart_plug_state sdm args) = Rejected e ->
  error_code e = Some InvalidParams
  \/ error_code e = Some InternalError
  \/ (e = TypeError_to_primitive
      /\ (ToString (prop args "deviceId") = None
          \/ exists c, sdm = Some c /\ rejects_unprintably c)).
Proof.
  destruct (lacks_required args ["deviceId"]) eqn:G.
  - unfold SDM.get_smart_plug_state. rewrite G. intros [= <-]. now left.
  - destruct (guard_passed _ _ "deviceId" G (or_introl eq_refl) eq_refl)
      as [ps [vId [-> Hid]]].
    rewrite (SDM_get_present _ _ _ Hid), (prop_present _ _ _ Hid).
    destruct (ToString vId) as [d |];
      [| intros [= <-]; right; right; split; [reflexivity | now left]].
    rewrite outcome_bind.
    destruct (outcome (SDM.getDeviceState sdm d)) as [a | e0] eqn:E;
      [discriminate |].
    intros [= <-].
    destruct (SDM_getDeviceState_rejections sdm d e0 E)
      as [H | [-> [c [v [-> [Hv P]]]]]]; [now right; left |].
    right; right. split; [reflexivity |]. right. exists c.
    split; [reflexivity |]. exists v. split; [exact P |].
    right; right. now exists d.
Qed.

(** X7 (SDM-backed handlers, what they fail with).  Whatever the arguments
    and whatever the vendor does, a rejection of [list_smart_plugs],
    [control_smart_plug] or [get_smart_plug_state] is a structured error with
    code [InvalidParams] or [InternalError], or else the [TypeError] of a
    conversion to string that failed; and that happens only when the given
    [deviceId] cannot be converted, or when the vendor client rejected with
    a value that cannot be converted (the [catch] blocks print what they
    caught before they wrap it). *)
Theorem X7_SDM_handlers_fail_with_InvalidParams_or_InternalError
    (sdm : option SdmClient) (args e : JsVal) :
  outcome (SDM.list_smart_plugs sdm args) = Rejected e
  \/ outcome (SDM.control_smart_plug sdm args) = Rejected e
  \/ outcome (SDM.get_smart_plug_state sdm args) = Rejected e ->
  error_code e = Some InvalidParams
  \/ error_code e = Some InternalError
  \/ (e = TypeError_to_primitive
      /\ (ToString (prop args "deviceId") = None
          \/ exists c, sdm = Some c /\ rejects_unprintably c)).
Proof.
  intros [H | [H | H]].
  - unfold SDM.list_smart_plugs in H. rewrite outcome_bind in H.
    destruct (outcome (SDM.listDevices sdm)) as [a | e0] eqn:E;
      [discriminate |].
    injection H as <-.
    destruct (SDM_listDevices_rejections sdm e0 E)
      as [H | [-> [c [v [-> [Hv P]]]]]]; [now right; left |].
    right; right. split; [reflexivity |]. right. exists c.
    split; [reflexivity |]. exists v. split; [exact P |].
    left. now exists "enterprises/-".
  - exact (SDM_control_rejections sdm args e H).
  - exact (SDM_get_rejections sdm args e H).
Qed.

Lemma X7_witness :
  error_code (mkErrorData InternalError "Failed to get devices"
                (VError "GaxiosError" "Forbidden")) = Some InvalidParams
  \/ error_code (mkErrorData InternalError "Failed to get devices"
                   (VError "GaxiosError" "Forbidden")) = Some InternalError
  \/ (mkErrorData InternalError "Failed to get devices"
        (VError "GaxiosError" "Forbidden") = TypeError_to_primitive
      /\ (ToString (prop (VObj []) "deviceId") = None
          \/ exists c, Some Scenarios.refusedAccount = Some c
                       /\ rejects_unprintably c)).
Proof.
  apply (X7_SDM_handlers_fail_with_InvalidParams_or_InternalError
           (Some Scenarios.refusedAccount) (VObj [])).
  left. reflexivity.
Defined.

(** The rejections that are no structured error: an id that cannot be
    printed, and a vendor rejection that cannot be printed. *)
Example control_with_unprintable_id :
  SDM.control_smart_plug (Some Fixtures.emptyAccount)
    (VObj [("deviceId", VObj [("toString", VNum 1)]); ("state", VBool true)])
  = ([], Rejected TypeError_to_primitive).
Proof. reflexivity. Qed.

Example list_with_unprintable_rejection :
  SDM.list_smart_plugs (Some Scenarios.opaqueAccount) (VObj [])
  = ([SdmList "enterprises/-"], Rejected TypeError_to_primitive).
Proof. reflexivity. Qed.

Lemma Legacy_getSmartPlugs_rejections (s : Legacy.Server) (e : JsVal) :
  outcome (Legacy.getSmartPlugs s) = Rejected e ->
  error_code e = Some InternalError
  \/ (e = TypeError_to_primitive
      /\ exists c, Legacy.sdm s = Some c /\ rejects_unprintably c).
Proof.
  unfold Legacy.getSmartPlugs. rewrite measureOperation_outcome.
  destruct (Legacy.sdm s) as [c |]; [| intros [= <-]; left; reflexivity].
  intros H.
  destruct (wrapped_rejection _ _ _ _ H) as [v [Hv [[P ->] | [P ->]]]].
  - left. apply error_code_mkErrorData.
  - right. split; [reflexivity |]. exists c. split; [reflexivity |].
    exists v. split; [exact P |]. left. exists "enterprises/me".
    destruct (list_pipeline_throws _ _ _ _ _ Legacy_keepsPlug_throws
                Legacy_toSmartPlug_throws Hv) as [Hr | Hq];
      [exact Hr | congruence].
Qed.

Lemma Legacy_case_control_rejections (s : Legacy.Server) (args e : JsVal) :
  outcome (Legacy.case_control_smart_plug s args) = Rejected e ->
  error_code e = Some InvalidParams
  \/ error_code e = Some InternalError
  \/ (e = TypeError_to_primitive
      /\ (ToString (prop args "deviceId") = None
          \/ exists c, Legacy.sdm s = Some c /\ rejects_unprintably c)).
Proof.
  destruct (lacks_required args ["deviceId"; "state"]) eqn:G.
  - unfold Legacy.case_control_smart_plug. rewrite G. intros [= <-]. now left.
  - destruct (guard_passed _ _ "deviceId" G (or_introl eq_refl) eq_refl)
      as [ps [vId [-> Hid]]].
    destruct (guard_passed _ _ "state" G (or_intror (or_introl eq_refl)) eq_refl)
      as [ps' [vState [[= <-] Hst]]].
    rewrite (Legacy_control_present _ _ _ _ Hid Hst), (prop_present _ _ _ Hid).
    destruct (ToString vId) as [d |];
      [| intros [= <-]; right; right; split; [reflexivity | now left]].
    destruct (Legacy.sdm s) as [c |]; [| intros [= <-]; now right; left].
    intros H.
    destruct (wrapped_rejection _ _ _ _ H) as [v [Hv [[P ->] | [P ->]]]].
    + right; left. apply error_code_mkErrorData.
    + right; right. split; [reflexivity |]. right. exists c.
      split; [reflexivity |]. exists v. split; [exact P |].
      right; left. exists d, (ToBoolean vState).
      rewrite outcome_bind, outcome_await in Hv.
      destruct (devices_executeCommand c d (ToBoolean vState)) as [a | v'];
        [discriminate | congruence].
Qed.

Lemma Legacy_case_get_rejections (s : Legacy.Server) (args e : JsVal) :
  outcome (Legacy.case_get_smart_plug_state s args) = Rejected e ->
  error_code e = Some InvalidParams
  \/ error_code e = Some InternalError
  \/ (e = TypeError_to_primitive
      /\ (ToString (prop args "deviceId") = None
          \/ exists c, Legacy.sdm s = Some c /\ rejects_unprintably c)).
Proof.
  unfold Legacy.case_get_smart_plug_state.
  destruct (lacks_required args ["deviceId"]) eqn:G.
  - intros [= <-]. now left.
  - destruct (guard_passed _ _ "deviceId" G (or_introl eq_refl) eq_refl)
      as [ps [vId [-> Hid]]].
    rewrite get_obj, bind_ret_l, (prop_present _ _ _ Hid).
    unfold String_. destruct (ToString vId) as [d |];
      [| intros [= <-]; right; right; split; [reflexivity | now left]].
    rewrite bind_ret_l.
    destruct (Legacy.sdm s) as [c |]; [| intros [= <-]; now right; left].
    intros H.
    destruct (wrapped_rejection _ _ _ _ H) as [v [Hv [[P ->] | [P ->]]]].
    + right; left. apply error_code_mkErrorData.
    + right; right. split; [reflexivity |]. right. exists c.
      split; [reflexivity |]. exists v. split; [exact P |].
      right; right. exists d.
      rewrite outcome_bind, outcome_await in Hv.
      destruct (devices_get c d) as [device | v']; [| congruence].
      exfalso. revert Hv. destruct (ToBoolean device) eqn:T; cbn [negb].
      * rewrite outcome_bind. cbn [outcome emit snd].
        rewrite (get_not_nullish device "name" (truthy_not_nullish _ T)).
        rewrite !bind_ret_l.
        rewrite (get_not_nullish device "traits" (truthy_not_nullish _ T)).
        rewrite !bind_ret_l.
        rewrite (get_not_nullish device "type" (truthy_not_nullish _ T)).
        rewrite !bind_ret_l. discriminate.
      * intros [= <-]. discriminate.
Qed.

(** X8 (single-file server, what a tool call fails with).  Whatever the tool
    name, the arguments and the vendor's behaviour, a rejection of the
    call-tool handler is a structured error with code [MethodNotFound],
    [InvalidParams] or [InternalError], or else the [TypeError] of a
    conversion to string that failed; and that happens only when the given
    [deviceId] cannot be converted, or when the vendor client rejected with
    a value that cannot be converted (the [catch] blocks print what they
    caught before they wrap it). *)
Theorem X8_Legacy_callTool_fails_with_taxonomy_codes
    (s : Legacy.Server) (name : string) (args e : JsVal) :
  outcome (Legacy.callTool s name args) = Rejected e ->
  error_code e = Some MethodNotFound
  \/ error_code e = Some InvalidParams
  \/ error_code e = Some InternalError
  \/ (e = TypeError_to_primitive
      /\ (ToString (prop args "deviceId") = None
          \/ exists c, Legacy.sdm s = Some c /\ rejects_unprintably c)).
Proof.
  unfold Legacy.callTool.
  rewrite measureOperation_outcome, outcome_bind. cbn [outcome emit snd].
  destruct (String.eqb name "list_smart_plugs").
  - rewrite outcome_bind.
    destruct (outcome (Legacy.getSmartPlugs s)) as [a | e0] eqn:E;
      [discriminate |].
    intros [= <-]. right; right.
    destruct (Legacy_getSmartPlugs_rejections s e0 E) as [H | [-> H]];
      [now left | right; split; [reflexivity | now right]].
  - destruct (String.eqb name "control_smart_plug").
    + intros H. right. exact (Legacy_case_control_rejections s args e H).
    + destruct (String.eqb name "get_smart_plug_state").
      * intros H. right. exact (Legacy_case_get_rejections s args e H).
      * rewrite outcome_bind. cbn [outcome emit snd throw].
        intros [= <-]. left. apply error_code_mkError.
Qed.

Lemma X8_witness :
  error_code (mkError MethodNotFound "Unknown tool: not_a_tool")
  = Some MethodNotFound
  \/ error_code (mkError MethodNotFound "Unknown tool: not_a_tool")
     = Some InvalidParams
  \/ error_code (mkError MethodNotFound "Unknown tool: not_a_tool")
     = Some InternalError
  \/ (mkError MethodNotFound "Unknown tool: not_a_tool" = TypeError_to_primitive
      /\ (ToString (prop (VObj []) "deviceId") = None
          \/ exists c,
               Legacy.sdm (Fixtures.legacyServer Fixtures.emptyAccount) = Some c
               /\ rejects_unprintably c)).
Proof.
  apply (X8_Legacy_callTool_fails_with_taxonomy_codes
           (Fixtures.legacyServer Fixtures.emptyAccount) "not_a_tool" (VObj [])).
  reflexivity.
Defined.

Lemma calls_bind {A B} (m : Eff A) (k : A -> Eff B) :
  backend_calls (trace (bind m k)) =
    (backend_calls (trace m)
       ++ match outcome m with
          | Resolved a => backend_calls (trace (k a))
          | Rejected _ => []
          end)%list.
Proof.
  rewrite trace_bind, backend_calls_app. now destruct (outcome m).
Qed.

Lemma calls_bind_quiet {A B} (m : Eff A) (k : A -> Eff B) :
  trace m = [] ->
  backend_calls (trace (bind m k)) =
    match outcome m with
    | Resolved a => backend_calls (trace (k a))
    | Rejected _ => []
    end.
Proof. intros H. rewrite calls_bind, H. reflexivity. Qed.

Lemma SDM_getDeviceState_calls (sdm : option SdmClient) (deviceId : string) :
  backend_calls (trace (SDM.getDeviceState sdm deviceId))
  = match sdm with Some _ => [SdmGet deviceId] | None => [] end.
Proof.
  destruct sdm as [c |]; [| reflexivity].
  unfold SDM.getDeviceState.
  rewrite calls_catch_wrap, calls_bind, trace_await, outcome_await.
  destruct (devices_get c deviceId) as [device | e]; [| reflexivity].
  destruct (ToBoolean device) eqn:T; [| reflexivity].
  cbn [negb].
  destruct (SDM_toSmartPlug_total device (truthy_not_nullish _ T)) as [v ->].
  reflexivity.
Qed.

Lemma Legacy_getSmartPlugs_calls (s : Legacy.Server) :
  backend_calls (trace (Legacy.getSmartPlugs s))
  = match Legacy.sdm s with Some _ => [SdmList "enterprises/me"] | None => [] end.
Proof.
  unfold Legacy.getSmartPlugs. rewrite measureOperation_backend_calls.
  destruct (Legacy.sdm s) as [c |]; [| reflexivity].
  rewrite calls_catch_wrap, trace_bind, backend_calls_app, trace_await,
          outcome_await.
  destruct (devices_list c "enterprises/me") as [data | e]; [| reflexivity].
  now rewrite (list_pipeline_quiet _ _ data trace_Legacy_keepsPlug
                 trace_Legacy_toSmartPlug).
Qed.

Lemma SDM_control_calls (sdm : option SdmClient) (args : JsVal) :
  (length (backend_calls (trace (SDM.control_smart_plug sdm args))) <= 1)%nat.
Proof.
  destruct (lacks_required args ["deviceId"; "state"]) eqn:G.
  - unfold SDM.control_smart_plug. rewrite G. cbn. lia.
  - destruct (guard_passed _ _ "deviceId" G (or_introl eq_refl) eq_refl)
      as [ps [vId [-> Hid]]].
    destruct (guard_passed _ _ "state" G (or_intror (or_introl eq_refl)) eq_refl)
      as [ps' [vState [[= <-] Hst]]].
    rewrite (SDM_control_cases _ _ _ _ Hid Hst).
    destruct (ToString vId) as [d |]; [destruct sdm as [c |] |];
      try (cbn; lia).
    destruct (devices_executeCommand c d (ToBoolean vState)) as [a | e];
      [| destruct (printable e)]; cbn; lia.
Qed.

Lemma SDM_get_calls (sdm : option SdmClient) (args : JsVal) :
  (length (backend_calls (trace (SDM.get_smart_plug_state sdm args))) <= 1)%nat.
Proof.
  destruct (lacks_required args ["deviceId"]) eqn:G.
  - unfold SDM.get_smart_plug_state. rewrite G. cbn. lia.
  - destruct (guard_passed _ _ "deviceId" G (or_introl eq_refl) eq_refl)
      as [ps [vId [-> Hid]]].
    rewrite (SDM_get_present _ _ _ Hid).
    destruct (ToString vId) as [d |]; [| cbn; lia].
    rewrite calls_bind, SDM_getDeviceState_calls.
    destruct sdm, (outcome (SDM.getDeviceState _ d)); cbn; lia.
Qed.

Lemma SDM_list_calls (sdm : option SdmClient) (args : JsVal) :
  (length (backend_calls (trace (SDM.list_smart_plugs sdm args))) <= 1)%nat.
Proof.
  unfold SDM.list_smart_plugs. rewrite calls_bind.
  destruct sdm as [c |].
  - rewrite SDM_listDevices_calls.
    destruct (outcome (SDM.listDevices (Some c))); cbn; lia.
  - cbn. lia.
Qed.

Lemma Legacy_case_control_calls (s : Legacy.Server) (args : JsVal) :
  backend_calls (trace (Legacy.case_control_smart_plug s args)) = []
  \/ exists d on, Legacy.sdm s <> None
       /\ backend_calls (trace (Legacy.case_control_smart_plug s args))
          = [SdmExecuteCommand d on].
Proof.
  destruct (lacks_required args ["deviceId"; "state"]) eqn:G.
  - unfold Legacy.case_control_smart_plug. rewrite G. now left.
  - destruct (guard_passed _ _ "deviceId" G (or_introl eq_refl) eq_refl)
      as [ps [vId [-> Hid]]].
    destruct (guard_passed _ _ "state" G (or_intror (or_introl eq_refl)) eq_refl)
      as [ps' [vState [[= <-] Hst]]].
    rewrite (Legacy_control_present _ _ _ _ Hid Hst).
    destruct (ToString vId) as [d |]; [| now left].
    destruct (Legacy.sdm s) as [c |]; [| now left].
    right. exists d, (ToBoolean vState). split; [discriminate |].
    rewrite calls_catch_wrap, calls_bind, trace_await, outcome_await.
    destruct (devices_executeCommand c d (ToBoolean vState)); reflexivity.
Qed.

Lemma Legacy_case_get_calls (s : Legacy.Server) (args : JsVal) :
  backend_calls (trace (Legacy.case_get_smart_plug_state s args)) = []
  \/ exists d, Legacy.sdm s <> None
       /\ backend_calls (trace (Legacy.case_get_smart_plug_state s args))
          = [SdmGet d].
Proof.
  unfold Legacy.case_get_smart_plug_state.
  destruct (lacks_required args ["deviceId"]) eqn:G; [now left |].
  destruct (guard_passed _ _ "deviceId" G (or_introl eq_refl) eq_refl)
    as [ps [vId [-> Hid]]].
  rewrite get_obj, bind_ret_l, (prop_present _ _ _ Hid).
  unfold String_. destruct (ToString vId) as [d |]; [| now left].
  rewrite bind_ret_l.
  destruct (Legacy.sdm s) as [c |]; [| now left].
  right. exists d. split; [discriminate |].
  rewrite calls_catch_wrap, calls_bind, trace_await, outcome_await.
  destruct (devices_get c d) as [device | e]; [| reflexivity].
  destruct (ToBoolean device) eqn:T; [| reflexivity].
  cbn [negb]. rewrite !(get_not_nullish device _ (truthy_not_nullish _ T)).
  reflexivity.
Qed.

Lemma Legacy_callTool_calls (s : Legacy.Server) (name : string) (args : JsVal) :
  backend_calls (trace (Legacy.callTool s name args)) = []
  \/ exists call, Legacy.sdm s <> None
       /\ backend_calls (trace (Legacy.callTool s name args)) = [call].
Proof.
  unfold Legacy.callTool. rewrite measureOperation_backend_calls, calls_bind.
  cbn [emit trace outcome fst snd backend_calls filter is_backend_call app].
  destruct (String.eqb name "list_smart_plugs").
  - rewrite calls_bind, Legacy_getSmartPlugs_calls.
    destruct (Legacy.sdm s) as [c |] eqn:E.
    + right. exists (SdmList "enterprises/me"). split; [discriminate |].
      now destruct (outcome (Legacy.getSmartPlugs s)).
    + left. now destruct (outcome (Legacy.getSmartPlugs s)).
  - destruct (String.eqb name "control_smart_plug").
    + destruct (Legacy_case_control_calls s args) as [H | [d [on [Hs H]]]];
        [now left | right; now exists (SdmExecuteCommand d on)].
    + destruct (String.eqb name "get_smart_plug_state").
      * destruct (Legacy_case_get_calls s args) as [H | [d [Hs H]]];
          [now left | right; now exists (SdmGet d)].
      * now left.
Qed.

(** X9 (vendor calls per tool call).  A call-tool request to the single-file
    server, and a call of any SDM-backed handler, makes at most one request
    to the vendor, whatever the tool name, the arguments and the vendor's
    answers: nothing is retried and nothing is fetched besides. *)
Theorem X9_at_most_one_vendor_call_per_tool_call
    (sdm : option SdmClient) (s : Legacy.Server) (name : string) (args : JsVal) :
  (length (backend_calls (trace (Legacy.callTool s name args))) <= 1)%nat
  /\ (length (backend_calls (trace (SDM.list_smart_plugs sdm args))) <= 1)%nat
  /\ (length (backend_calls (trace (SDM.control_smart_plug sdm args))) <= 1)%nat
  /\ (length (backend_calls (trace (SDM.get_smart_plug_state sdm args))) <= 1)%nat.
Proof.
  split; [| split; [apply SDM_list_calls | split;
                    [apply SDM_control_calls | apply SDM_get_calls]]].
  destruct (Legacy_callTool_calls s name args) as [-> | [call [_ ->]]];
    cbn; lia.
Qed.

(** X10 (after clean-up, single-file server).  Once [cleanup] has run, every
    call-tool request fails, whatever its name and arguments, and none
    reaches the vendor. *)
Theorem X10_Legacy_no_vendor_call_after_cleanup
    (s : Legacy.Server) (name : string) (args : JsVal) :
  backend_calls
    (trace (s' <- Legacy.cleanup s ;; Legacy.callTool s' name args)) = []
  /\ exists e,
       outcome (s' <- Legacy.cleanup s ;; Legacy.callTool s' name args)
       = Rejected e.
Proof.
  set (s0 := {| Legacy.sdm := None; Legacy.auth := None;
                Legacy.config := Legacy.config s |}).
  assert (Hc : Legacy.cleanup s
               = ([Duration "server_cleanup_duration_ms";
                   Increment "server_cleanup_total"], Resolved s0))
    by reflexivity.
  rewrite calls_bind, outcome_bind, Hc. cbn [trace outcome fst snd].
  split.
  - destruct (Legacy_callTool_calls s0 name args) as [-> | [call [Hs _]]];
      [reflexivity | now destruct Hs].
  - destruct (outcome (Legacy.callTool s0 name args)) as [r | e] eqn:E;
      [| now exists e].
    exfalso. revert E. unfold Legacy.callTool.
    rewrite measureOperation_outcome, outcome_bind. cbn [outcome emit snd].
    destruct (String.eqb name "list_smart_plugs"); [discriminate |].
    destruct (String.eqb name "control_smart_plug").
    + unfold Legacy.case_control_smart_plug.
      destruct (lacks_required args ["deviceId"; "state"]); [discriminate |].
      rewrite outcome_bind.
      destruct (outcome (get args "deviceId")); [| discriminate].
      rewrite outcome_bind.
      destruct (outcome (String_ a)); [| discriminate].
      rewrite outcome_bind.
      destruct (outcome (get args "state")); discriminate.
    + destruct (String.eqb name "get_smart_plug_state"); [| discriminate].
      unfold Legacy.case_get_smart_plug_state.
      destruct (lacks_required args ["deviceId"]); [discriminate |].
      rewrite outcome_bind.
      destruct (outcome (get args "deviceId")); [| discriminate].
      rewrite outcome_bind.
      destruct (outcome (String_ a)); discriminate.
Qed.

Lemma Legacy_get_found (s : Legacy.Server) (c : SdmClient)
    (ps : list (string * JsVal)) (deviceId : string) (d : DeviceState) :
  assoc "deviceId" ps = Some (VStr deviceId) ->
  Legacy.sdm s = Some c ->
  devices_get c deviceId = Resolved (encode d) ->
  exists w,
    outcome (Legacy.case_get_smart_plug_state s (VObj ps))
    = Resolved (VObj [ ("content", w) ])
    /\ read_snapshot w = Some (snapshot_of d)
    /\ field ["traits"] w = VUndefined.
Proof.
  intros Hid Hsdm Hget. unfold Legacy.case_get_smart_plug_state, lacks_required.
  cbn [ToBoolean typeof negb existsb orb].
  rewrite (js_in_present _ _ _ Hid).
  cbn [negb orb String.eqb Ascii.eqb Bool.eqb andb].
  rewrite get_obj, bind_ret_l, (prop_present _ _ _ Hid).
  cbn [String_ ToString]. rewrite bind_ret_l, Hsdm.
  unfold await. rewrite Hget.
  destruct d as [name type [[n |] |] [b |] [st |]];
    try (destruct (String.eqb n "") eqn:En);
    try (destruct b);
    eexists; (split; [reflexivity |]);
    unfold read_snapshot, snapshot_of, js_or; cbn; rewrite ?En;
    split; reflexivity.
Qed.

Lemma SDM_getDeviceState_found (c : SdmClient) (deviceId : string)
    (d : DeviceState) :
  devices_get c deviceId = Resolved (encode d) ->
  exists v,
    outcome (SDM.getDeviceState (Some c) deviceId) = Resolved v
    /\ read_snapshot v = Some (snapshot_of d)
    /\ field ["traits"] v = field ["traits"] (encode d).
Proof.
  intros Hget. unfold SDM.getDeviceState, await. rewrite Hget.
  destruct d as [name type [[n |] |] [b |] [st |]];
    try (destruct (String.eqb n "") eqn:En);
    eexists; (split; [reflexivity |]);
    unfold read_snapshot, snapshot_of, js_or; cbn; rewrite ?En;
    split; reflexivity.
Qed.

(** X11 ([get_smart_plug_state], record found, both variants).  When the
    vendor holds a record for the id asked for, the SDM-backed handler and
    the single-file server both resolve with the snapshot of that record
    (same id, name, [on] and [online]); the single-file server leaves the
    [traits] field out of its result. *)
Theorem X11_get_smart_plug_state_agrees_across_variants
    (c : SdmClient) (s : Legacy.Server) (ps : list (string * JsVal))
    (deviceId : string) (d : DeviceState) :
  assoc "deviceId" ps = Some (VStr deviceId) ->
  Legacy.sdm s = Some c ->
  devices_get c deviceId = Resolved (encode d) ->
  exists v w,
    outcome (SDM.get_smart_plug_state (Some c) (VObj ps))
    = Resolved (VObj [ ("content", v) ])
    /\ outcome (Legacy.callTool s "get_smart_plug_state" (VObj ps))
       = Resolved (VObj [ ("content", w) ])
    /\ read_snapshot v = Some (snapshot_of d)
    /\ read_snapshot w = Some (snapshot_of d)
    /\ field ["traits"] v = field ["traits"] (encode d)
    /\ field ["traits"] w = VUndefined.
Proof.
  intros Hid Hsdm Hget.
  destruct (Legacy_get_found s c ps deviceId d Hid Hsdm Hget) as [w [Hw [Hsw Htw]]].
  destruct (SDM_getDeviceState_found c deviceId d Hget) as [v [Hv [Hsv Htv]]].
  exists v, w. repeat split; try assumption.
  - rewrite (SDM_get_present _ _ _ Hid). cbn [ToString].
    now rewrite outcome_bind, Hv.
  - now rewrite Legacy_callTool_get, measureOperation_outcome, outcome_bind.
Qed.

Lemma X11_witness :
  exists v w,
    outcome (SDM.get_smart_plug_state
               (Some (Scenarios.accountHolding Fixtures.namedPlug))
               (VObj [("deviceId", VStr "enterprises/p/devices/d2")]))
    = Resolved (VObj [ ("content", v) ])
    /\ outcome (Legacy.callTool
                  (Fixtures.legacyServer
                     (Scenarios.accountHolding Fixtures.namedPlug))
                  "get_smart_plug_state"
                  (VObj [("deviceId", VStr "enterprises/p/devices/d2")]))
       = Resolved (VObj [ ("content", w) ])
    /\ read_snapshot v = Some (snapshot_of Fixtures.namedPlug)
    /\ read_snapshot w = Some (snapshot_of Fixtures.namedPlug)
    /\ field ["traits"] v = field ["traits"] (encode Fixtures.namedPlug)
    /\ field ["traits"] w = VUndefined.
Proof.
  apply (X11_get_smart_plug_state_agrees_across_variants
           (Scenarios.accountHolding Fixtures.namedPlug)
           (Fixtures.legacyServer (Scenarios.accountHolding Fixtures.namedPlug))
           [("deviceId", VStr "enterprises/p/devices/d2")]
           "enterprises/p/devices/d2" Fixtures.namedPlug); reflexivity.
Defined.

(* ------------------------------------------------------------------ *)
(** ** The HomeGraph service and its handlers                          *)
(* ------------------------------------------------------------------ *)

Lemma HG_queryDevices_outcome (svc : HomeGraph.HomeGraphService) (u : string) :
  outcome (HomeGraph.queryDevices svc u)
  = match HomeGraph.svc_homegraph svc with
    | Some c => devices_query c u
    | None => Resolved VUndefined
    end.
Proof.
  unfold HomeGraph.queryDevices.
  rewrite measureOperation_outcome, outcome_try_catch, outcome_bind.
  destruct (HomeGraph.svc_homegraph svc) as [c |]; [| reflexivity].
  unfold await, outcome. cbn [snd]. destruct (devices_query c u); reflexivity.
Qed.

Lemma HG_reportState_outcome (svc : HomeGraph.HomeGraphService) (u : string)
    (states : JsVal) :
  outcome (HomeGraph.reportState svc u states)
  = match HomeGraph.svc_homegraph svc with
    | Some c => devices_reportStateAndNotification c u states
    | None => Resolved VUndefined
    end.
Proof.
  unfold HomeGraph.reportState.
  rewrite measureOperation_outcome, outcome_try_catch, outcome_bind.
  destruct (HomeGraph.svc_homegraph svc) as [c |]; [| reflexivity].
  unfold await, outcome. cbn [snd].
  destruct (devices_reportStateAndNotification c u states); reflexivity.
Qed.

Lemma HG_queryDevices_calls (svc : HomeGraph.HomeGraphService) (u : string) :
  backend_calls (trace (HomeGraph.queryDevices svc u))
  = match HomeGraph.svc_homegraph svc with
    | Some _ => [HgQuery u]
    | None => []
    end.
Proof.
  unfold HomeGraph.queryDevices, await.
  destruct (HomeGraph.svc_homegraph svc) as [c |]; [| reflexivity].
  destruct (devices_query c u); reflexivity.
Qed.

Lemma HG_reportState_calls (svc : HomeGraph.HomeGraphService) (u : string)
    (states : JsVal) :
  backend_calls (trace (HomeGraph.reportState svc u states))
  = match HomeGraph.svc_homegraph svc with
    | Some _ => [HgReportState u states]
    | None => []
    end.
Proof.
  unfold HomeGraph.reportState, await.
  destruct (HomeGraph.svc_homegraph svc) as [c |]; [| reflexivity].
  destruct (devices_reportStateAndNotification c u states); reflexivity.
Qed.

(** X12 ([HomeGraphService]).  The service hands the vendor's answer on as it
    is: a query or a state report resolves with the vendor's data and rejects
    with the very error the vendor client rejected with (nothing is wrapped);
    it makes that one vendor call and no other; and a service whose client is
    missing resolves with [undefined] without calling anything. *)
Theorem X12_HomeGraphService_is_transparent
    (svc : HomeGraph.HomeGraphService) (agentUserId : string) (states : JsVal) :
  outcome (HomeGraph.queryDevices svc agentUserId)
  = match HomeGraph.svc_homegraph svc with
    | Some c => devices_query c agentUserId
    | None => Resolved VUndefined
    end
  /\ outcome (HomeGraph.reportState svc agentUserId states)
     = match HomeGraph.svc_homegraph svc with
       | Some c => devices_reportStateAndNotification c agentUserId states
       | None => Resolved VUndefined
       end
  /\ backend_calls (trace (HomeGraph.queryDevices svc agentUserId))
     = match HomeGraph.svc_homegraph svc with
       | Some _ => [HgQuery agentUserId]
       | None => []
       end
  /\ backend_calls (trace (HomeGraph.reportState svc agentUserId states))
     = match HomeGraph.svc_homegraph svc with
       | Some _ => [HgReportState agentUserId states]
       | None => []
       end.
Proof.
  split; [apply HG_queryDevices_outcome |].
  split; [apply HG_reportState_outcome |].
  split; [apply HG_queryDevices_calls | apply HG_reportState_calls].
Qed.

Lemma bind_ext {A B} (m : Eff A) (k k' : A -> Eff B) :
  (forall a, k a = k' a) -> bind m k = bind m k'.
Proof.
  intros H. destruct m as [t [a | e]]; [| reflexivity].
  unfold bind. now rewrite H.
Qed.

Section HomeGraphHandlers.

Variable JSON_stringify : JsVal -> nat -> JsVal.

Lemma HG_lacks_required (ps : list (string * JsVal)) (required : list string)
    (k : string) :
  In k required ->
  assoc k ps = None ->
  mem_string k Object_prototype_names = false ->
  lacks_required (VObj ps) required = true.
Proof.
  intros Hin Hk Hp. unfold lacks_required.
  cbn [ToBoolean typeof negb orb].
  apply orb_true_iff. right. apply existsb_exists. exists k.
  split; [exact Hin |]. now rewrite (js_in_absent k ps Hk Hp).
Qed.

(** X13 (HomeGraph-backed handlers, missing required field).  A
    [control_smart_plug] bag lacking [agentUserId], [deviceId] or [state],
    and a [get_smart_plug_state] bag lacking [agentUserId] or [deviceId],
    is rejected with [InvalidParams] before any vendor call. *)
Theorem X13_HomeGraph_handlers_reject_missing_fields
    (hg : option HomeGraph.HomeGraphService) (ps qs : list (string * JsVal)) :
  assoc "agentUserId" ps = None \/ assoc "deviceId" ps = None
  \/ assoc "state" ps = None ->
  assoc "agentUserId" qs = None \/ assoc "deviceId" qs = None ->
  HomeGraph.control_smart_plug JSON_stringify hg (VObj ps)
  = ([Increment "invalid_control_params_errors"],
     Rejected (mkError InvalidParams
                 "Missing required parameters: agentUserId, deviceId and state"))
  /\ HomeGraph.get_smart_plug_state JSON_stringify hg (VObj qs)
     = ([Increment "invalid_get_state_params_errors"],
        Rejected (mkError InvalidParams
                    "Missing required parameters: agentUserId and deviceId")).
Proof.
  intros Hp Hq.
  unfold HomeGraph.control_smart_plug, HomeGraph.get_smart_plug_state.
  assert (Gp : lacks_required (VObj ps) ["deviceId"; "state"; "agentUserId"]
               = true).
  { destruct Hp as [H | [H | H]].
    - apply (HG_lacks_required ps _ "agentUserId"); cbn; auto.
    - apply (HG_lacks_required ps _ "deviceId"); cbn; auto.
    - apply (HG_lacks_required ps _ "state"); cbn; auto. }
  assert (Gq : lacks_required (VObj qs) ["deviceId"; "agentUserId"] = true).
  { destruct Hq as [H | H].
    - apply (HG_lacks_required qs _ "agentUserId"); cbn; auto.
    - apply (HG_lacks_required qs _ "deviceId"); cbn; auto. }
  rewrite Gp, Gq. split; reflexivity.
Qed.

Lemma HG_control_present (hg : option HomeGraph.HomeGraphService)
    (ps : list (string * JsVal)) (vUser vId vState : JsVal) :
  assoc "agentUserId" ps = Some vUser ->
  assoc "deviceId" ps = Some vId ->
  assoc "state" ps = Some vState ->
  HomeGraph.control_smart_plug JSON_stringify hg (VObj ps) =
    (agentUserId <- String_ vUser ;;
     deviceId <- String_ vId ;;
     HomeGraph.on_service hg "reportState" (fun svc =>
       HomeGraph.reportState svc agentUserId
         (VObj [ (deviceId, VObj [ ("online", VBool true);
                                   ("status", VStr "SUCCESS");
                                   ("on", VBool (ToBoolean vState)) ]) ])) ;;
     ret (HomeGraph.text_content
            (JSON_stringify
               (VObj [ ("success", VBool true); ("deviceId", VStr deviceId);
                       ("state", VBool (ToBoolean vState)) ]) 0))).
Proof.
  intros Hu Hid Hst. unfold HomeGraph.control_smart_plug, lacks_required.
  cbn [ToBoolean typeof negb existsb orb].
  rewrite (js_in_present _ _ _ Hu), (js_in_present _ _ _ Hid),
    (js_in_present _ _ _ Hst).
  cbn [negb orb String.eqb Ascii.eqb Bool.eqb andb].
  rewrite get_obj, bind_ret_l, (prop_present _ _ _ Hu).
  apply bind_ext. intros u.
  rewrite get_obj, bind_ret_l, (prop_present _ _ _ Hid).
  apply bind_ext. intros d.
  now rewrite get_obj, bind_ret_l, (prop_present _ _ _ Hst).
Qed.

(** X14 (HomeGraph-backed [control_smart_plug]).  With all three fields
    present, the handler's one vendor call is a state report for the given
    agent user saying that the device is online, with status ["SUCCESS"] and
    [on] equal to [Boolean(state)]: it reports a state, it does not send a
    command.  When the report is accepted, the result is one text item, the
    JSON text of [{success: true, deviceId, state}]; when it is refused, the
    handler rejects with the vendor's own error. *)
Theorem X14_HomeGraph_control_reports_state
    (svc : HomeGraph.HomeGraphService) (c : HgClient)
    (ps : list (string * JsVal)) (agentUserId deviceId : string)
    (vState : JsVal) :
  assoc "agentUserId" ps = Some (VStr agentUserId) ->
  assoc "deviceId" ps = Some (VStr deviceId) ->
  assoc "state" ps = Some vState ->
  HomeGraph.svc_homegraph svc = Some c ->
  let states :=
    VObj [ (deviceId, VObj [ ("online", VBool true); ("status", VStr "SUCCESS");
                             ("on", VBool (ToBoolean vState)) ]) ] in
  backend_calls
    (trace (HomeGraph.control_smart_plug JSON_stringify (Some svc) (VObj ps)))
  = [HgReportState agentUserId states]
  /\ outcome (HomeGraph.control_smart_plug JSON_stringify (Some svc) (VObj ps))
     = match devices_reportStateAndNotification c agentUserId states with
       | Resolved _ =>
           Resolved (HomeGraph.text_content
                       (JSON_stringify
                          (VObj [ ("success", VBool true);
                                  ("deviceId", VStr deviceId);
                                  ("state", VBool (ToBoolean vState)) ]) 0))
       | Rejected e => Rejected e
       end.
Proof.
  intros Hu Hid Hst Hc states.
  rewrite (HG_control_present _ _ _ _ _ Hu Hid Hst).
  change (String_ (VStr agentUserId)) with (ret agentUserId).
  rewrite bind_ret_l.
  change (String_ (VStr deviceId)) with (ret deviceId).
  rewrite bind_ret_l.
  unfold HomeGraph.on_service. fold states. split.
  - rewrite calls_bind, HG_reportState_calls, Hc.
    now destruct (outcome (HomeGraph.reportState svc agentUserId states)).
  - rewrite outcome_bind, HG_reportState_outcome, Hc.
    now destruct (devices_reportStateAndNotification c agentUserId states).
Qed.

Lemma findM_by_id (deviceId : string) (l : list JsVal) :
  Forall (fun x => is_nullish x = false) l ->
  findM (fun d => id <- get d "id" ;; ret (strict_eq_str id deviceId)) l
  = ret match find (fun x => strict_eq_str (prop x "id") deviceId) l with
        | Some x => x
        | None => VUndefined
        end.
Proof.
  induction 1 as [| x rest Hx _ IH]; [reflexivity |].
  cbn [findM find]. rewrite (get_not_nullish x "id" Hx), !bind_ret_l.
  destruct (strict_eq_str (prop x "id") deviceId); [reflexivity | exact IH].
Qed.

(** The search stops with a [TypeError] at a [null] or [undefined] entry
    that no match precedes. *)
Lemma findM_by_id_throws (deviceId : string) (before after : list JsVal)
    (x : JsVal) :
  Forall (fun y => is_nullish y = false
                   /\ strict_eq_str (prop y "id") deviceId = false) before ->
  is_nullish x = true ->
  findM (fun d => id <- get d "id" ;; ret (strict_eq_str id deviceId))
        (before ++ x :: after)
  = throw (TypeError_read x "id").
Proof.
  intros Hb Hx. induction Hb as [| y rest [Hy Hm] _ IH].
  - cbn [app findM]. unfold get. now rewrite Hx.
  - cbn [app findM]. rewrite (get_not_nullish y "id" Hy), !bind_ret_l, Hm.
    exact IH.
Qed.

(** X15 (HomeGraph-backed [get_smart_plug_state]).  When the service's query
    resolves with an object whose listed devices are all objects, the handler
    resolves too, with one text item: the JSON text of the first listed
    device whose [id] is the string asked for, or of [undefined] when no
    listed device has that id or the reply lists no devices.  An unknown
    device is thus not an error here.  When the query resolves with [null]
    or [undefined] (which is what a service without a client answers), the
    handler rejects with the [TypeError] of reading [payload] off it; and
    when a [null] or [undefined] entry of the list is reached before any
    match, it rejects with the [TypeError] of reading [id] off that entry. *)
Theorem X15_HomeGraph_get_finds_first_match_or_undefined
    (svc : HomeGraph.HomeGraphService)
    (ps : list (string * JsVal)) (agentUserId deviceId : string)
    (reply : JsVal) :
  assoc "agentUserId" ps = Some (VStr agentUserId) ->
  assoc "deviceId" ps = Some (VStr deviceId) ->
  outcome (HomeGraph.queryDevices svc agentUserId) = Resolved reply ->
  let devices :=
    match opt_prop (prop reply "payload") "devices" with
    | VArr l => l
    | _ => []
    end in
  let run :=
    HomeGraph.get_smart_plug_state JSON_stringify (Some svc) (VObj ps) in
  (is_nullish reply = true ->
   outcome run = Rejected (TypeError_read reply "payload"))
  /\ (is_nullish reply = false ->
      Forall (fun x => is_nullish x = false) devices ->
      outcome run
      = Resolved
          (HomeGraph.text_content
             (JSON_stringify
                match find (fun x => strict_eq_str (prop x "id") deviceId)
                           devices with
                | Some x => x
                | None => VUndefined
                end 2)))
  /\ (is_nullish reply = false ->
      forall before x after,
        devices = (before ++ x :: after)%list ->
        Forall (fun y => is_nullish y = false
                         /\ strict_eq_str (prop y "id") deviceId = false)
               before ->
        is_nullish x = true ->
        outcome run = Rejected (TypeError_read x "id")).
Proof.
  intros Hu Hid Hq devices run.
  assert (Hrun : outcome run
                 = outcome (payload <- get reply "payload" ;;
                            device <- findM (fun d => id <- get d "id" ;;
                                               ret (strict_eq_str id deviceId))
                                        match opt_prop payload "devices" with
                                        | VArr l => l
                                        | _ => []
                                        end ;;
                            ret (HomeGraph.text_content
                                   (JSON_stringify device 2)))).
  { unfold run, HomeGraph.get_smart_plug_state, lacks_required.
    cbn [ToBoolean typeof negb existsb orb].
    rewrite (js_in_present _ _ _ Hu), (js_in_present _ _ _ Hid).
    cbn [negb orb String.eqb Ascii.eqb Bool.eqb andb].
    rewrite get_obj, bind_ret_l, (prop_present _ _ _ Hu).
    change (String_ (VStr agentUserId)) with (ret agentUserId).
    rewrite bind_ret_l, get_obj, bind_ret_l, (prop_present _ _ _ Hid).
    change (String_ (VStr deviceId)) with (ret deviceId).
    rewrite bind_ret_l. unfold HomeGraph.on_service.
    rewrite outcome_bind, Hq. reflexivity. }
  rewrite Hrun. split; [| split].
  - intros Hn. unfold get. now rewrite Hn.
  - intros Hn Hall. rewrite (get_not_nullish reply "payload" Hn), bind_ret_l.
    fold devices. now rewrite (findM_by_id deviceId devices Hall), bind_ret_l.
  - intros Hn before x after Hd Hb Hx.
    rewrite (get_not_nullish reply "payload" Hn), bind_ret_l.
    fold devices. rewrite Hd.
    now rewrite (findM_by_id_throws deviceId before after x Hb Hx).
Qed.

End HomeGraphHandlers.

Lemma X13_witness :
  HomeGraph.control_smart_plug Fixtures.stringify_empty
    (Some (Fixtures.hgService Fixtures.hgAccount))
    (VObj [("deviceId", VStr "lamp"); ("state", VBool true)])
  = ([Increment "invalid_control_params_errors"],
     Rejected (mkError InvalidParams
                 "Missing required parameters: agentUserId, deviceId and state"))
  /\ HomeGraph.get_smart_plug_state Fixtures.stringify_empty
       (Some (Fixtures.hgService Fixtures.hgAccount))
       (VObj [("agentUserId", VStr "user-1")])
     = ([Increment "invalid_get_state_params_errors"],
        Rejected (mkError InvalidParams
                    "Missing required parameters: agentUserId and deviceId")).
Proof.
  apply (X13_HomeGraph_handlers_reject_missing_fields Fixtures.stringify_empty
           (Some (Fixtures.hgService Fixtures.hgAccount))
           [("deviceId", VStr "lamp"); ("state", VBool true)]
           [("agentUserId", VStr "user-1")]).
  - left. reflexivity.
  - right. reflexivity.
Defined.

Lemma X14_witness :
  backend_calls
    (trace (HomeGraph.control_smart_plug Scenarios.stringify_id
              (Some (Fixtures.hgService Fixtures.hgUnreachable))
              (VObj [("agentUserId", VStr "user-1"); ("deviceId", VStr "lamp");
                     ("state", VStr "off")])))
  = [HgReportState "user-1"
       (VObj [ ("lamp", VObj [ ("online", VBool true); ("status", VStr "SUCCESS");
                               ("on", VBool (ToBoolean (VStr "off"))) ]) ])]
  /\ outcome (HomeGraph.control_smart_plug Scenarios.stringify_id
                (Some (Fixtures.hgService Fixtures.hgUnreachable))
                (VObj [("agentUserId", VStr "user-1"); ("deviceId", VStr "lamp");
                       ("state", VStr "off")]))
     = match devices_reportStateAndNotification Fixtures.hgUnreachable "user-1"
               (VObj [ ("lamp", VObj [ ("online", VBool true);
                                       ("status", VStr "SUCCESS");
                                       ("on", VBool (ToBoolean (VStr "off"))) ]) ])
       with
       | Resolved _ =>
           Resolved (HomeGraph.text_content
                       (Scenarios.stringify_id
                          (VObj [ ("success", VBool true);
                                  ("deviceId", VStr "lamp");
                                  ("state", VBool (ToBoolean (VStr "off"))) ]) 0))
       | Rejected e => Rejected e
       end.
Proof.
  apply (X14_HomeGraph_control_reports_state Scenarios.stringify_id
           (Fixtures.hgService Fixtures.hgUnreachable) Fixtures.hgUnreachable
           [("agentUserId", VStr "user-1"); ("deviceId", VStr "lamp");
            ("state", VStr "off")] "user-1" "lamp" (VStr "off"));
    reflexivity.
Defined.

Lemma X15_witness :
  let devices :=
    match opt_prop (prop Scenarios.twoDevices "payload") "devices" with
    | VArr l => l
    | _ => []
    end in
  let run :=
    HomeGraph.get_smart_plug_state Scenarios.stringify_id
      (Some (Fixtures.hgService (Scenarios.hgReplying Scenarios.twoDevices)))
      (VObj [("agentUserId", VStr "user-1"); ("deviceId", VStr "fan")]) in
  (is_nullish Scenarios.twoDevices = true ->
   outcome run = Rejected (TypeError_read Scenarios.twoDevices "payload"))
  /\ (is_nullish Scenarios.twoDevices = false ->
      Forall (fun x => is_nullish x = false) devices ->
      outcome run
      = Resolved
          (HomeGraph.text_content
             (Scenarios.stringify_id
                match find (fun x => strict_eq_str (prop x "id") "fan")
                           devices with
                | Some x => x
                | None => VUndefined
                end 2)))
  /\ (is_nullish Scenarios.twoDevices = false ->
      forall before x after,
        devices = (before ++ x :: after)%list ->
        Forall (fun y => is_nullish y = false
                         /\ strict_eq_str (prop y "id") "fan" = false)
               before ->
        is_nullish x = true ->
        outcome run = Rejected (TypeError_read x "id")).
Proof.
  apply (X15_HomeGraph_get_finds_first_match_or_undefined Scenarios.stringify_id
           (Fixtures.hgService (Scenarios.hgReplying Scenarios.twoDevices))
           [("agentUserId", VStr "user-1"); ("deviceId", VStr "fan")]
           "user-1" "fan" Scenarios.twoDevices);
    reflexivity.
Defined.

(** A service without a client answers the query with [undefined], and the
    handler fails on it. *)
Example get_state_without_client_rejects :
  outcome (HomeGraph.get_smart_plug_state Scenarios.stringify_id
             (Some {| HomeGraph.svc_auth := Fixtures.someAuth;
                      HomeGraph.svc_homegraph := None |})
             (VObj [("agentUserId", VStr "user-1"); ("deviceId", VStr "fan")]))
  = Rejected (TypeError_read VUndefined "payload").
Proof. reflexivity. Qed.

Example get_state_of_unknown_device_resolves :
  outcome (HomeGraph.get_smart_plug_state Scenarios.stringify_id
             (Some (Fixtures.hgService (Scenarios.hgReplying Scenarios.twoDevices)))
             (VObj [("agentUserId", VStr "user-1"); ("deviceId", VStr "heater")]))
  = Resolved (HomeGraph.text_content VUndefined).
Proof. reflexivity. Qed.

(* ------------------------------------------------------------------ *)
(** ** Dispatch of the current server                                  *)
(* ------------------------------------------------------------------ *)

Section HomeGraphDispatch.

Variable JSON_stringify : JsVal -> nat -> JsVal.

Lemma HG_on_service_query_calls (hg : option HomeGraph.HomeGraphService)
    (u : string) :
  backend_calls
    (trace (HomeGraph.on_service hg "queryDevices"
              (fun svc => HomeGraph.queryDevices svc u))) = []
  \/ hg <> None
     /\ backend_calls
          (trace (HomeGraph.on_service hg "queryDevices"
                    (fun svc => HomeGraph.queryDevices svc u)))
        = [HgQuery u].
Proof.
  destruct hg as [svc |]; [| now left]. cbn [HomeGraph.on_service].
  rewrite HG_queryDevices_calls.
  destruct (HomeGraph.svc_homegraph svc); [right | left]; easy.
Qed.

(** Each handler makes no vendor call or exactly one, and none without a
    service. *)
Lemma HG_list_calls (hg : option HomeGraph.HomeGraphService) (args : JsVal) :
  backend_calls (trace (HomeGraph.list_smart_plugs JSON_stringify hg args)) = []
  \/ hg <> None
     /\ exists call,
          backend_calls (trace (HomeGraph.list_smart_plugs JSON_stringify hg args))
          = [call].
Proof.
  unfold HomeGraph.list_smart_plugs.
  rewrite (calls_bind_quiet _ _ (trace_get _ _)).
  destruct (outcome (get args "agentUserId")) as [rawUser |]; [| now left].
  rewrite (calls_bind_quiet _ _ (trace_String_ _)).
  destruct (outcome (String_ rawUser)) as [u |]; [| now left].
  rewrite calls_bind.
  destruct (HG_on_service_query_calls hg u) as [-> | [Hhg ->]].
  - left. now destruct (outcome _).
  - right. split; [exact Hhg |]. exists (HgQuery u). now destruct (outcome _).
Qed.

Lemma HG_control_calls (hg : option HomeGraph.HomeGraphService) (args : JsVal) :
  backend_calls (trace (HomeGraph.control_smart_plug JSON_stringify hg args)) = []
  \/ hg <> None
     /\ exists call,
          backend_calls
            (trace (HomeGraph.control_smart_plug JSON_stringify hg args))
          = [call].
Proof.
  unfold HomeGraph.control_smart_plug.
  destruct (lacks_required args ["deviceId"; "state"; "agentUserId"]);
    [now left |].
  rewrite (calls_bind_quiet _ _ (trace_get _ _)).
  destruct (outcome (get args "agentUserId")) as [rawUser |]; [| now left].
  rewrite (calls_bind_quiet _ _ (trace_String_ _)).
  destruct (outcome (String_ rawUser)) as [u |]; [| now left].
  rewrite (calls_bind_quiet _ _ (trace_get _ _)).
  destruct (outcome (get args "deviceId")) as [rawId |]; [| now left].
  rewrite (calls_bind_quiet _ _ (trace_String_ _)).
  destruct (outcome (String_ rawId)) as [d |]; [| now left].
  rewrite (calls_bind_quiet _ _ (trace_get _ _)).
  destruct (outcome (get args "state")) as [rawState |]; [| now left].
  rewrite calls_bind.
  destruct hg as [svc |]; cbn [HomeGraph.on_service].
  - rewrite HG_reportState_calls.
    destruct (HomeGraph.svc_homegraph svc).
    + right. split; [discriminate |]. eexists. now destruct (outcome _).
    + left. now destruct (outcome _).
  - now left.
Qed.

Lemma HG_get_calls (hg : option HomeGraph.HomeGraphService) (args : JsVal) :
  backend_calls (trace (HomeGraph.get_smart_plug_state JSON_stringify hg args)) = []
  \/ hg <> None
     /\ exists call,
          backend_calls
            (trace (HomeGraph.get_smart_plug_state JSON_stringify hg args))
          = [call].
Proof.
  unfold HomeGraph.get_smart_plug_state.
  destruct (lacks_required args ["deviceId"; "agentUserId"]); [now left |].
  rewrite (calls_bind_quiet _ _ (trace_get _ _)).
  destruct (outcome (get args "agentUserId")) as [rawUser |]; [| now left].
  rewrite (calls_bind_quiet _ _ (trace_String_ _)).
  destruct (outcome (String_ rawUser)) as [u |]; [| now left].
  rewrite (calls_bind_quiet _ _ (trace_get _ _)).
  destruct (outcome (get args "deviceId")) as [rawId |]; [| now left].
  rewrite (calls_bind_quiet _ _ (trace_String_ _)).
  destruct (outcome (String_ rawId)) as [d |]; [| now left].
  rewrite calls_bind.
  assert (Hrest : forall response,
    backend_calls
      (trace (payload <- get response "payload" ;;
              device <- findM (fun d0 => id <- get d0 "id" ;;
                                         ret (strict_eq_str id d))
                          match opt_prop payload "devices" with
                          | VArr l => l
                          | _ => []
                          end ;;
              ret (HomeGraph.text_content (JSON_stringify device 2)))) = []).
  { intros response. rewrite (calls_bind_quiet _ _ (trace_get _ _)).
    destruct (outcome (get response "payload")) as [payload |]; [| reflexivity].
    rewrite calls_bind_quiet.
    - now destruct (outcome _).
    - apply trace_findM_nil. intros x. unfold get.
      destruct (is_nullish x); reflexivity. }
  destruct (HG_on_service_query_calls hg u) as [-> | [Hhg ->]].
  - left. destruct (outcome _); [apply Hrest | reflexivity].
  - right. split; [exact Hhg |]. exists (HgQuery u).
    destruct (outcome _); [now rewrite Hrest | reflexivity].
Qed.

Lemma trace_call_inherited (name : string)
    (hg : option HomeGraph.HomeGraphService) :
  trace (HomeGraph.call_inherited name hg) = [].
Proof.
  unfold HomeGraph.call_inherited.
  destruct (String.eqb name "constructor"); [reflexivity |].
  destruct (String.eqb name "toString"); [reflexivity |].
  destruct (String.eqb name "__proto__"); [reflexivity |].
  destruct (String.eqb name "isPrototypeOf"); [| reflexivity].
  destruct hg; reflexivity.
Qed.

Lemma HG_after_handler_quiet (response : JsVal) :
  backend_calls
    (trace (content <- get response "content" ;;
            get content "length" ;;
            ret (VObj [ ("content", content) ]))) = [].
Proof.
  rewrite (calls_bind_quiet _ _ (trace_get _ _)).
  destruct (outcome (get response "content")) as [content |]; [| reflexivity].
  rewrite (calls_bind_quiet _ _ (trace_get _ _)).
  now destruct (outcome (get content "length")).
Qed.

Lemma HG_own_handler (name : string)
    (handler : option HomeGraph.HomeGraphService -> JsVal -> Eff JsVal) :
  HomeGraph.handlers JSON_stringify name = HomeGraph.Own handler ->
  handler = HomeGraph.list_smart_plugs JSON_stringify
  \/ handler = HomeGraph.control_smart_plug JSON_stringify
  \/ handler = HomeGraph.get_smart_plug_state JSON_stringify.
Proof.
  unfold HomeGraph.handlers.
  destruct (String.eqb name "list_smart_plugs"); [intros [= <-]; auto |].
  destruct (String.eqb name "control_smart_plug"); [intros [= <-]; auto |].
  destruct (String.eqb name "get_smart_plug_state"); [intros [= <-]; auto |].
  destruct (mem_string name Object_prototype_names); discriminate.
Qed.

Lemma HG_callTool_calls (s : HomeGraph.Server) (name : string) (toolArgs : JsVal) :
  backend_calls (trace (HomeGraph.callTool JSON_stringify s name toolArgs)) = []
  \/ HomeGraph.homegraph s <> None
     /\ exists call,
          backend_calls (trace (HomeGraph.callTool JSON_stringify s name toolArgs))
          = [call].
Proof.
  unfold HomeGraph.callTool. rewrite measureOperation_backend_calls, calls_bind.
  cbn [emit trace outcome fst snd backend_calls filter is_backend_call app].
  destruct (HomeGraph.handlers JSON_stringify name) as [handler | |] eqn:E.
  - rewrite calls_bind.
    assert (Hh : backend_calls
                   (trace (handler (HomeGraph.homegraph s)
                             (js_or toolArgs (VObj [])))) = []
                 \/ HomeGraph.homegraph s <> None
                    /\ exists call,
                         backend_calls
                           (trace (handler (HomeGraph.homegraph s)
                                     (js_or toolArgs (VObj [])))) = [call]).
    { destruct (HG_own_handler name handler E) as [-> | [-> | ->]];
        [apply HG_list_calls | apply HG_control_calls | apply HG_get_calls]. }
    destruct Hh as [-> | [Hhg [call ->]]].
    + left. destruct (outcome _); [apply HG_after_handler_quiet | reflexivity].
    + right. split; [exact Hhg |]. exists call.
      destruct (outcome _); [now rewrite HG_after_handler_quiet | reflexivity].
  - left. rewrite calls_bind, trace_call_inherited.
    destruct (outcome _); [apply HG_after_handler_quiet | reflexivity].
  - now left.
Qed.

(** X16 (current server, vendor calls per tool call).  A call-tool request
    makes at most one request to the vendor, whatever the tool name, the
    arguments and the vendor's answers, and none at all while the server
    holds no service. *)
Theorem X16_HomeGraph_callTool_makes_at_most_one_vendor_call
    (s : HomeGraph.Server) (name : string) (toolArgs : JsVal) :
  (length (backend_calls
             (trace (HomeGraph.callTool JSON_stringify s name toolArgs))) <= 1)%nat
  /\ (HomeGraph.homegraph s = None ->
      backend_calls (trace (HomeGraph.callTool JSON_stringify s name toolArgs))
      = []).
Proof.
  destruct (HG_callTool_calls s name toolArgs) as [H | [Hhg [call H]]];
    rewrite H; split; cbn; try lia; try reflexivity.
  intros Hn. now destruct Hhg.
Qed.

(** Without a service every handler fails. *)
Lemma HG_handler_without_service
    (handler : option HomeGraph.HomeGraphService -> JsVal -> Eff JsVal)
    (args r : JsVal) :
  handler = HomeGraph.list_smart_plugs JSON_stringify
  \/ handler = HomeGraph.control_smart_plug JSON_stringify
  \/ handler = HomeGraph.get_smart_plug_state JSON_stringify ->
  outcome (handler None args) <> Resolved r.
Proof.
  intros [-> | [-> | ->]].
  - unfold HomeGraph.list_smart_plugs. rewrite outcome_bind.
    destruct (outcome (get args "agentUserId")); [| discriminate].
    rewrite outcome_bind. destruct (outcome (String_ a)); discriminate.
  - unfold HomeGraph.control_smart_plug.
    destruct (lacks_required args _); [discriminate |].
    rewrite outcome_bind.
    destruct (outcome (get args "agentUserId")); [| discriminate].
    rewrite outcome_bind. destruct (outcome (String_ a)); [| discriminate].
    rewrite outcome_bind.
    destruct (outcome (get args "deviceId")); [| discriminate].
    rewrite outcome_bind. destruct (outcome (String_ a1)); [| discriminate].
    rewrite outcome_bind.
    destruct (outcome (get args "state")); discriminate.
  - unfold HomeGraph.get_smart_plug_state.
    destruct (lacks_required args _); [discriminate |].
    rewrite outcome_bind.
    destruct (outcome (get args "agentUserId")); [| discriminate].
    rewrite outcome_bind. destruct (outcome (String_ a)); [| discriminate].
    rewrite outcome_bind.
    destruct (outcome (get args "deviceId")); [| discriminate].
    rewrite outcome_bind. destruct (outcome (String_ a1)); discriminate.
Qed.

Lemma HG_inherited_fails (name : string) (r : JsVal) :
  outcome (response <- HomeGraph.call_inherited name None ;;
           content <- get response "content" ;;
           get content "length" ;;
           ret (VObj [ ("content", content) ]))
  <> Resolved r.
Proof.
  unfold HomeGraph.call_inherited.
  destruct (String.eqb name "constructor"); [discriminate |].
  destruct (String.eqb name "toString"); [discriminate |].
  destruct (String.eqb name "__proto__"); [discriminate |].
  destruct (String.eqb name "isPrototypeOf"); discriminate.
Qed.

(** X17 (after clean-up, current server).  Once [cleanup] has run, every
    call-tool request fails, whatever its name and arguments, and none
    reaches the vendor. *)
Theorem X17_HomeGraph_no_vendor_call_after_cleanup
    (s : HomeGraph.Server) (name : string) (toolArgs : JsVal) :
  backend_calls
    (trace (s' <- HomeGraph.cleanup s ;;
            HomeGraph.callTool JSON_stringify s' name toolArgs)) = []
  /\ exists e,
       outcome (s' <- HomeGraph.cleanup s ;;
                HomeGraph.callTool JSON_stringify s' name toolArgs)
       = Rejected e.
Proof.
  set (s0 := {| HomeGraph.auth := None; HomeGraph.homegraph := None;
                HomeGraph.config := HomeGraph.config s |}).
  assert (Hc : HomeGraph.cleanup s
               = ([Duration "server_cleanup_duration_ms";
                   Increment "server_cleanup_total"], Resolved s0))
    by reflexivity.
  rewrite calls_bind, outcome_bind, Hc. cbn [trace outcome fst snd].
  split.
  - destruct (HG_callTool_calls s0 name toolArgs) as [-> | [Hhg _]];
      [reflexivity | now destruct Hhg].
  - destruct (outcome (HomeGraph.callTool JSON_stringify s0 name toolArgs))
      as [r | e] eqn:E; [| now exists e].
    exfalso. revert E. unfold HomeGraph.callTool.
    rewrite measureOperation_outcome, outcome_bind. cbn [outcome emit snd].
    destruct (HomeGraph.handlers JSON_stringify name) as [handler | |] eqn:Eh.
    + rewrite outcome_bind. cbn [HomeGraph.homegraph s0].
      destruct (outcome (handler None (js_or toolArgs (VObj [])))) as [a |] eqn:Ea;
        [| discriminate].
      now destruct (HG_handler_without_service handler
                      (js_or toolArgs (VObj [])) a
                      (HG_own_handler name handler Eh) Ea).
    + apply HG_inherited_fails.
    + discriminate.
Qed.

(** What a handler resolves with is always one text item. *)
Lemma HG_handler_resolves_with_text
    (handler : option HomeGraph.HomeGraphService -> JsVal -> Eff JsVal)
    (hg : option HomeGraph.HomeGraphService) (args r : JsVal) :
  handler = HomeGraph.list_smart_plugs JSON_stringify
  \/ handler = HomeGraph.control_smart_plug JSON_stringify
  \/ handler = HomeGraph.get_smart_plug_state JSON_stringify ->
  outcome (handler hg args) = Resolved r ->
  exists text, r = HomeGraph.text_content text.
Proof.
  intros [-> | [-> | ->]].
  - unfold HomeGraph.list_smart_plugs. rewrite outcome_bind.
    destruct (outcome (get args "agentUserId")); [| discriminate].
    rewrite outcome_bind. destruct (outcome (String_ a)); [| discriminate].
    rewrite outcome_bind. destruct (outcome _); [| discriminate].
    intros [= <-]. eexists. reflexivity.
  - unfold HomeGraph.control_smart_plug.
    destruct (lacks_required args _); [discriminate |].
    rewrite outcome_bind.
    destruct (outcome (get args "agentUserId")); [| discriminate].
    rewrite outcome_bind. destruct (outcome (String_ a)); [| discriminate].
    rewrite outcome_bind.
    destruct (outcome (get args "deviceId")); [| discriminate].
    rewrite outcome_bind. destruct (outcome (String_ a1)); [| discriminate].
    rewrite outcome_bind.
    destruct (outcome (get args "state")); [| discriminate].
    rewrite outcome_bind. destruct (outcome _); [| discriminate].
    intros [= <-]. eexists. reflexivity.
  - unfold HomeGraph.get_smart_plug_state.
    destruct (lacks_required args _); [discriminate |].
    rewrite outcome_bind.
    destruct (outcome (get args "agentUserId")); [| discriminate].
    rewrite outcome_bind. destruct (outcome (String_ a)); [| discriminate].
    rewrite outcome_bind.
    destruct (outcome (get args "deviceId")); [| discriminate].
    rewrite outcome_bind. destruct (outcome (String_ a1)); [| discriminate].
    rewrite outcome_bind. destruct (outcome _); [| discriminate].
    rewrite outcome_bind. destruct (outcome (get a3 "payload")); [| discriminate].
    rewrite outcome_bind. destruct (outcome _); [| discriminate].
    intros [= <-]. eexists. reflexivity.
Qed.

(** X18 (current server, results).  What a registered handler resolves with
    is surfaced by the call-tool handler as it is: the same one-item
    [content] array. *)
Theorem X18_HomeGraph_callTool_passes_results_unchanged
    (s : HomeGraph.Server) (name : string) (toolArgs : JsVal)
    (handler : option HomeGraph.HomeGraphService -> JsVal -> Eff JsVal)
    (r : JsVal) :
  HomeGraph.handlers JSON_stringify name = HomeGraph.Own handler ->
  outcome (handler (HomeGraph.homegraph s) (js_or toolArgs (VObj [])))
  = Resolved r ->
  outcome (HomeGraph.callTool JSON_stringify s name toolArgs) = Resolved r
  /\ exists text, r = HomeGraph.text_content text.
Proof.
  intros Hown Hres.
  destruct (HG_handler_resolves_with_text handler _ _ r
              (HG_own_handler name handler Hown) Hres) as [text ->].
  split; [| now exists text].
  unfold HomeGraph.callTool.
  rewrite measureOperation_outcome, outcome_bind. cbn [outcome emit snd].
  rewrite Hown, outcome_bind, Hres. reflexivity.
Qed.

End HomeGraphDispatch.

Lemma X18_witness :
  outcome (HomeGraph.callTool Scenarios.stringify_id
             (Fixtures.hgServer (Scenarios.hgReplying Scenarios.twoDevices))
             "get_smart_plug_state"
             (VObj [("agentUserId", VStr "user-1"); ("deviceId", VStr "fan")]))
  = Resolved (HomeGraph.text_content
                (VObj [ ("id", VStr "fan");
                        ("type", VStr "action.devices.types.OUTLET") ]))
  /\ exists text,
       HomeGraph.text_content
         (VObj [ ("id", VStr "fan"); ("type", VStr "action.devices.types.OUTLET") ])
       = HomeGraph.text_content text.
Proof.
  apply (X18_HomeGraph_callTool_passes_results_unchanged Scenarios.stringify_id
           (Fixtures.hgServer (Scenarios.hgReplying Scenarios.twoDevices))
           "get_smart_plug_state"
           (VObj [("agentUserId", VStr "user-1"); ("deviceId", VStr "fan")])
           (HomeGraph.get_smart_plug_state Scenarios.stringify_id));
    reflexivity.
Defined.

(* ------------------------------------------------------------------ *)
(** ** logger: counters and health checks                              *)
(* ------------------------------------------------------------------ *)

Lemma JsMap_get_set_eq {A} (k : string) (v : A) (m : list (string * A)) :
  JsMap.get k (JsMap.set k v m) = Some v.
Proof.
  induction m as [| [k' v'] rest IH]; cbn.
  - now rewrite String.eqb_refl.
  - destruct (String.eqb k k') eqn:E; cbn; [now rewrite String.eqb_refl |].
    now rewrite E.
Qed.

Lemma JsMap_get_set_neq {A} (k k' : string) (v : A) (m : list (string * A)) :
  k <> k' -> JsMap.get k (JsMap.set k' v m) = JsMap.get k m.
Proof.
  intros Hne. apply String.eqb_neq in Hne.
  induction m as [| [k0 v0] rest IH]; cbn.
  - now rewrite Hne.
  - destruct (String.eqb k' k0) eqn:E; cbn.
    + apply String.eqb_eq in E. subst k0. now rewrite Hne.
    + destruct (String.eqb k k0); [reflexivity | exact IH].
Qed.

Lemma JsMap_keys_set {A} (k : string) (v : A) (m : list (string * A)) :
  JsMap.keys (JsMap.set k v m)
  = if existsb (String.eqb k) (JsMap.keys m) then JsMap.keys m
    else (JsMap.keys m ++ [k])%list.
Proof.
  induction m as [| [k' v'] rest IH]; [reflexivity |].
  cbn. destruct (String.eqb k k') eqn:E; cbn.
  - apply String.eqb_eq in E. now subst.
  - unfold JsMap.keys in IH. rewrite IH.
    now destruct (existsb (String.eqb k) (map fst rest)).
Qed.

Lemma Metrics_reading_increment (now : Z) (metric : string)
    (amount : option Metrics.Num) (m : Metrics.Collector) :
  Metrics.reading metric (Metrics.increment now metric amount m)
  = Some (Metrics.plus (Metrics.standing metric m)
            match amount with Some a => a | None => Metrics.Finite 1 end).
Proof.
  unfold Metrics.reading, Metrics.increment. now rewrite JsMap_get_set_eq.
Qed.

Lemma Metrics_reading_other (now : Z) (metric other : string)
    (amount : option Metrics.Num) (m : Metrics.Collector) :
  other <> metric ->
  Metrics.reading other (Metrics.increment now metric amount m)
  = Metrics.reading other m.
Proof.
  intros H. unfold Metrics.reading, Metrics.increment.
  now rewrite (JsMap_get_set_neq _ _ _ _ H).
Qed.

Lemma Metrics_standing_increment (now : Z) (metric : string)
    (m : Metrics.Collector) (v : Z) :
  Metrics.standing metric m = Metrics.Finite v ->
  (0 <= v < 2 ^ 53)%Z ->
  Metrics.standing metric (Metrics.increment now metric None m)
  = Metrics.Finite (v + 1).
Proof.
  intros Hs Hv. unfold Metrics.standing at 1, Metrics.increment.
  rewrite JsMap_get_set_eq, Hs. cbn [Metrics.value Metrics.plus].
  assert (Ha : Z.abs (v + 1) = (v + 1)%Z) by lia. rewrite Ha.
  assert (Hn : nearest_double (v + 1) = Some (v + 1)%Z).
  { unfold nearest_double. destruct (Z.ltb_spec (v + 1) (2 ^ 53)) as [_ | Hge];
      [reflexivity |].
    assert (v + 1 = 2 ^ 53)%Z as -> by lia. reflexivity. }
  rewrite Hn.
  assert (Hp : (v + 1 <? 0)%Z = false) by (apply Z.ltb_ge; lia).
  rewrite Hp. cbn [Metrics.truthy].
  assert (Hz : (v + 1 =? 0)%Z = false) by (apply Z.eqb_neq; lia).
  now rewrite Hz.
Qed.

Lemma Metrics_standing_saturated (now : Z) (metric : string)
    (m : Metrics.Collector) :
  Metrics.standing metric m = Metrics.Finite (2 ^ 53) ->
  Metrics.standing metric (Metrics.increment now metric None m)
  = Metrics.Finite (2 ^ 53).
Proof.
  intros Hs. unfold Metrics.standing at 1, Metrics.increment.
  rewrite JsMap_get_set_eq, Hs. reflexivity.
Qed.

Lemma Metrics_reading_standing (now : Z) (metric : string)
    (m : Metrics.Collector) (v : Z) :
  v <> 0%Z ->
  Metrics.standing metric (Metrics.increment now metric None m)
  = Metrics.Finite v ->
  Metrics.reading metric (Metrics.increment now metric None m)
  = Some (Metrics.Finite v).
Proof.
  intros Hv. unfold Metrics.standing, Metrics.reading.
  destruct (JsMap.get metric (Metrics.increment now metric None m)) as [x |].
  - destruct (Metrics.truthy (Metrics.value x)); [congruence |].
    intros [= <-]. now destruct Hv.
  - intros [= <-]. now destruct Hv.
Qed.

(** After the increments at [nows], a counter that stood at [v] stands at
    [v] plus their number, as long as that stays within [2^53]; one that
    stood at [2^53] still stands there. *)
Lemma Metrics_standing_after (metric : string) (nows : list Z) :
  forall (m : Metrics.Collector) (v : Z),
    Metrics.standing metric m = Metrics.Finite v ->
    (0 <= v)%Z ->
    (v + Z.of_nat (length nows) <= 2 ^ 53)%Z ->
    Metrics.standing metric
      (fold_left (fun acc now => Metrics.increment now metric None acc) nows m)
    = Metrics.Finite (v + Z.of_nat (length nows)).
Proof.
  induction nows as [| now rest IH]; intros m v Hs Hv Hb.
  - cbn [fold_left length]. now rewrite Z.add_0_r.
  - cbn [fold_left]. cbn [length] in Hb |- *.
    rewrite (IH (Metrics.increment now metric None m) (v + 1)%Z).
    + f_equal. lia.
    + apply (Metrics_standing_increment now metric m v Hs). lia.
    + lia.
    + lia.
Qed.

Lemma Metrics_saturated_after (metric : string) (nows : list Z) :
  forall m : Metrics.Collector,
    Metrics.standing metric m = Metrics.Finite (2 ^ 53) ->
    Metrics.standing metric
      (fold_left (fun acc now => Metrics.increment now metric None acc) nows m)
    = Metrics.Finite (2 ^ 53).
Proof.
  induction nows as [| now rest IH]; intros m Hs; [exact Hs |].
  cbn [fold_left]. apply IH. now apply Metrics_standing_saturated.
Qed.

Lemma Metrics_other_after (metric other : string) (nows : list Z) :
  other <> metric ->
  forall m : Metrics.Collector,
    Metrics.reading other
      (fold_left (fun acc now => Metrics.increment now metric None acc) nows m)
    = Metrics.reading other m.
Proof.
  intros Hne. induction nows as [| now rest IH]; intros m; [reflexivity |].
  cbn [fold_left]. now rewrite IH, Metrics_reading_other.
Qed.

(** X19 ([MetricsCollector]).  Counters accumulate and do not interfere:
    after [n] calls of [increment(metric)], at whatever times, a metric that
    stood at the count [v] (0 when it was never written) stands at [v + n],
    as long as [v + n] does not exceed [2^53]; and every other metric stands
    where it stood.  The sum is one of doubles: a counter that has
    reached [2^53] stays there, further increments by one are lost. *)
Theorem X19_counters_accumulate_and_are_independent
    (metric other : string) (nows : list Z) (m : Metrics.Collector) :
  other <> metric ->
  let m' := fold_left (fun acc now => Metrics.increment now metric None acc)
                      nows m in
  (forall v, Metrics.standing metric m = Metrics.Finite v ->
     (0 <= v)%Z -> (v + Z.of_nat (length nows) <= 2 ^ 53)%Z ->
     Metrics.standing metric m' = Metrics.Finite (v + Z.of_nat (length nows))
     /\ (nows <> [] ->
         Metrics.reading metric m'
         = Some (Metrics.Finite (v + Z.of_nat (length nows)))))
  /\ (Metrics.standing metric m = Metrics.Finite (2 ^ 53) ->
      Metrics.standing metric m' = Metrics.Finite (2 ^ 53))
  /\ Metrics.reading other m' = Metrics.reading other m.
Proof.
  intros Hne m'. split; [| split].
  - intros v Hs Hv Hb.
    pose proof (Metrics_standing_after metric nows m v Hs Hv Hb) as Hst.
    split; [exact Hst |]. intros Hnil. unfold m' in *.
    destruct (exists_last Hnil) as [front [now ->]].
    rewrite fold_left_app in *. cbn [fold_left] in *.
    apply Metrics_reading_standing; [| exact Hst].
    rewrite length_app. cbn [length]. lia.
  - apply Metrics_saturated_after.
  - now apply Metrics_other_after.
Qed.

Lemma X19_witness :
  let m' := fold_left (fun acc now => Metrics.increment now "list_tools_requests"
                                        None acc)
                      [1000; 1005; 1005]%Z
                      (Metrics.gauge 900 "smart_plugs_count" (Metrics.Finite 4)
                         Metrics.empty) in
  Metrics.standing "list_tools_requests" m' = Metrics.Finite 3
  /\ Metrics.reading "list_tools_requests" m' = Some (Metrics.Finite 3)
  /\ Metrics.reading "smart_plugs_count" m' = Some (Metrics.Finite 4).
Proof.
  destruct (X19_counters_accumulate_and_are_independent
              "list_tools_requests" "smart_plugs_count" [1000; 1005; 1005]%Z
              (Metrics.gauge 900 "smart_plugs_count" (Metrics.Finite 4)
                 Metrics.empty)
              ltac:(discriminate)) as [Hcount [_ Hother]].
  destruct (Hcount 0%Z eq_refl ltac:(lia) ltac:(cbn; lia)) as [Hs Hr].
  split; [exact Hs | split; [exact (Hr ltac:(discriminate)) | exact Hother]].
Defined.

(** The sums are sums of doubles: at [2^53] an increment by one is lost. *)
Example counter_at_two_to_the_53 :
  Metrics.reading "n"
    (Metrics.increment 2 "n" None
       (Metrics.gauge 1 "n" (Metrics.Finite 9007199254740992) Metrics.empty))
  = Some (Metrics.Finite 9007199254740992).
Proof. reflexivity. Qed.

Lemma Health_assign_get (name k : string) (b : bool)
    (results : list (string * bool)) :
  k <> "__proto__" ->
  JsMap.get k (Health.assign name b results)
  = if String.eqb k name then Some b else JsMap.get k results.
Proof.
  intros Hk. unfold Health.assign.
  destruct (String.eqb name "__proto__") eqn:Ep.
  - apply String.eqb_eq in Ep. subst name.
    apply String.eqb_neq in Hk. now rewrite Hk.
  - destruct (String.eqb k name) eqn:E.
    + apply String.eqb_eq in E. subst. apply JsMap_get_set_eq.
    + apply String.eqb_neq in E. now apply JsMap_get_set_neq.
Qed.

Lemma Health_runChecks_spec {S} (checks : Health.Registry S) (s : S) :
  NoDup (JsMap.keys checks) ->
  forall acc, exists results,
    outcome (Health.runChecks checks s acc) = Resolved results
    /\ forall k, k <> "__proto__" ->
         JsMap.get k results
         = match JsMap.get k checks with
           | Some check =>
               Some match outcome (check s) with
                    | Resolved b => b
                    | Rejected _ => false
                    end
           | None => JsMap.get k acc
           end.
Proof.
  induction checks as [| [name check] rest IH]; intros Hnd acc.
  - exists acc. split; [reflexivity |]. now intros k _.
  - cbn [JsMap.keys map fst] in Hnd. apply NoDup_cons_iff in Hnd.
    destruct Hnd as [Hnotin Hnd'].
    cbn [Health.runChecks]. rewrite outcome_bind, outcome_try_catch.
    set (b := match outcome (check s) with
              | Resolved b => b
              | Rejected _ => false
              end).
    assert (Hb : match outcome (check s) with
                 | Resolved a => Resolved a
                 | Rejected e => outcome (ret false)
                 end = Resolved b)
      by (unfold b; now destruct (outcome (check s))).
    rewrite Hb.
    destruct (IH Hnd' (Health.assign name b acc)) as [results [Hres Hget]].
    exists results. split; [exact Hres |].
    intros k Hk. rewrite (Hget k Hk). cbn [JsMap.get].
    destruct (String.eqb k name) eqn:E.
    + apply String.eqb_eq in E. subst k.
      destruct (JsMap.get name rest) as [c' |] eqn:Eg.
      * exfalso. apply Hnotin. clear - Eg.
        induction rest as [| [k0 v0] rest IH]; [discriminate |].
        cbn in *. destruct (String.eqb name k0) eqn:E0.
        -- left. apply String.eqb_eq in E0. now subst.
        -- right. now apply IH.
      * rewrite (Health_assign_get _ _ _ _ Hk). now rewrite String.eqb_refl.
    + destruct (JsMap.get k rest); [reflexivity |].
      rewrite (Health_assign_get _ _ _ _ Hk). now rewrite E.
Qed.

(** X20 ([HealthCheck.performChecks]).  Running the registered checks never
    rejects, whatever the checks do: the result holds, for every registered
    name, the boolean its check resolved with, and [false] for a check that
    threw; names that were not registered are absent from it. *)
Theorem X20_performChecks_never_rejects {S : Type}
    (checks : Health.Registry S) (s : S) :
  NoDup (JsMap.keys checks) ->
  exists results,
    outcome (Health.performChecks checks s) = Resolved results
    /\ forall k, k <> "__proto__" ->
         JsMap.get k results
         = match JsMap.get k checks with
           | Some check =>
               Some match outcome (check s) with
                    | Resolved b => b
                    | Rejected _ => false
                    end
           | None => None
           end.
Proof.
  intros Hnd. exact (Health_runChecks_spec checks s Hnd []).
Qed.

Lemma X20_witness :
  exists results,
    outcome (Health.performChecks
               [ ("memory", fun _ : unit => ret true);
                 ("auth", fun _ : unit => throw (VError "Error" "boom")) ] tt)
    = Resolved results
    /\ forall k, k <> "__proto__" ->
         JsMap.get k results
         = match JsMap.get k
                   [ ("memory", fun _ : unit => ret true);
                     ("auth", fun _ : unit => throw (VError "Error" "boom")) ]
           with
           | Some check =>
               Some match outcome (check tt) with
                    | Resolved b => b
                    | Rejected _ => false
                    end
           | None => None
           end.
Proof.
  apply (X20_performChecks_never_rejects
           [ ("memory", fun _ : unit => ret true);
             ("auth", fun _ : unit => throw (VError "Error" "boom")) ] tt).
  repeat constructor; cbn; intuition discriminate.
Defined.

Example performChecks_with_a_throwing_check :
  Health.performChecks
    [ ("memory", fun _ : unit => ret true);
      ("auth", fun _ : unit => throw (VError "Error" "boom")) ] tt
  = ([], Resolved [ ("memory", true); ("auth", false) ]).
Proof. reflexivity. Qed.

(** Registering keeps every name at most once. *)
Lemma Health_registerCheck_NoDup {S} (name : string) (check : S -> Eff bool)
    (checks : Health.Registry S) :
  NoDup (JsMap.keys checks) ->
  NoDup (JsMap.keys (Health.registerCheck name check checks)).
Proof.
  intros H. unfold Health.registerCheck. rewrite JsMap_keys_set.
  destruct (existsb (String.eqb name) (JsMap.keys checks)) eqn:E; [exact H |].
  apply NoDup_app; [exact H | repeat constructor; easy |].
  intros x Hin [<- | []].
  assert (existsb (String.eqb name) (JsMap.keys checks) = true).
  { apply existsb_exists. exists name.
    split; [exact Hin | apply String.eqb_refl]. }
  congruence.
Qed.

(* ------------------------------------------------------------------ *)
(** ** Start-up                                                        *)
(* ------------------------------------------------------------------ *)

Lemma is_empty_false (s : string) : s <> "" -> is_empty s = false.
Proof. intros H. now apply String.eqb_neq. Qed.

(** X21 ([setupAuth], incomplete configuration).  When the refresh token is
    missing or empty, or (current server) the client id or secret is empty,
    authentication set-up fails without touching the server and whatever the
    token endpoint or client factory would have answered.  The current
    server rejects with a plain [Error] and counts the failure twice in
    [auth_setup_failures]; the single-file server, which looks at the token
    only, rejects with [InternalError] carrying that [Error] as [data]. *)
Theorem X21_setupAuth_rejects_incomplete_config
    (getAccessToken : OAuth2Client -> Outcome JsVal)
    (factory : OAuth2Client -> Outcome SdmClient)
    (s : HomeGraph.Server) (l : Legacy.Server) :
  refreshToken (HomeGraph.config s) = None
  \/ refreshToken (HomeGraph.config s) = Some ""
  \/ clientId (HomeGraph.config s) = ""
  \/ clientSecret (HomeGraph.config s) = "" ->
  refreshToken (Legacy.config l) = None
  \/ refreshToken (Legacy.config l) = Some "" ->
  (exists message,
      HomeGraphStartup.setupAuth getAccessToken s
      = (s, ([Increment "auth_setup_failures"; Increment "auth_setup_failures";
              Increment "setup_auth_errors"],
             Rejected (VError "Error" message))))
  /\ LegacyStartup.setupAuth factory l
     = (l, ([Increment "auth_setup_failures"; Increment "setup_auth_errors"],
            Rejected
              (mkErrorData InternalError "Authentication setup failed"
                 (VError "Error"
                    "Refresh token not found in config.json. Please run get-refresh-token.ts first.")))).
Proof.
  intros Hs Hl. split.
  - destruct s as [a h [cid csec rt]]. cbn in Hs.
    unfold HomeGraphStartup.setupAuth, st_measure, st_try, st_bind, st_get,
      st_lift, st_throw. cbn.
    destruct rt as [t |]; [| eexists; reflexivity].
    destruct (is_empty t) eqn:Et; [eexists; reflexivity |].
    destruct Hs as [H | [H | [H | H]]]; try discriminate.
    + injection H as ->. discriminate.
    + subst cid. eexists. reflexivity.
    + subst csec. destruct (String.eqb cid ""); eexists; reflexivity.
  - destruct l as [sd a [cid csec rt]]. cbn in Hl.
    destruct Hl as [-> | ->]; reflexivity.
Qed.

Lemma X21_witness :
  (exists message,
      HomeGraphStartup.setupAuth (fun _ => Resolved (VStr "access-token"))
        (Scenarios.freshServer Scenarios.configWithoutSecret)
      = (Scenarios.freshServer Scenarios.configWithoutSecret,
         ([Increment "auth_setup_failures"; Increment "auth_setup_failures";
           Increment "setup_auth_errors"],
          Rejected (VError "Error" message))))
  /\ LegacyStartup.setupAuth (fun _ => Resolved Fixtures.emptyAccount)
       (Scenarios.freshLegacy Scenarios.configWithoutToken)
     = (Scenarios.freshLegacy Scenarios.configWithoutToken,
        ([Increment "auth_setup_failures"; Increment "setup_auth_errors"],
         Rejected
           (mkErrorData InternalError "Authentication setup failed"
              (VError "Error"
                 "Refresh token not found in config.json. Please run get-refresh-token.ts first.")))).
Proof.
  apply (X21_setupAuth_rejects_incomplete_config
           (fun _ => Resolved (VStr "access-token"))
           (fun _ => Resolved Fixtures.emptyAccount)
           (Scenarios.freshServer Scenarios.configWithoutSecret)
           (Scenarios.freshLegacy Scenarios.configWithoutToken)).
  - right; right; right. reflexivity.
  - left. reflexivity.
Defined.

(** X22 (current server, [setupAuth] with a complete configuration).  The
    OAuth client built from the configuration is stored in the server before
    the access token is asked for, and stays there whether or not that
    succeeds: on success set-up resolves; when the token endpoint refuses,
    set-up rejects with [InternalError] ("OAuth2 setup failed") carrying the
    endpoint's error as [data], and [auth] is nonetheless set. *)
Theorem X22_setupAuth_stores_client_before_verifying
    (getAccessToken : OAuth2Client -> Outcome JsVal)
    (s : HomeGraph.Server) (token : string) :
  refreshToken (HomeGraph.config s) = Some token ->
  token <> "" ->
  clientId (HomeGraph.config s) <> "" ->
  clientSecret (HomeGraph.config s) <> "" ->
  let client :=
    {| oauth_clientId := clientId (HomeGraph.config s);
       oauth_clientSecret := clientSecret (HomeGraph.config s);
       refresh_token := token |} in
  final_state (HomeGraphStartup.setupAuth getAccessToken s)
  = {| HomeGraph.auth := Some client;
       HomeGraph.homegraph := HomeGraph.homegraph s;
       HomeGraph.config := HomeGraph.config s |}
  /\ outcome (result (HomeGraphStartup.setupAuth getAccessToken s))
     = match getAccessToken client with
       | Resolved _ => Resolved tt
       | Rejected e =>
           Rejected (mkErrorData InternalError "OAuth2 setup failed" e)
       end.
Proof.
  intros Ht Hne Hid Hsec client.
  destruct s as [a h [cid csec rt]]. cbn in Ht, Hid, Hsec, client. subst rt.
  unfold HomeGraphStartup.setupAuth, st_measure, st_try, st_bind, st_get,
    st_put, st_lift, st_throw, st_ret, final_state, result, is_empty. cbn.
  apply String.eqb_neq in Hne, Hid, Hsec. rewrite Hne, Hid, Hsec. cbn.
  fold client.
  destruct (getAccessToken client); split; reflexivity.
Qed.

Lemma X22_witness :
  let client :=
    {| oauth_clientId :=
         clientId (HomeGraph.config (Scenarios.freshServer Fixtures.someConfig));
       oauth_clientSecret :=
         clientSecret (HomeGraph.config (Scenarios.freshServer Fixtures.someConfig));
       refresh_token := "token" |} in
  final_state (HomeGraphStartup.setupAuth
                 (fun _ => Rejected (VError "Error" "invalid_grant"))
                 (Scenarios.freshServer Fixtures.someConfig))
  = {| HomeGraph.auth := Some client;
       HomeGraph.homegraph :=
         HomeGraph.homegraph (Scenarios.freshServer Fixtures.someConfig);
       HomeGraph.config :=
         HomeGraph.config (Scenarios.freshServer Fixtures.someConfig) |}
  /\ outcome (result (HomeGraphStartup.setupAuth
                        (fun _ => Rejected (VError "Error" "invalid_grant"))
                        (Scenarios.freshServer Fixtures.someConfig)))
     = match (fun _ : OAuth2Client =>
                @Rejected JsVal (VError "Error" "invalid_grant")) client with
       | Resolved _ => Resolved tt
       | Rejected e =>
           Rejected (mkErrorData InternalError "OAuth2 setup failed" e)
       end.
Proof.
  apply (X22_setupAuth_stores_client_before_verifying
           (fun _ => Rejected (VError "Error" "invalid_grant"))
           (Scenarios.freshServer Fixtures.someConfig) "token");
    (reflexivity || discriminate).
Defined.

(** X23 (single-file server, [setupAuth] with a refresh token).  The OAuth
    client is stored first; the device client is stored only when the factory
    gives one.  When the factory throws a value that can be printed, set-up
    counts the failure and rejects with [InternalError] ("Authentication
    setup failed") carrying the thrown value as [data]; when it throws a
    value that cannot be converted to a string, the [catch] block fails at
    its log line and set-up rejects with the conversion's [TypeError],
    without counting it in [auth_setup_failures].  Either way [auth] is set
    and [sdm] is as it was.  The client id and secret are not looked at. *)
Theorem X23_Legacy_setupAuth_with_token
    (factory : OAuth2Client -> Outcome SdmClient)
    (l : Legacy.Server) (token : string) :
  refreshToken (Legacy.config l) = Some token ->
  token <> "" ->
  let client :=
    {| oauth_clientId := clientId (Legacy.config l);
       oauth_clientSecret := clientSecret (Legacy.config l);
       refresh_token := token |} in
  final_state (LegacyStartup.setupAuth factory l)
  = {| Legacy.sdm := match factory client with
                     | Resolved c => Some c
                     | Rejected _ => Legacy.sdm l
                     end;
       Legacy.auth := Some client;
       Legacy.config := Legacy.config l |}
  /\ result (LegacyStartup.setupAuth factory l)
     = match factory client with
       | Resolved _ =>
           ([Duration "setup_auth_duration_ms"; Increment "setup_auth_total"],
            Resolved tt)
       | Rejected e =>
           if printable e then
             ([Increment "auth_setup_failures"; Increment "setup_auth_errors"],
              Rejected (mkErrorData InternalError
                          "Authentication setup failed" e))
           else
             ([Increment "setup_auth_errors"], Rejected TypeError_to_primitive)
       end.
Proof.
  intros Ht Hne client.
  destruct l as [sd a [cid csec rt]]. cbn in Ht, client. subst rt.
  unfold LegacyStartup.setupAuth, st_measure, st_try, st_bind, st_get,
    st_put, st_lift, st_throw, st_ret, final_state, result, is_empty. cbn.
  apply String.eqb_neq in Hne. rewrite Hne. cbn. fold client.
  destruct (factory client) as [c | e]; [split; reflexivity |].
  destruct (error_text_cases e) as [[text [-> ->]] | [-> ->]];
    split; reflexivity.
Qed.

Lemma X23_witness :
  let client :=
    {| oauth_clientId :=
         clientId (Legacy.config (Scenarios.freshLegacy Scenarios.configWithoutSecret));
       oauth_clientSecret :=
         clientSecret
           (Legacy.config (Scenarios.freshLegacy Scenarios.configWithoutSecret));
       refresh_token := "token" |} in
  final_state (LegacyStartup.setupAuth
                 (fun _ => Rejected (VObj [("toString", VNull)]))
                 (Scenarios.freshLegacy Scenarios.configWithoutSecret))
  = {| Legacy.sdm :=
         match (fun _ : OAuth2Client =>
                  @Rejected SdmClient (VObj [("toString", VNull)])) client with
         | Resolved c => Some c
         | Rejected _ =>
             Legacy.sdm (Scenarios.freshLegacy Scenarios.configWithoutSecret)
         end;
       Legacy.auth := Some client;
       Legacy.config :=
         Legacy.config (Scenarios.freshLegacy Scenarios.configWithoutSecret) |}
  /\ result (LegacyStartup.setupAuth
               (fun _ => Rejected (VObj [("toString", VNull)]))
               (Scenarios.freshLegacy Scenarios.configWithoutSecret))
     = match (fun _ : OAuth2Client =>
                @Rejected SdmClient (VObj [("toString", VNull)])) client with
       | Resolved _ =>
           ([Duration "setup_auth_duration_ms"; Increment "setup_auth_total"],
            Resolved tt)
       | Rejected e =>
           if printable e then
             ([Increment "auth_setup_failures"; Increment "setup_auth_errors"],
              Rejected (mkErrorData InternalError
                          "Authentication setup failed" e))
           else
             ([Increment "setup_auth_errors"], Rejected TypeError_to_primitive)
       end.
Proof.
  apply (X23_Legacy_setupAuth_with_token
           (fun _ => Rejected (VObj [("toString", VNull)]))
           (Scenarios.freshLegacy Scenarios.configWithoutSecret) "token");
    (reflexivity || discriminate).
Defined.

Lemma Legacy_initialize_success
    (factory : OAuth2Client -> Outcome SdmClient) (w : LegacyStartup.World)
    (token : string) (c : SdmClient) :
  refreshToken (Legacy.config (LegacyStartup.server w)) = Some token ->
  token <> "" ->
  factory {| oauth_clientId := clientId (Legacy.config (LegacyStartup.server w));
             oauth_clientSecret :=
               clientSecret (Legacy.config (LegacyStartup.server w));
             refresh_token := token |} = Resolved c ->
  LegacyStartup.initialize factory w
  = ({| LegacyStartup.server :=
          {| Legacy.sdm := Some c;
             Legacy.auth :=
               Some {| oauth_clientId :=
                         clientId (Legacy.config (LegacyStartup.server w));
                       oauth_clientSecret :=
                         clientSecret (Legacy.config (LegacyStartup.server w));
                       refresh_token := token |};
             Legacy.config := Legacy.config (LegacyStartup.server w) |};
        LegacyStartup.requestHandlers :=
          LegacyStartup.install LegacyStartup.CallToolRequest
            (LegacyStartup.install LegacyStartup.ListToolsRequest
               (LegacyStartup.requestHandlers w));
        LegacyStartup.health :=
          Health.registerCheck "sdm"
            (fun s => ret (LegacyStartup.is_set (Legacy.sdm s)))
            (Health.registerCheck "auth"
               (fun s => ret (LegacyStartup.is_set (Legacy.auth s)))
               (LegacyStartup.health w)) |},
     ([Duration "setup_auth_duration_ms"; Increment "setup_auth_total";
       Duration "server_initialize_duration_ms";
       Increment "server_initialize_total"], Resolved tt)).
Proof.
  intros Ht Hne Hf.
  destruct w as [[sd a [cid csec rt]] rh h]. cbn in Ht, Hf. subst rt.
  unfold LegacyStartup.initialize, LegacyStartup.on_server,
    LegacyStartup.setupAuth, LegacyStartup.setupTools,
    LegacyStartup.registerCheck, LegacyStartup.with_server,
    st_measure, st_try, st_bind, st_get, st_put, st_lift, st_throw, st_ret,
    is_empty.
  cbn -[LegacyStartup.install]. apply String.eqb_neq in Hne. rewrite Hne.
  cbn -[LegacyStartup.install]. rewrite Hf. reflexivity.
Qed.

Lemma install_has (k : LegacyStartup.RequestKind)
    (installed : list LegacyStartup.RequestKind) :
  In k (LegacyStartup.install k installed).
Proof.
  unfold LegacyStartup.install.
  destruct (existsb (LegacyStartup.same_kind k) installed) eqn:E.
  - apply existsb_exists in E. destruct E as [x [Hin Hx]].
    now destruct k, x.
  - apply in_or_app. right. now left.
Qed.

Lemma install_keeps (k k' : LegacyStartup.RequestKind)
    (installed : list LegacyStartup.RequestKind) :
  In k installed -> In k (LegacyStartup.install k' installed).
Proof.
  intros H. unfold LegacyStartup.install.
  destruct (existsb (LegacyStartup.same_kind k') installed); [exact H |].
  apply in_or_app. now left.
Qed.

(** X24 (single-file server, life cycle seen by the health checks).  After a
    successful [initialize] both request handlers are installed and the
    checks [auth] and [sdm] are registered; run then, the health checks
    report [auth] and [sdm] as true; run after [cleanup], they report both
    as false. *)
Theorem X24_health_checks_follow_the_life_cycle
    (factory : OAuth2Client -> Outcome SdmClient) (w : LegacyStartup.World)
    (token : string) (c : SdmClient) :
  refreshToken (Legacy.config (LegacyStartup.server w)) = Some token ->
  token <> "" ->
  factory {| oauth_clientId := clientId (Legacy.config (LegacyStartup.server w));
             oauth_clientSecret :=
               clientSecret (Legacy.config (LegacyStartup.server w));
             refresh_token := token |} = Resolved c ->
  NoDup (JsMap.keys (LegacyStartup.health w)) ->
  let started := final_state (LegacyStartup.initialize factory w) in
  let stopped := final_state (LegacyStartup.cleanup started) in
  outcome (result (LegacyStartup.initialize factory w)) = Resolved tt
  /\ In LegacyStartup.ListToolsRequest (LegacyStartup.requestHandlers started)
  /\ In LegacyStartup.CallToolRequest (LegacyStartup.requestHandlers started)
  /\ (exists results,
        outcome (Health.performChecks (LegacyStartup.health started)
                   (LegacyStartup.server started)) = Resolved results
        /\ JsMap.get "auth" results = Some true
        /\ JsMap.get "sdm" results = Some true)
  /\ (exists results,
        outcome (Health.performChecks (LegacyStartup.health stopped)
                   (LegacyStartup.server stopped)) = Resolved results
        /\ JsMap.get "auth" results = Some false
        /\ JsMap.get "sdm" results = Some false).
Proof.
  intros Ht Hne Hf Hnd started stopped.
  pose proof (Legacy_initialize_success factory w token c Ht Hne Hf) as Hi.
  unfold stopped, started. rewrite Hi.
  unfold final_state, result. cbn [fst snd outcome].
  set (checks := Health.registerCheck "sdm" _ (Health.registerCheck "auth" _ _)).
  assert (Hnd' : NoDup (JsMap.keys checks))
    by (unfold checks; now do 2 apply Health_registerCheck_NoDup).
  assert (Hauth : JsMap.get "auth" checks
                  = Some (fun s => ret (LegacyStartup.is_set (Legacy.auth s)))).
  { unfold checks, Health.registerCheck.
    rewrite JsMap_get_set_neq by discriminate. apply JsMap_get_set_eq. }
  assert (Hsdm : JsMap.get "sdm" checks
                 = Some (fun s => ret (LegacyStartup.is_set (Legacy.sdm s)))).
  { unfold checks, Health.registerCheck. apply JsMap_get_set_eq. }
  split; [reflexivity | split; [| split; [| split]]].
  - apply install_keeps. apply install_has.
  - apply install_has.
  - destruct (Health_runChecks_spec checks
                {| Legacy.sdm := Some c;
                   Legacy.auth :=
                     Some {| oauth_clientId :=
                               clientId (Legacy.config (LegacyStartup.server w));
                             oauth_clientSecret :=
                               clientSecret (Legacy.config (LegacyStartup.server w));
                             refresh_token := token |};
                   Legacy.config := Legacy.config (LegacyStartup.server w) |}
                Hnd' []) as [results [Hres Hget]].
    exists results. split; [exact Hres |].
    rewrite (Hget "auth" ltac:(discriminate)), (Hget "sdm" ltac:(discriminate)).
    rewrite Hauth, Hsdm. split; reflexivity.
  - cbn.
    destruct (Health_runChecks_spec checks
                {| Legacy.sdm := None; Legacy.auth := None;
                   Legacy.config := Legacy.config (LegacyStartup.server w) |}
                Hnd' []) as [results [Hres Hget]].
    exists results. split; [exact Hres |].
    rewrite (Hget "auth" ltac:(discriminate)), (Hget "sdm" ltac:(discriminate)).
    rewrite Hauth, Hsdm. split; reflexivity.
Qed.

Lemma X24_witness :
  let started :=
    final_state (LegacyStartup.initialize (fun _ => Resolved Fixtures.emptyAccount)
                   (Scenarios.freshWorld Fixtures.someConfig (ret true))) in
  let stopped := final_state (LegacyStartup.cleanup started) in
  outcome (result (LegacyStartup.initialize
                     (fun _ => Resolved Fixtures.emptyAccount)
                     (Scenarios.freshWorld Fixtures.someConfig (ret true))))
  = Resolved tt
  /\ In LegacyStartup.ListToolsRequest (LegacyStartup.requestHandlers started)
  /\ In LegacyStartup.CallToolRequest (LegacyStartup.requestHandlers started)
  /\ (exists results,
        outcome (Health.performChecks (LegacyStartup.health started)
                   (LegacyStartup.server started)) = Resolved results
        /\ JsMap.get "auth" results = Some true
        /\ JsMap.get "sdm" results = Some true)
  /\ (exists results,
        outcome (Health.performChecks (LegacyStartup.health stopped)
                   (LegacyStartup.server stopped)) = Resolved results
        /\ JsMap.get "auth" results = Some false
        /\ JsMap.get "sdm" results = Some false).
Proof.
  apply (X24_health_checks_follow_the_life_cycle
           (fun _ => Resolved Fixtures.emptyAccount)
           (Scenarios.freshWorld Fixtures.someConfig (ret true))
           "token" Fixtures.emptyAccount);
    try reflexivity; try discriminate.
  repeat constructor. cbn. intuition.
Defined.

(** X25 (single-file server, [initialize] that fails).  When authentication
    set-up fails (no refresh token, or the device client cannot be built),
    [initialize] rejects with the very error set-up rejected with and goes
    no further: no request handler is installed and no health check is
    registered.  That error is the [InternalError] wrapper, unless the
    factory threw a value that cannot be converted to a string: then it is
    the [TypeError] of the log line's conversion. *)
Theorem X25_failed_initialize_registers_nothing
    (factory : OAuth2Client -> Outcome SdmClient) (w : LegacyStartup.World)
    (e : JsVal) :
  outcome (result (LegacyStartup.setupAuth factory (LegacyStartup.server w)))
  = Rejected e ->
  outcome (result (LegacyStartup.initialize factory w)) = Rejected e
  /\ (error_code e = Some InternalError
      \/ (e = TypeError_to_primitive
          /\ exists client v, factory client = Rejected v
                              /\ printable v = false))
  /\ LegacyStartup.requestHandlers
       (final_state (LegacyStartup.initialize factory w))
     = LegacyStartup.requestHandlers w
  /\ LegacyStartup.health (final_state (LegacyStartup.initialize factory w))
     = LegacyStartup.health w.
Proof.
  destruct w as [l rh h].
  unfold LegacyStartup.initialize, LegacyStartup.on_server, st_measure, st_try,
    st_bind, st_lift, st_throw, st_ret, final_state, result.
  cbn [LegacyStartup.server].
  destruct (LegacyStartup.setupAuth factory l) as [l' [t [[] | e']]] eqn:E;
    cbn; [discriminate |].
  intros [= <-]. split; [reflexivity | split; [| split; reflexivity]].
  revert E. destruct l as [sd a [cid csec rt]].
  unfold LegacyStartup.setupAuth, st_measure, st_try, st_bind, st_get, st_put,
    st_lift, st_throw, st_ret, is_empty. cbn.
  destruct rt as [tok |]; [| intros [= <- <- <-]; left; reflexivity].
  destruct (String.eqb tok ""); [intros [= <- <- <-]; left; reflexivity |].
  cbn.
  match goal with |- context [factory ?cl] => set (client := cl) end.
  destruct (factory client) as [c | v] eqn:F; cbn; [discriminate |].
  destruct (error_text_cases v) as [[text [-> P]] | [-> P]]; cbn;
    intros [= <- <- <-]; [left; reflexivity |].
  right. split; [reflexivity |]. now exists client, v.
Qed.

Lemma X25_witness :
  outcome (result (LegacyStartup.initialize
                     (fun _ => Resolved Fixtures.emptyAccount)
                     (Scenarios.freshWorld Scenarios.configWithoutToken (ret true))))
  = Rejected
      (mkErrorData InternalError "Authentication setup failed"
         (VError "Error"
            "Refresh token not found in config.json. Please run get-refresh-token.ts first."))
  /\ (error_code
        (mkErrorData InternalError "Authentication setup failed"
           (VError "Error"
              "Refresh token not found in config.json. Please run get-refresh-token.ts first."))
      = Some InternalError
      \/ (mkErrorData InternalError "Authentication setup failed"
            (VError "Error"
               "Refresh token not found in config.json. Please run get-refresh-token.ts first.")
          = TypeError_to_primitive
          /\ exists client v,
               (fun _ : OAuth2Client => Resolved Fixtures.emptyAccount) client
               = Rejected v
               /\ printable v = false))
  /\ LegacyStartup.requestHandlers
       (final_state (LegacyStartup.initialize
                       (fun _ => Resolved Fixtures.emptyAccount)
                       (Scenarios.freshWorld Scenarios.configWithoutToken (ret true))))
     = LegacyStartup.requestHandlers
         (Scenarios.freshWorld Scenarios.configWithoutToken (ret true))
  /\ LegacyStartup.health
       (final_state (LegacyStartup.initialize
                       (fun _ => Resolved Fixtures.emptyAccount)
                       (Scenarios.freshWorld Scenarios.configWithoutToken (ret true))))
     = LegacyStartup.health
         (Scenarios.freshWorld Scenarios.configWithoutToken (ret true)).
Proof.
  apply (X25_failed_initialize_registers_nothing
           (fun _ => Resolved Fixtures.emptyAccount)
           (Scenarios.freshWorld Scenarios.configWithoutToken (ret true))).
  reflexivity.
Defined.

(** A service that was constructed always holds a client and the credentials
    it was given; when building the client throws, the constructor rethrows
    that very error and counts it in [homegraph_init_failures]. *)
Lemma constructed_service_holds_a_client
    (factory : Outcome HgClient) (auth : OAuth2Client) :
  (forall svc,
      outcome (HomeGraphStartup.newHomeGraphService factory auth) = Resolved svc ->
      exists c, factory = Resolved c
                /\ HomeGraph.svc_homegraph svc = Some c
                /\ HomeGraph.svc_auth svc = auth)
  /\ (forall e,
        outcome (HomeGraphStartup.newHomeGraphService factory auth) = Rejected e ->
        factory = Rejected e
        /\ trace (HomeGraphStartup.newHomeGraphService factory auth)
           = [Increment "homegraph_init_failures"]).
Proof.
  unfold HomeGraphStartup.newHomeGraphService.
  destruct factory as [c | e0]; split.
  - intros svc [= <-]. now exists c.
  - intros e [=].
  - intros svc [=].
  - intros e [= <-]. split; reflexivity.
Qed.

(* ------------------------------------------------------------------ *)
(** ** What a tool call leaves in the metrics                          *)
(* ------------------------------------------------------------------ *)

Lemma trace_measureOperation {A} (name : string) (op : Eff A) :
  trace (measureOperation name op)
  = (trace op
       ++ match outcome op with
          | Resolved _ =>
              [Duration (name ++ "_duration_ms"); Increment (name ++ "_total")]
          | Rejected _ => [Increment (name ++ "_errors")]
          end)%list.
Proof. destruct op as [t [a | e]]; reflexivity. Qed.

Section CallMetrics.

Variable JSON_stringify : JsVal -> nat -> JsVal.

(** X26 (call-tool handlers, bracketing metrics).  Every call-tool request,
    to either server and whatever it does, first counts the call in
    [tool_execution_<name>] and last records its end: the duration and
    [execute_tool_<name>_total] if and only if the call resolves,
    [execute_tool_<name>_errors] if and only if it rejects. *)
Theorem X26_callTool_counts_start_and_end
    (l : Legacy.Server) (s : HomeGraph.Server) (name : string) (args : JsVal) :
  (exists middle,
      trace (Legacy.callTool l name args)
      = (Increment ("tool_execution_" ++ name) :: middle
           ++ match outcome (Legacy.callTool l name args) with
              | Resolved _ =>
                  [Duration ("execute_tool_" ++ name ++ "_duration_ms");
                   Increment ("execute_tool_" ++ name ++ "_total")]
              | Rejected _ => [Increment ("execute_tool_" ++ name ++ "_errors")]
              end)%list)
  /\ (exists middle,
      trace (HomeGraph.callTool JSON_stringify s name args)
      = (Increment ("tool_execution_" ++ name) :: middle
           ++ match outcome (HomeGraph.callTool JSON_stringify s name args) with
              | Resolved _ =>
                  [Duration ("execute_tool_" ++ name ++ "_duration_ms");
                   Increment ("execute_tool_" ++ name ++ "_total")]
              | Rejected _ => [Increment ("execute_tool_" ++ name ++ "_errors")]
              end)%list).
Proof.
  split.
  - unfold Legacy.callTool.
    rewrite measureOperation_outcome, trace_measureOperation, trace_bind.
    cbn [emit trace outcome fst snd app]. eexists. reflexivity.
  - unfold HomeGraph.callTool.
    rewrite measureOperation_outcome, trace_measureOperation, trace_bind.
    cbn [emit trace outcome fst snd app]. eexists. reflexivity.
Qed.

End CallMetrics.
